(** * nanobot agent memory: memory store, vector store and chunker

    A shallow embedding of [nanobot/agent/vectorstore.py] and
    [nanobot/agent/memory.py], and the properties of the memory subsystem
    proved over it.

    - Python [str] values are sequences of Unicode code points.
    - The file system, the ChromaDB collection, the loguru sink and the clock
      form an explicit world that every method threads through a small
      state-and-exception monad. The clock stands still during a call and
      between the calls of one scenario.
    - Text files are read and written in text mode, as [Path.read_text] and
      [Path.write_text] do. A path that names a directory makes a read or a
      write raise; a write also raises when the directory of the file is
      missing, and when the text holds a surrogate, which UTF-8 cannot
      encode: the file is then left empty. Other failures of the operating
      system (permissions, a full disk, bytes that do not decode) are
      outside the model.
    - ChromaDB is an interface ([Backend]), whose methods may raise as they
      please; [Chroma] is its reference instance, a finite map from chunk
      ids to documents with metadata, searched by distance. *)

From Stdlib Require Import ZArith List Ascii String Sorting.Sorted.
From stdpp Require Import base option list sorting gmap pretty.

Set Default Proof Using "Type".
Local Open Scope Z_scope.

(** ** Python strings *)

Module Py.

(** A character is a Unicode code point; a [str] is a sequence of them. *)
Definition char := N.
Definition str := list char.

(** A string literal of the source (ASCII text) as a [str]. *)
Definition lit (s : string) : str := N_of_ascii <$> list_ascii_of_string s.

Definition LF : char := 10%N.
Definition CR : char := 13%N.

(** [str.isspace] for one character: the code points CPython's
    [_PyUnicode_IsWhitespace] accepts. *)
Definition isspace (c : char) : bool :=
  ((9 <=? c) && (c <=? 13) || (28 <=? c) && (c <=? 32)
   || (c =? 133) || (c =? 160) || (c =? 5760)
   || (8192 <=? c) && (c <=? 8202)
   || (c =? 8232) || (c =? 8233) || (c =? 8239) || (c =? 8287)
   || (c =? 12288))%N.

(** [s.lstrip()], [s.rstrip()] and [s.strip()] with no argument. *)
Fixpoint lstrip (s : str) : str :=
  match s with
  | c :: t => if isspace c then lstrip t else s
  | [] => []
  end.

Definition rstrip (s : str) : str := rev (lstrip (rev s)).

Definition strip (s : str) : str := rstrip (lstrip s).

(** [s.split(sep)] for a separator of two characters [a b], as in
    [text.split("\n\n")]: the text is cut at the leftmost occurrences of the
    separator, scanning left to right; pieces may be empty. *)
Fixpoint split2 (a b : char) (s : str) : list str :=
  match s with
  | [] => [[]]
  | c :: t =>
      match t with
      | d :: t' =>
          if (c =? a)%N && (d =? b)%N then [] :: split2 a b t'
          else match split2 a b t with
               | p :: ps => (c :: p) :: ps
               | [] => [[c]]
               end
      | [] => [[c]]
      end
  end.

(** [sep.join(parts)]. *)
Fixpoint join (sep : str) (parts : list str) : str :=
  match parts with
  | [] => []
  | [p] => p
  | p :: ps => p ++ sep ++ join sep ps
  end.

(** [str(n)] / [f"{n}"] for an integer. *)
Definition of_int (n : Z) : str := lit (pretty n).

(** [f"{n}"] for a length or an index. *)
Definition of_nat (n : nat) : str := of_int (Z.of_nat n).

(** [bool(s)]: a string is true when it is not empty. *)
Definition truthy (s : str) : bool :=
  match s with [] => false | _ => true end.

(** The order of [str] comparison: lexicographic on code points. *)
Fixpoint ltb (s t : str) : bool :=
  match s, t with
  | [], [] => false
  | [], _ :: _ => true
  | _ :: _, [] => false
  | c :: s', d :: t' => (c <? d)%N || (c =? d)%N && ltb s' t'
  end.

(** A surrogate, U+D800 to U+DFFF: a [str] may hold one, but UTF-8 has no
    bytes for it. *)
Definition is_surrogate (c : char) : bool :=
  ((55296 <=? c) && (c <=? 57343))%N.

(** [s.encode("utf-8")] succeeds: [s] holds no surrogate. *)
Definition encodable (s : str) : bool :=
  forallb (fun c => negb (is_surrogate c)) s.

(** The number of characters at the front of [s] that satisfy [f]. *)
Fixpoint run_length (f : char → bool) (s : str) : nat :=
  match s with
  | c :: t => if f c then S (run_length f t) else O
  | [] => O
  end.

(** [f"{c:04x}"] for a code point below 65536. *)
Definition hex_digit (d : N) : char :=
  (if d <? 10 then 48 + d else 87 + d)%N.

Definition hex4 (c : char) : str :=
  [hex_digit (c / 4096 mod 16); hex_digit (c / 256 mod 16);
   hex_digit (c / 16 mod 16); hex_digit (c mod 16)]%N.

End Py.

Arguments Py.lit : simpl never.
Arguments Py.of_int : simpl never.
Arguments Py.of_nat : simpl never.

Notation "'py' s" := (Py.lit s%string) (at level 10, s at level 9, only parsing).

(** ** The chunker: [VectorStore._split_paragraphs] *)

Module Chunker.

Definition MIN_CHUNK_LENGTH : nat := 50.

(** [_split_paragraphs(text)]:
    [[p.strip() for p in text.split("\n\n") if len(p.strip()) >= 50]]. *)
Definition _split_paragraphs (text : Py.str) : list Py.str :=
  let paragraphs := Py.split2 Py.LF Py.LF text in
  Py.strip <$>
    List.filter (fun p => (MIN_CHUNK_LENGTH <=? length (Py.strip p))%nat)
                paragraphs.

End Chunker.

(** ** The world: files, index, log and clock *)

(** An exception object: an instance of a subclass of [Exception], with the
    text [str(e)] gives. *)
Inductive exn := Exception (cls : Py.str) (msg : Py.str).

Definition exn_str (e : exn) : Py.str := let 'Exception _ msg := e in msg.

Inductive result (A : Type) :=
  | Ok (a : A)
  | Raise (e : exn).
Arguments Ok {A} a.
Arguments Raise {A} e.

(** A [pathlib.Path], by its components. *)
Abbreviation Path := (list Py.str) (only parsing).

(** [path / name], for a [name] that is a single component. *)
Definition joinpath (path : Path) (name : Py.str) : Path := path ++ [name].
Infix "//" := joinpath (at level 40, left associativity).

Module PurePath.

(** [path.name]: the final component. *)
Definition name (path : Path) : Py.str := List.last path [].

(** [path.parent]: the path without its final component. *)
Definition parent (path : Path) : Path := removelast path.

(** [s.rfind(c)], counting positions from [i]. *)
Fixpoint rfind_from (i : nat) (c : Py.char) (s : Py.str) : option nat :=
  match s with
  | [] => None
  | d :: t =>
      match rfind_from (S i) c t with
      | Some j => Some j
      | None => if (d =? c)%N then Some i else None
      end
  end.

(** [path.stem]: the final component without its last suffix; a dot that
    starts or ends the name opens no suffix. *)
Definition stem (path : Path) : Py.str :=
  let nm := name path in
  match rfind_from 0 46%N nm with
  | Some i => if ((0 <? i) && (i <? length nm - 1))%nat then take i nm else nm
  | None => nm
  end.

(** [fnmatch] for the patterns the store uses: [?] stands for any one
    character, every other character for itself. *)
Fixpoint fnmatch (pat nm : Py.str) : bool :=
  match pat, nm with
  | [], [] => true
  | p :: pat', c :: nm' => ((p =? 63)%N || (p =? c)%N) && fnmatch pat' nm'
  | _, _ => false
  end.

(** [p < q] on paths: lexicographic on the components. *)
Fixpoint ltb (p q : Path) : bool :=
  match p, q with
  | [], [] => false
  | [], _ :: _ => true
  | _ :: _, [] => false
  | a :: p', b :: q' => Py.ltb a b || bool_decide (a = b) && ltb p' q'
  end.

(** [p >= q], the order [sorted(..., reverse=True)] arranges paths in. *)
Definition ge (p q : Path) : Prop := ltb p q = false.

#[global] Instance ge_dec : RelDecision ge.
Proof. intros p q. unfold ge. apply _. Defined.

End PurePath.

(** What a path names on disk: a text file with its stored text, or a
    directory. *)
Inductive node :=
  | File (content : Py.str)
  | Dir.

Inductive level := DEBUG | INFO | WARNING.

Record World (B : Type) := mkWorld {
  fs : gmap Path node;            (* the disk *)
  index : B;                      (* the state behind [self._collection] *)
  log : list (level * Py.str);    (* what loguru has received, oldest first *)
  today_ordinal : Z               (* [datetime.now().date().toordinal()] *)
}.
Arguments mkWorld {B}.
Arguments fs {B}.
Arguments index {B}.
Arguments log {B}.
Arguments today_ordinal {B}.

Definition set_fs {B : Type} (f : gmap Path node → gmap Path node) (w : World B) :=
  mkWorld (f (fs w)) (index w) (log w) (today_ordinal w).
Definition set_index {B : Type} (b : B) (w : World B) :=
  mkWorld (fs w) b (log w) (today_ordinal w).
Definition add_log {B : Type} (l : level) (msg : Py.str) (w : World B) :=
  mkWorld (fs w) (index w) (log w ++ [(l, msg)]) (today_ordinal w).

(** ** The monad of methods: state and exceptions *)

Definition M (B A : Type) : Type := World B → result A * World B.

Definition ret {B A : Type} (a : A) : M B A := fun w => (Ok a, w).

Definition bind {B A C : Type} (m : M B A) (k : A → M B C) : M B C :=
  fun w =>
    match m w with
    | (Ok a, w') => k a w'
    | (Raise e, w') => (Raise e, w')
    end.

(** [try: m  except Exception as e: ...]: the outcome of [m] as a value. *)
Definition catch {B A : Type} (m : M B A) : M B (result A) :=
  fun w => let '(r, w') := m w in (Ok r, w').

Declare Scope py_scope.
Delimit Scope py_scope with py_m.
Notation "x <- m ;; k" := (bind m (fun x => k))
  (at level 20, m at level 99, k at level 200, only parsing) : py_scope.
Notation "m ;; k" := (bind m (fun _ => k))
  (at level 100, k at level 200, only parsing, right associativity) : py_scope.
Local Open Scope py_scope.

(** [for x in xs: acc = body(acc, x)]. *)
Fixpoint for_each {B A S : Type} (xs : list A) (body : S → A → M B S) (acc : S)
  : M B S :=
  match xs with
  | [] => ret acc
  | x :: xs' => acc' <- body acc x ;; for_each xs' body acc'
  end.

(** *** Text files *)

(** Reading in text mode with the default [newline=None]: universal
    newlines, every ["\r\n"] and every lone ["\r"] of the stored text is
    read as ["\n"]. *)
Fixpoint universal_newlines (s : Py.str) : Py.str :=
  match s with
  | [] => []
  | c :: t =>
      if (c =? Py.CR)%N then
        match t with
        | d :: t' =>
            if (d =? Py.LF)%N then Py.LF :: universal_newlines t'
            else Py.LF :: universal_newlines t
        | [] => [Py.LF]
        end
      else c :: universal_newlines t
  end.

(** The [UnicodeEncodeError] that encoding [data] as UTF-8 raises: it names
    the first run of surrogates in [data], by its character when the run is
    a single one and by its first and last position otherwise. *)
Definition encode_error (data : Py.str) : exn :=
  let start := Py.run_length (fun c => negb (Py.is_surrogate c)) data in
  let bad := drop start data in
  let run := Py.run_length Py.is_surrogate bad in
  Exception (py "UnicodeEncodeError")
    (py "'utf-8' codec can't encode character"
       ++ (if (run =? 1)%nat then
             py " '\u" ++ Py.hex4 (default 0%N (head bad))
               ++ py "' in position " ++ Py.of_nat start
           else
             py "s in position " ++ Py.of_nat start
               ++ py "-" ++ Py.of_nat (start + run - 1))
       ++ py ": surrogates not allowed").

Section FileSystem.
Context {B : Type}.

(** [path.exists()]. *)
Definition path_exists (path : Path) : M B bool :=
  fun w => (Ok (bool_decide (is_Some (fs w !! path))), w).

(** [path.read_text(encoding="utf-8")]. *)
Definition read_text (path : Path) : M B Py.str :=
  fun w =>
    match fs w !! path with
    | Some (File content) => (Ok (universal_newlines content), w)
    | Some Dir => (Raise (Exception (py "IsADirectoryError") []), w)
    | None => (Raise (Exception (py "FileNotFoundError") []), w)
    end.

(** [path.write_text(data, encoding="utf-8")] where the line separator is
    ["\n"]. The file is opened for writing first: that fails when its
    directory is missing or is a file, or when the path names a directory,
    and otherwise creates the file or empties it. Then [data] is encoded and
    written: a surrogate in [data] makes the encoding raise and leaves the
    file empty. *)
Definition write_text (path : Path) (data : Py.str) : M B unit :=
  fun w =>
    match fs w !! PurePath.parent path with
    | None => (Raise (Exception (py "FileNotFoundError") []), w)
    | Some (File _) => (Raise (Exception (py "NotADirectoryError") []), w)
    | Some Dir =>
        match fs w !! path with
        | Some Dir => (Raise (Exception (py "IsADirectoryError") []), w)
        | _ =>
            if Py.encodable data then
              (Ok tt, set_fs <[path := File data]> w)
            else (Raise (encode_error data), set_fs <[path := File []]> w)
        end
    end.

(** [path.glob(pattern)] for a pattern of one component: the entries of the
    directory whose name matches. *)
Definition glob (path : Path) (pattern : Py.str) : M B (list Path) :=
  fun w =>
    (Ok (List.filter
           (fun p => bool_decide (p = path // PurePath.name p)
                     && PurePath.fnmatch pattern (PurePath.name p))
           (map_to_list (fs w)).*1), w).

(** [logger.debug], [logger.info], [logger.warning]. *)
Definition logger (l : level) (msg : Py.str) : M B unit :=
  fun w => (Ok tt, add_log l msg w).

End FileSystem.

(** ** The ChromaDB collection, as the stores use it *)

(** The metadata of a chunk: a dict from keys to strings. *)
Abbreviation Metadata := (gmap Py.str Py.str).

(** A [where] filter: the dicts [{}], [{k: v}], [{k: {"$ne": v}}] and
    [{"$and": [...]}]. *)
#[warnings="-register-all"] Inductive Where :=
  | WEmpty
  | WEq (key value : Py.str)
  | WNe (key value : Py.str)
  | WAnd (clauses : list Where).

(** [bool(where)] for a dict: only the empty dict is false. *)
Definition where_truthy (wh : Where) : bool :=
  match wh with WEmpty => false | _ => true end.

(** What [collection.query] returns: per query text, the ids and (when
    included) the documents of the matches. *)
Record QueryResult := mkQueryResult {
  qr_ids : list (list Py.str);
  qr_documents : option (list (list Py.str))
}.

(** The methods of a collection that the vector store calls. Each may raise
    and may change the state [B] behind the collection. *)
Class Backend (B : Type) := {
  coll_upsert : list Py.str → list Py.str → list Metadata → B → result unit * B;
  coll_query : list Py.str → Z → option Where → B → result QueryResult * B;
  coll_delete : Where → B → result unit * B;
  coll_count : B → result Z * B
}.

(** The calendar behind [today_date()] of [nanobot.utils.helpers] and
    behind [date.strftime("%Y-%m-%d")]: the text of the day with a given
    ordinal. *)
Class Calendar := { strftime_ymd : Z → Py.str }.

(** A call of a collection method inside a store method. *)
Definition call {B A : Type} (f : B → result A * B) : M B A :=
  fun w => let '(r, b) := f (index w) in (r, set_index b w).

(** ** [nanobot/agent/vectorstore.py] *)

Module VectorStore.

(** The object: it holds the client and the collection opened on
    [persist_dir]; the collection's content is [index] of the world. *)
Record t := mk { persist_dir : Path }.

Section Methods.
Context {B : Type} `{!Backend B}.

(** [_collection.upsert(ids=, documents=, metadatas=)] and its siblings. *)
Definition _collection_upsert ids documents metadatas : M B unit :=
  call (coll_upsert ids documents metadatas).
Definition _collection_query query_texts n_results where_ : M B QueryResult :=
  call (coll_query query_texts n_results where_).
Definition _collection_delete where_ : M B unit := call (coll_delete where_).
Definition _collection_count : M B Z := call coll_count.

(** The ids [f"{source}::{i}" for i in range(k)]. *)
Definition chunk_id (source : Py.str) (i : nat) : Py.str :=
  source ++ py "::" ++ Py.of_nat i.

Definition chunk_ids (source : Py.str) (k : nat) : list Py.str :=
  chunk_id source <$> seq 0 k.

(** The metadata [{"source": source, "type": doc_type}]. *)
Definition chunk_metadata (source doc_type : Py.str) : Metadata :=
  {[ py "source" := source; py "type" := doc_type ]}.

Definition upsert_file (self : t) (file_path : Path) (doc_type : Py.str)
  : M B Z :=
  found <- path_exists file_path ;;
  if negb found then ret 0
  else
    text <- read_text file_path ;;
    let chunks := Chunker._split_paragraphs text in
    match chunks with
    | [] => ret 0
    | _ =>
        let source := PurePath.stem file_path in
        let ids := chunk_ids source (length chunks) in
        let metadatas := (fun _ => chunk_metadata source doc_type) <$> chunks in
        _collection_upsert ids chunks metadatas ;;
        ret (Z.of_nat (length chunks))
    end.

(** The [where] entry of [kwargs]: set [if where:], that is for a filter
    that is neither [None] nor the empty dict. *)
Definition kwargs_where (where_ : option Where) : option Where :=
  match where_ with
  | Some wh => if where_truthy wh then Some wh else None
  | None => None
  end.

Definition search (self : t) (query : Py.str) (n_results : Z)
    (where_ : option Where) : M B (list Py.str) :=
  r <- catch (_collection_query [query] n_results (kwargs_where where_)) ;;
  match r with
  | Raise e =>
      logger WARNING (py "VectorStore search failed: " ++ exn_str e) ;;
      ret []
  | Ok results =>
      match qr_documents results with
      | Some (first :: _) =>
          match first with
          | _ :: _ => ret first
          | [] => ret []
          end
      | _ => ret []
      end
  end.

Definition delete_by_source (self : t) (source_name : Py.str) : M B unit :=
  _collection_delete (WEq (py "source") source_name).

Definition count (self : t) : M B Z := _collection_count.

End Methods.
End VectorStore.

(** ** [nanobot/agent/memory.py] *)

Module MemoryStore.

(** The object. [memory_dir] and [memory_file] are set once by the
    constructor, to [workspace / "memory"] and [memory_dir / "MEMORY.md"];
    [_vector] is the vector store, or [None] when RAG is disabled. *)
Record t := mk {
  workspace : Path;
  _vector : option VectorStore.t
}.

Definition memory_dir (self : t) : Path := workspace self // py "memory".
Definition memory_file (self : t) : Path := memory_dir self // py "MEMORY.md".

Section Methods.
Context {B : Type} `{!Backend B} `{!Calendar}.

(** [today_date()]. *)
Definition today_date : M B Py.str :=
  fun w => (Ok (strftime_ymd (today_ordinal w)), w).

(** [today - timedelta(days=i)], as an ordinal; no date lies before
    0001-01-01, whose ordinal is 1. *)
Definition days_before_today (i : Z) : M B Z :=
  fun w =>
    if 1 <=? today_ordinal w - i then (Ok (today_ordinal w - i), w)
    else (Raise (Exception (py "OverflowError") (py "date value out of range")), w).

Definition get_today_file (self : t) : M B Path :=
  today <- today_date ;;
  ret (memory_dir self // (today ++ py ".md")).

Definition read_today (self : t) : M B Py.str :=
  today_file <- get_today_file self ;;
  found <- path_exists today_file ;;
  if found then read_text today_file else ret [].

Definition append_today (self : t) (content : Py.str) : M B unit :=
  today_file <- get_today_file self ;;
  found <- path_exists today_file ;;
  content <-
    (if found then
       existing <- read_text today_file ;;
       ret (existing ++ py (String "010" "") ++ content)
     else
       today <- today_date ;;
       let header := py "# " ++ today ++ py (String "010" (String "010" "")) in
       ret (header ++ content)) ;;
  write_text today_file content ;;
  match _vector self with
  | Some vector =>
      r <- catch (VectorStore.upsert_file vector today_file (py "daily")) ;;
      match r with
      | Ok _ => ret tt
      | Raise e =>
          logger WARNING
            (py "Failed to upsert today's notes to vector store: " ++ exn_str e)
      end
  | None => ret tt
  end.

Definition read_long_term (self : t) : M B Py.str :=
  found <- path_exists (memory_file self) ;;
  if found then read_text (memory_file self) else ret [].

Definition write_long_term (self : t) (content : Py.str) : M B unit :=
  write_text (memory_file self) content ;;
  match _vector self with
  | Some vector =>
      r <- catch (VectorStore.upsert_file vector (memory_file self)
                    (py "long_term")) ;;
      match r with
      | Ok _ => ret tt
      | Raise e =>
          logger WARNING
            (py "Failed to upsert MEMORY.md to vector store: " ++ exn_str e)
      end
  | None => ret tt
  end.

(** The separator ["\n\n---\n\n"]. *)
Definition SEPARATOR : Py.str :=
  [Py.LF; Py.LF] ++ py "---" ++ [Py.LF; Py.LF].

(** [range(days)]. *)
Definition range (n : Z) : list Z := Z.of_nat <$> seq 0 (Z.to_nat n).

Definition get_recent_memories (self : t) (days : Z) : M B Py.str :=
  memories <-
    for_each (range days)
      (fun memories i =>
         date <- days_before_today i ;;
         let date_str := strftime_ymd date in
         let file_path := memory_dir self // (date_str ++ py ".md") in
         found <- path_exists file_path ;;
         if found then
           content <- read_text file_path ;;
           ret (memories ++ [content])
         else ret memories)
      [] ;;
  ret (Py.join SEPARATOR memories).

(** [sorted(files, reverse=True)]. *)
Definition sorted_reverse (files : list Path) : list Path :=
  merge_sort PurePath.ge files.

Definition list_memory_files (self : t) : M B (list Path) :=
  found <- path_exists (memory_dir self) ;;
  if negb found then ret []
  else
    files <- glob (memory_dir self) (py "????-??-??.md") ;;
    ret (sorted_reverse files).

(** The filter [{"$and": [{"type": "daily"}, {"source": {"$ne": today}}]}]. *)
Definition past_daily (today_stem : Py.str) : Where :=
  WAnd [WEq (py "type") (py "daily"); WNe (py "source") today_stem].

Definition get_memory_context (self : t) (query : option Py.str)
  : M B Py.str :=
  let parts := [] in
  long_term <- read_long_term self ;;
  let parts :=
    if Py.truthy long_term
    then parts ++ [py "## Long-term Memory" ++ [Py.LF] ++ long_term]
    else parts in
  today <- read_today self ;;
  let parts :=
    if Py.truthy today
    then parts ++ [py "## Today's Notes" ++ [Py.LF] ++ today]
    else parts in
  parts <-
    match query, _vector self with
    | Some query, Some vector =>
        if Py.truthy query then
          today_file <- get_today_file self ;;
          found <- path_exists today_file ;;
          (if found
           then catch (VectorStore.upsert_file vector today_file (py "daily")) ;;
                ret tt
           else ret tt) ;;
          today_stem <- today_date ;;
          results <- VectorStore.search vector query 5
                       (Some (past_daily today_stem)) ;;
          match results with
          | _ :: _ =>
              let chunks := Py.join SEPARATOR results in
              ret (parts ++ [py "## Relevant Past Memories" ++ [Py.LF] ++ chunks])
          | [] => ret parts
          end
        else ret parts
    | _, _ => ret parts
    end ;;
  ret (match parts with
       | _ :: _ => Py.join [Py.LF; Py.LF] parts
       | [] => []
       end).

(** The line [f"--- Fragment {i} ---\n{chunk}\n"]. *)
Definition fragment (i : nat) (chunk : Py.str) : Py.str :=
  py "--- Fragment " ++ Py.of_nat i ++ py " ---" ++ [Py.LF] ++ chunk ++ [Py.LF].

Definition UNAVAILABLE : Py.str :=
  py "Semantic search unavailable (chromadb not installed). Use read_file to read memory files directly.".

Definition search_memory (self : t) (query : Py.str) (n_results : Z)
  : M B Py.str :=
  match _vector self with
  | None => ret UNAVAILABLE
  | Some vector =>
      today_file <- get_today_file self ;;
      found <- path_exists today_file ;;
      (if found
       then catch (VectorStore.upsert_file vector today_file (py "daily")) ;;
            ret tt
       else ret tt) ;;
      results <- VectorStore.search vector query n_results None ;;
      match results with
      | [] => ret (py "No memories found for: " ++ query)
      | _ =>
          let lines :=
            [py "Found " ++ Py.of_nat (length results)
               ++ py " relevant memory fragments:" ++ [Py.LF]] in
          let lines :=
            lines ++ imap (fun i chunk => fragment (S i) chunk) results in
          ret (Py.join [Py.LF] lines)
      end
  end.

Definition _reindex_all (self : t) : M B unit :=
  match _vector self with
  | None => ret tt
  | Some vector =>
      let total := 0 in
      found <- path_exists (memory_file self) ;;
      total <-
        (if found then
           n <- VectorStore.upsert_file vector (memory_file self)
                  (py "long_term") ;;
           ret (total + n)
         else ret total) ;;
      files <- list_memory_files self ;;
      total <-
        for_each files
          (fun total f =>
             n <- VectorStore.upsert_file vector f (py "daily") ;;
             ret (total + n))
          total ;;
      files' <- list_memory_files self ;;
      logger INFO
        (py "Reindexed memory: " ++ Py.of_int total ++ py " chunks from "
           ++ Py.of_nat (length files') ++ py " daily files + MEMORY.md")
  end.

End Methods.
End MemoryStore.

(** ** [nanobot/agent/tools/memory_search.py] *)

Module MemorySearchTool.

Record t := mk { _memory : MemoryStore.t }.

Section Methods.
Context {B : Type} `{!Backend B} `{!Calendar}.

(** [execute(query, count=10)], awaited: [count] is [None] when the caller
    leaves it out. *)
Definition execute (self : t) (query : Py.str) (count : option Z)
  : M B Py.str :=
  MemoryStore.search_memory (_memory self) query (default 10 count).

End Methods.
End MemorySearchTool.

(** ** The reference collection *)

Module Chroma.

(** A stored chunk: its text and its metadata; the collection maps ids to
    chunks. *)
Record Entry := mkEntry { document : Py.str; metadata : Metadata }.

(** The embedding engine: how far a stored text lies from a query text, in
    the engine's own totally ordered units (smaller is closer). *)
Class Embedding := { distance : Py.str → Py.str → Z }.

(** Whether a chunk's metadata passes a filter. *)
Fixpoint where_matches (wh : Where) (md : Metadata) : bool :=
  match wh with
  | WEmpty => true
  | WEq k v => bool_decide (md !! k = Some v)
  | WNe k v => negb (bool_decide (md !! k = Some v))
  | WAnd clauses => forallb (fun c => where_matches c md) clauses
  end.

(** The records an upsert writes: id [i] with document [i] and metadata [i]. *)
Definition records (ids documents : list Py.str) (metadatas : list Metadata)
  : list (Py.str * Entry) :=
  zip ids (zip_with mkEntry documents metadatas).

(** [upsert]: ids must be given, distinct, and as many as the documents and
    the metadatas; each id then holds its new chunk, whether it existed or
    not, and every other id is kept. *)
Definition upsert (ids documents : list Py.str) (metadatas : list Metadata)
    (c : gmap Py.str Entry) : result unit * gmap Py.str Entry :=
  if bool_decide (ids = []) then
    (Raise (Exception (py "ValueError") (py "Expected IDs to be a non-empty list")), c)
  else if negb (bool_decide (NoDup ids)) then
    (Raise (Exception (py "DuplicateIDError") (py "Expected IDs to be unique")), c)
  else if negb ((length documents =? length ids)%nat
                && (length metadatas =? length ids)%nat) then
    (Raise (Exception (py "ValueError") (py "Unequal lengths")), c)
  else (Ok tt, list_to_map (records ids documents metadatas) ∪ c).

Section Query.
Context `{!Embedding}.

(** [a] is at least as close to [q] as [b]. *)
Definition closer (q : Py.str) (a b : Py.str * Entry) : Prop :=
  distance q (document a.2) ≤ distance q (document b.2).

#[global] Instance closer_dec q : RelDecision (closer q).
Proof. intros a b. unfold closer. apply _. Defined.

(** The [n] chunks nearest to [q] among those that pass the filter,
    nearest first. *)
Definition nearest (q : Py.str) (n : Z) (wh : option Where)
    (c : gmap Py.str Entry) : list (Py.str * Entry) :=
  let candidates :=
    List.filter
      (fun kv => match wh with
                 | Some f => where_matches f (metadata kv.2)
                 | None => true
                 end)
      (map_to_list c) in
  take (Z.to_nat n) (merge_sort (closer q) candidates).

(** [query]: the number of results must be positive. *)
Definition query (query_texts : list Py.str) (n_results : Z)
    (wh : option Where) (c : gmap Py.str Entry)
  : result QueryResult * gmap Py.str Entry :=
  if n_results <=? 0 then
    (Raise (Exception (py "TypeError")
              (py "Number of requested results cannot be negative, or zero.")), c)
  else
    (Ok {| qr_ids := (fun q => (nearest q n_results wh c).*1) <$> query_texts;
           qr_documents :=
             Some ((fun q => (document ∘ snd) <$> nearest q n_results wh c)
                     <$> query_texts) |}, c).

End Query.

(** [delete(where=)]: the chunks that pass the filter go. *)
Definition delete (wh : Where) (c : gmap Py.str Entry)
  : result unit * gmap Py.str Entry :=
  (Ok tt, filter (fun kv => where_matches wh (metadata kv.2) = false) c).

Definition count (c : gmap Py.str Entry) : result Z * gmap Py.str Entry :=
  (Ok (Z.of_nat (size c)), c).

#[global] Instance backend `{!Embedding} : Backend (gmap Py.str Entry) :=
  {| coll_upsert := upsert;
     coll_query := query;
     coll_delete := delete;
     coll_count := count |}.

End Chroma.

(** A collection whose every call fails, as when the database is
    unreachable. *)
Module Unreachable.

Definition failure : exn :=
  Exception (py "RuntimeError") (py "database is unreachable").

#[global] Instance backend : Backend unit :=
  {| coll_upsert := fun _ _ _ b => (Raise failure, b);
     coll_query := fun _ _ _ b => (Raise failure, b);
     coll_delete := fun _ b => (Raise failure, b);
     coll_count := fun b => (Raise failure, b) |}.

End Unreachable.

(** ** The proleptic Gregorian calendar of [datetime.date] *)

Module Gregorian.

(** [n] in decimal, zero-padded to [width] digits, as ["%m"] and ["%d"]
    print a month and a day. *)
Fixpoint digits (width : nat) (n : Z) : Py.str :=
  match width with
  | O => []
  | S k => digits k (n / 10) ++ [Z.to_N (48 + n mod 10)]
  end.

(** Year, month and day of the day with ordinal [o] (ordinal 1 is
    0001-01-01). *)
Definition ymd (o : Z) : Z * Z * Z :=
  let z := o + 305 in
  let era := z / 146097 in
  let doe := z - era * 146097 in
  let yoe := (doe - doe / 1460 + doe / 36524 - doe / 146096) / 365 in
  let doy := doe - (365 * yoe + yoe / 4 - yoe / 100) in
  let mp := (5 * doy + 2) / 153 in
  let d := doy - (153 * mp + 2) / 5 + 1 in
  let m := if mp <? 10 then mp + 3 else mp - 9 in
  let y := yoe + era * 400 + (if m <=? 2 then 1 else 0) in
  (y, m, d).

(** [date.strftime("%Y-%m-%d")] with the C library of Linux, where ["%Y"]
    prints the year in decimal without padding: the first day is
    ["1-01-01"]. *)
#[global] Instance calendar : Calendar :=
  {| strftime_ymd := fun o =>
       let '(y, m, d) := ymd o in
       Py.of_int y ++ py "-" ++ digits 2 m ++ py "-" ++ digits 2 d |}.

End Gregorian.

(** Methods are unfolded by name in the proofs, never by [simpl]. *)
Arguments joinpath : simpl never.
Arguments PurePath.stem : simpl never.
Arguments universal_newlines : simpl never.
Arguments Chunker._split_paragraphs : simpl never.
Arguments VectorStore.upsert_file : simpl never.
Arguments VectorStore.search : simpl never.
Arguments VectorStore.chunk_ids : simpl never.
Arguments VectorStore.chunk_metadata : simpl never.
Arguments MemoryStore.memory_dir : simpl never.
Arguments MemoryStore.memory_file : simpl never.
Arguments MemoryStore.past_daily : simpl never.

(** * Specifications *)

(** ** The chunker, in the words of its specification *)

Module ChunkerSpec.

(** The specification of trimming: [c] is [p] without a run of whitespace
    at its front and one at its back, and has no whitespace at either end. *)
Definition trimmed (p c : Py.str) : Prop :=
  ∃ l r, p = l ++ c ++ r
         ∧ Forall (fun x => Py.isspace x = true) l
         ∧ Forall (fun x => Py.isspace x = true) r
         ∧ (∀ x, head c = Some x → Py.isspace x = false)
         ∧ (∀ x, last c = Some x → Py.isspace x = false).

(** [sep] occurs in [s]. *)
Definition occurs (sep s : Py.str) : Prop := ∃ u v, s = u ++ sep ++ v.

(** The specification of splitting at the separator [a b]: the text is cut
    at the first occurrence of the separator, then the rest is cut likewise;
    a text without the separator is one piece. *)
Inductive pieces (a b : Py.char) : Py.str → list Py.str → Prop :=
  | pieces_last p :
      ¬ occurs [a; b] p → pieces a b p [p]
  | pieces_cut p rest ps :
      ¬ occurs [a; b] (p ++ [a]) → pieces a b rest ps →
      pieces a b (p ++ [a; b] ++ rest) (p :: ps).

(** Of the paragraphs [ps], in their order, [chunks] are the trimmed ones of
    at least [MIN_CHUNK_LENGTH] characters; the shorter ones are dropped. *)
Inductive kept : list Py.str → list Py.str → Prop :=
  | kept_nil : kept [] []
  | kept_long p c ps chunks :
      trimmed p c → (Chunker.MIN_CHUNK_LENGTH ≤ length c)%nat →
      kept ps chunks → kept (p :: ps) (c :: chunks)
  | kept_short p c ps chunks :
      trimmed p c → (length c < Chunker.MIN_CHUNK_LENGTH)%nat →
      kept ps chunks → kept (p :: ps) chunks.

(** [chunks] are the chunks of [text]: its paragraphs, separated by blank
    lines, each trimmed, the short ones dropped, in document order. *)
Definition chunking (text : Py.str) (chunks : list Py.str) : Prop :=
  ∃ ps, pieces Py.LF Py.LF text ps ∧ kept ps chunks.

End ChunkerSpec.

(** ** Reading without writing *)

(** A method is read-only when, from every world, it leaves the whole world
    as it found it: the disk, the index and the log. *)
Definition read_only {B A : Type} (m : M B A) : Prop := ∀ w, (m w).2 = w.

(** The store [self] with RAG disabled. *)
Definition without_index (self : MemoryStore.t) : MemoryStore.t :=
  MemoryStore.mk (MemoryStore.workspace self) None.

(** ** Worlds before and after a method *)

Section Frames.
Context {B : Type} `{!Backend B} `{!Calendar}.

(** What a method may touch besides the index: nothing. *)
Definition same_outside_index (w w' : World B) : Prop :=
  fs w' = fs w ∧ log w' = log w ∧ today_ordinal w' = today_ordinal w.

(** Today's file, as [get_today_file] names it in the world [w]. *)
Definition today_file_in (self : MemoryStore.t) (w : World B) : Path :=
  MemoryStore.memory_dir self // (strftime_ymd (today_ordinal w) ++ py ".md").

(** What the indexing step adds to a write: the outcome of the upsert is
    dropped, its exception logged under [prefix]. *)
Definition after_indexing (vector : VectorStore.t) (path : Path)
    (doc_type prefix : Py.str) (w1 : World B) : result unit * World B :=
  match VectorStore.upsert_file vector path doc_type w1 with
  | (Ok _, w2) => (Ok tt, w2)
  | (Raise e, w2) => (Ok tt, add_log WARNING (prefix ++ exn_str e) w2)
  end.

End Frames.

(** ** What an upsert of a file writes *)

(** The records [upsert_file] hands to the collection for the chunks of a
    file: chunk [i] under the id [source::i], with the metadata
    [{source, type}]. *)
Definition written (source doc_type : Py.str) (chunks : list Py.str)
  : list (Py.str * Chroma.Entry) :=
  Chroma.records
    (VectorStore.chunk_ids source (length chunks)) chunks
    ((fun _ => VectorStore.chunk_metadata source doc_type) <$> chunks).

(** The chunks of the file at [path] as [upsert_file] reads them. *)
Definition chunks_of (content : Py.str) : list Py.str :=
  Chunker._split_paragraphs (universal_newlines content).

(** ** What a search finds *)

Section Hits.
Context `{!Chroma.Embedding}.

(** An entry passes a filter: there is none, or the entry matches it. *)
Definition passes (wh : option Where) (e : Chroma.Entry) : bool :=
  match wh with
  | Some f => Chroma.where_matches f (Chroma.metadata e)
  | None => true
  end.

(** [hits] are the [n] entries of the collection [c] nearest to [q] among
    those that pass [wh]: entries of [c] that pass, each once, nearest
    first, at most [n] of them; an entry that passes is left out only when
    [n] were taken, and then it is no nearer than any that was taken. *)
Definition top_hits (q : Py.str) (n : Z) (wh : option Where)
    (c : gmap Py.str Chroma.Entry) (hits : list (Py.str * Chroma.Entry))
  : Prop :=
  NoDup hits.*1
  ∧ (∀ id e, (id, e) ∈ hits → c !! id = Some e ∧ passes wh e = true)
  ∧ StronglySorted
      (fun a b => Chroma.distance q (Chroma.document a.2)
                  ≤ Chroma.distance q (Chroma.document b.2)) hits
  ∧ (length hits ≤ Z.to_nat n)%nat
  ∧ (∀ id e, c !! id = Some e → passes wh e = true → (id, e) ∉ hits →
       length hits = Z.to_nat n
       ∧ Forall (fun hit => Chroma.distance q (Chroma.document hit.2)
                            ≤ Chroma.distance q (Chroma.document e)) hits).

End Hits.

(** ** Refreshing and reporting *)

Section Reports.
Context {B : Type} `{!Backend B} `{!Calendar}.

(** The world once today's file, when there is one, has been re-indexed
    with the outcome ignored ([try: upsert_file(...) except Exception: pass]). *)
Definition refreshed (self : MemoryStore.t) (vector : VectorStore.t)
    (w : World B) : World B :=
  if bool_decide (is_Some (fs w !! today_file_in self w))
  then (VectorStore.upsert_file vector (today_file_in self w) (py "daily") w).2
  else w.

(** The numbered listing of the fragments found. *)
Definition listing (results : list Py.str) : Py.str :=
  Py.join [Py.LF]
    ((py "Found " ++ Py.of_nat (length results)
        ++ py " relevant memory fragments:" ++ [Py.LF])
     :: imap (fun i chunk => MemoryStore.fragment (S i) chunk) results).

(** The sentinel for an empty result. *)
Definition no_memories (query : Py.str) : Py.str :=
  py "No memories found for: " ++ query.

(** The context assembled from the long-term document, today's notes and
    the results of the semantic search, each section under its header. *)
Definition assembled (long_term today : Py.str) (results : list Py.str)
  : Py.str :=
  let exact :=
    (if Py.truthy long_term
     then [py "## Long-term Memory" ++ [Py.LF] ++ long_term] else [])
    ++ (if Py.truthy today
        then [py "## Today's Notes" ++ [Py.LF] ++ today] else []) in
  let relevant :=
    match results with
    | [] => []
    | _ => [py "## Relevant Past Memories" ++ [Py.LF]
              ++ Py.join MemoryStore.SEPARATOR results]
    end in
  match exact ++ relevant with
  | [] => []
  | parts => Py.join [Py.LF; Py.LF] parts
  end.

End Reports.

(** ** What [append_today] writes *)

Section TodayText.
Context {B : Type} `{!Calendar}.

(** The header of a new day, [f"# {today_date()}\n\n"]. *)
Definition header_in (w : World B) : Py.str :=
  py "# " ++ strftime_ymd (today_ordinal w)
    ++ py (String "010" (String "010" "")).

(** The text [append_today] writes to today's file: what it reads there,
    a newline and the content, or for a new day the header and the
    content. *)
Definition today_text (self : MemoryStore.t) (content : Py.str)
    (w : World B) : Py.str :=
  match fs w !! today_file_in self w with
  | Some (File existing) =>
      universal_newlines existing ++ py (String "010" "") ++ content
  | _ => header_in w ++ content
  end.

End TodayText.

(** ** Methods that leave the documents alone *)

(** A method keeps the disk when, from every world, it leaves every file
    and the clock as they were; the index and the log may change. *)
Definition keeps_disk {B A : Type} (m : M B A) : Prop :=
  ∀ w, fs (m w).2 = fs w ∧ today_ordinal (m w).2 = today_ordinal w.

(** ** The notes of the last days *)

Section Recent.
Context {B : Type} `{!Calendar}.

(** The file of the day [i] days before today. *)
Definition day_file (self : MemoryStore.t) (w : World B) (i : Z) : Path :=
  MemoryStore.memory_dir self
    // (strftime_ymd (today_ordinal w - i) ++ py ".md").

(** The texts of the files of the last [days] days that exist, today's
    first. *)
Definition recent_texts (self : MemoryStore.t) (w : World B) (days : Z)
  : list Py.str :=
  omap (fun i => match fs w !! day_file self w i with
                 | Some (File content) => Some (universal_newlines content)
                 | _ => None
                 end)
       (MemoryStore.range days).


End Recent.

Section RecentStep.
Context {B : Type} `{!Backend B} `{!Calendar}.

(** The body of the loop of [get_recent_memories]. *)
Definition recent_step (self : MemoryStore.t) (memories : list Py.str) (i : Z)
  : M B (list Py.str) :=
  date <- MemoryStore.days_before_today i ;;
  let date_str := strftime_ymd date in
  let file_path := MemoryStore.memory_dir self // (date_str ++ py ".md") in
  found <- path_exists file_path ;;
  if found then
    content <- read_text file_path ;;
    ret (memories ++ [content])
  else ret memories.

End RecentStep.

(** ** File names and patterns *)

(** [nm] matches [pat] character by character, [?] standing for any one
    character. *)
Definition matches_pattern (pat nm : Py.str) : Prop :=
  Forall2 (fun p c => p = 63%N ∨ p = c) pat nm.

(** The entries of the memory directory that [list_memory_files] lists,
    in its order. *)
Definition dated_files {B : Type} (self : MemoryStore.t) (w : World B)
  : list Path :=
  MemoryStore.sorted_reverse
    (List.filter
       (fun p =>
          bool_decide (p = MemoryStore.memory_dir self // PurePath.name p)
          && PurePath.fnmatch (py "????-??-??.md") (PurePath.name p))
       (map_to_list (fs w)).*1).

(** ** Re-indexing at startup *)

(** The body of the loop of [_reindex_all]. *)
Definition reindex_step {B : Type} `{!Backend B} (vector : VectorStore.t)
    (total : Z) (f : Path) : M B Z :=
  n <- VectorStore.upsert_file vector f (py "daily") ;;
  ret (total + n).


(** ** A workspace to run the methods in *)

Module Scenario.

(** The day is 2025-06-01, ordinal 739403. *)
Definition TODAY : Z := 739403.

(** Two notes, long enough to be chunks, and a short one. *)
Definition note1 : Py.str :=
  py "Met the supplier on Tuesday; agreed on delivery by the end of June.".
Definition note2 : Py.str :=
  py "Prefers short answers, metric units and morning meetings.".
Definition note3 : Py.str :=
  py "Delivery moved to July; the supplier confirmed by mail on Friday.".
Definition short_note : Py.str := py "ok".

(** An embedding for the examples: a text is as far from a query as their
    lengths differ. *)
#[local] Instance by_length : Chroma.Embedding :=
  {| Chroma.distance := fun q d =>
       Z.abs (Z.of_nat (length d) - Z.of_nat (length q)) |}.

Definition vector : VectorStore.t := VectorStore.mk [py "ws"; py "chroma"].

(** A store with a semantic index, and the same store without. *)
Definition store : MemoryStore.t := MemoryStore.mk [py "ws"] (Some vector).
Definition plain_store : MemoryStore.t := MemoryStore.mk [py "ws"] None.

Definition memory : Path := [py "ws"; py "memory"].
Definition today_file : Path := memory // py "2025-06-01.md".

(** A fresh workspace: the memory directory, no file. *)
Definition fresh {B : Type} (b : B) : World B :=
  mkWorld {[ memory := Dir ]} b [] TODAY.

(** A workspace with notes of today and of the day before, all indexed. *)
Definition daily (source text : Py.str) : Chroma.Entry :=
  Chroma.mkEntry text {[ py "source" := source; py "type" := py "daily" ]}.

Definition busy : World (gmap Py.str Chroma.Entry) :=
  mkWorld
    {[ memory := Dir;
       today_file := File (py "# 2025-06-01" ++ [Py.LF; Py.LF] ++ note1);
       memory // py "2025-05-31.md"
         := File (py "# 2025-05-31" ++ [Py.LF; Py.LF] ++ note2) ]}
    {[ py "2025-06-01::0" := daily (py "2025-06-01") note1;
       py "2025-05-31::0" := daily (py "2025-05-31") note2 ]}
    [] TODAY.

End Scenario.

(** * Properties *)

(** ** Strings *)

Section PyFacts.
Import ChunkerSpec.

Lemma lstrip_decompose (s : Py.str) :
  ∃ l, s = l ++ Py.lstrip s ∧ Forall (fun c => Py.isspace c = true) l.
Proof.
  induction s as [|c t [l [Heq Hl]]]; simpl.
  - by exists [].
  - destruct (Py.isspace c) eqn:Hc.
    + exists (c :: l). split; [by rewrite Heq at 1 | by constructor].
    + by exists [].
Qed.

Lemma lstrip_head (s : Py.str) (c : Py.char) :
  head (Py.lstrip s) = Some c → Py.isspace c = false.
Proof.
  induction s as [|d t IH]; simpl; [done|].
  destruct (Py.isspace d) eqn:Hd; [done|]. simpl. congruence.
Qed.

Lemma lstrip_spaces (l s : Py.str) :
  Forall (fun c => Py.isspace c = true) l → Py.lstrip (l ++ s) = Py.lstrip s.
Proof. induction 1 as [|c l Hc _ IH]; simpl; [done | by rewrite Hc]. Qed.

Lemma lstrip_all_spaces (l : Py.str) :
  Forall (fun c => Py.isspace c = true) l → Py.lstrip l = [].
Proof. intros H. rewrite <- (app_nil_r l). by rewrite lstrip_spaces. Qed.

Lemma lstrip_fixed (s : Py.str) :
  (∀ c, head s = Some c → Py.isspace c = false) → Py.lstrip s = s.
Proof. destruct s as [|c t]; simpl; [done|]. intros H. by rewrite (H c). Qed.

Lemma lstrip_app_fixed (s r : Py.str) :
  s ≠ [] → (∀ c, head s = Some c → Py.isspace c = false) →
  Py.lstrip (s ++ r) = s ++ r.
Proof. destruct s as [|c t]; simpl; [done|]. intros _ H. by rewrite (H c). Qed.

Lemma head_rev (s : Py.str) : head (rev s) = last s.
Proof.
  induction s as [|c t IH] using rev_ind; [done|].
  by rewrite rev_app_distr, last_snoc.
Qed.

Lemma last_rev (s : Py.str) : last (rev s) = head s.
Proof. by rewrite <- head_rev, rev_involutive. Qed.

(** [lstrip] only removes from the front: the last character stays, unless
    everything goes. *)
Lemma lstrip_last (s : Py.str) :
  Py.lstrip s = [] ∨ last (Py.lstrip s) = last s.
Proof.
  induction s as [|c t IH]; simpl; [by left|].
  destruct (Py.isspace c); [|by right].
  destruct IH as [IH|IH]; [by left|].
  destruct t as [|d t']; [by left|]. right. by rewrite IH.
Qed.

Lemma strip_trimmed (p : Py.str) : trimmed p (Py.strip p).
Proof.
  unfold Py.strip, Py.rstrip.
  destruct (lstrip_decompose p) as [l [Hl Hsl]].
  destruct (lstrip_decompose (rev (Py.lstrip p))) as [r [Hr Hsr]].
  exists l, (rev r). repeat split.
  - rewrite Hl at 1. f_equal.
    rewrite <- (rev_involutive (Py.lstrip p)) at 1.
    rewrite Hr at 1. by rewrite rev_app_distr.
  - done.
  - by apply Forall_rev.
  - intros x Hx. rewrite head_rev in Hx.
    destruct (lstrip_last (rev (Py.lstrip p))) as [E|E];
      rewrite E in Hx; [done|].
    rewrite last_rev in Hx. by apply (lstrip_head p).
  - intros x Hx. rewrite last_rev in Hx.
    by apply (lstrip_head (rev (Py.lstrip p))).
Qed.

Lemma trimmed_strip (p c : Py.str) : trimmed p c → c = Py.strip p.
Proof.
  intros (l & r & -> & Hl & Hr & Hh & Ht).
  unfold Py.strip, Py.rstrip. rewrite lstrip_spaces by done.
  destruct c as [|x c'].
  - simpl. by rewrite (lstrip_all_spaces r) by done.
  - rewrite lstrip_app_fixed by done.
    rewrite rev_app_distr, lstrip_spaces by by apply Forall_rev.
    rewrite lstrip_fixed; [by rewrite rev_involutive|].
    intros y. rewrite head_rev. apply Ht.
Qed.

Lemma strip_idemp (p : Py.str) : Py.strip (Py.strip p) = Py.strip p.
Proof.
  symmetry. apply trimmed_strip.
  destruct (strip_trimmed p) as (l & r & _ & _ & _ & Hh & Ht).
  exists [], []. rewrite app_nil_r. by repeat split.
Qed.

Lemma split2_unfold a b c d t :
  Py.split2 a b (c :: d :: t) =
  if (c =? a)%N && (d =? b)%N then [] :: Py.split2 a b t
  else match Py.split2 a b (d :: t) with
       | p :: ps => (c :: p) :: ps
       | [] => [[c]]
       end.
Proof. reflexivity. Qed.

Lemma split2_not_nil a b s : Py.split2 a b s ≠ [].
Proof.
  destruct s as [|c [|d t]]; [done..|]. rewrite split2_unfold.
  destruct (_ && _); [done|]. by destruct (Py.split2 a b (d :: t)).
Qed.

Lemma split2_cons a b c t :
  (∀ t', t = b :: t' → c ≠ a) →
  ∃ p ps, Py.split2 a b t = p :: ps ∧ Py.split2 a b (c :: t) = (c :: p) :: ps.
Proof.
  intros Hc. destruct t as [|d t'].
  - by exists [], [].
  - rewrite split2_unfold.
    destruct ((c =? a)%N && (d =? b)%N) eqn:E.
    + apply andb_true_iff in E as [E1%N.eqb_eq E2%N.eqb_eq]. subst.
      by destruct (Hc t').
    + destruct (Py.split2 a b (d :: t')) as [|p ps] eqn:Ep.
      * by apply split2_not_nil in Ep.
      * by exists p, ps.
Qed.

Lemma occurs_cons sep c s : occurs sep s → occurs sep (c :: s).
Proof. intros (u & v & ->). by exists (c :: u), v. Qed.

Lemma split2_pieces a b s : pieces a b s (Py.split2 a b s).
Proof.
  remember (length s) as n eqn:Hn. revert s Hn.
  induction (lt_wf n) as [n _ IH]. intros s ->.
  destruct s as [|c t]; [constructor; by intros ([|??] & ? & ?)|].
  destruct t as [|d t'].
  { simpl. constructor. by intros ([|?[|??]] & ? & ?). }
  destruct (decide (c = a ∧ d = b)) as [[-> ->]|Hne].
  - rewrite split2_unfold, !N.eqb_refl. simpl.
    apply (pieces_cut a b [] t').
    + by intros ([|?[|??]] & ? & ?).
    + eapply IH; [|done]. simpl. lia.
  - destruct (split2_cons a b c (d :: t')) as (p & ps & Ht & ->).
    { intros t'' [= -> ->] ->. by apply Hne. }
    assert (Hrec : pieces a b (d :: t') (p :: ps)).
    { rewrite <- Ht. eapply IH; [|done]. simpl. lia. }
    inversion Hrec as [p0 Hno Hp0|p0 rest ps0 Hno Hrest Hp0]; subst.
    + constructor. intros ([|x u] & v & Hocc); simplify_eq/=.
      * by apply Hne.
      * apply Hno. by exists u, v.
    + apply (pieces_cut a b (c :: p) rest ps); [|done].
      intros ([|x u] & v & Hocc); simplify_eq/=.
      * apply Hne. split; [done|].
        destruct p; simplify_eq/=; done.
      * apply Hno. by exists u, v.
Qed.

Lemma pieces_join a b s ps : pieces a b s ps → Py.join [a; b] ps = s.
Proof.
  induction 1 as [p _|p rest ps _ Hps IH]; [done|].
  simpl. destruct ps as [|q qs]; [inversion Hps|]. by rewrite IH.
Qed.

Lemma split2_no_sep a b p : ¬ occurs [a; b] p → Py.split2 a b p = [p].
Proof.
  induction p as [|c t IH]; intros Hno; [done|].
  destruct (split2_cons a b c t) as (p & ps & Ht & ->).
  { intros t' -> ->. apply Hno. by exists [], t'. }
  rewrite IH in Ht; [by simplify_eq|].
  intros Hocc. by apply Hno, occurs_cons.
Qed.

Lemma split2_cut a b p rest :
  ¬ occurs [a; b] (p ++ [a]) →
  Py.split2 a b (p ++ [a; b] ++ rest) = p :: Py.split2 a b rest.
Proof.
  induction p as [|c t IH]; intros Hno.
  - simpl app. by rewrite split2_unfold, !N.eqb_refl.
  - rewrite <- app_comm_cons.
    destruct (split2_cons a b c (t ++ [a; b] ++ rest)) as (p & ps & Ht & ->).
    { intros t' Ht' ->. apply Hno.
      destruct t as [|d t'']; simplify_eq/=.
      - by exists [], [].
      - by exists [], (t'' ++ [a]). }
    rewrite IH in Ht; [by simplify_eq|].
    intros Hocc. by apply Hno, occurs_cons.
Qed.

(** The specification determines the pieces. *)
Lemma pieces_unique a b s ps : pieces a b s ps → ps = Py.split2 a b s.
Proof.
  induction 1 as [p Hno|p rest ps Hno _ IH].
  - by rewrite split2_no_sep.
  - by rewrite split2_cut, IH.
Qed.

End PyFacts.

(** ** The chunker *)

Section ChunkerFacts.
Import ChunkerSpec.
#[local] Arguments Nat.leb : simpl never.

Lemma kept_filter ps chunks :
  kept ps chunks ↔
  chunks = Py.strip <$>
    List.filter (fun p => (Chunker.MIN_CHUNK_LENGTH <=? length (Py.strip p))%nat) ps.
Proof.
  split.
  - induction 1 as [|p c ps chunks Hc Hlen _ IH|p c ps chunks Hc Hlen _ IH];
      [done|..]; apply trimmed_strip in Hc as ->; simpl.
    + apply Nat.leb_le in Hlen as ->. simpl. by rewrite IH.
    + apply Nat.leb_gt in Hlen as ->. done.
  - intros ->. induction ps as [|p ps IH]; simpl; [constructor|].
    destruct (_ <=? _)%nat eqn:Hlen; simpl.
    + apply kept_long; [apply strip_trimmed|by apply Nat.leb_le|done].
    + eapply kept_short; [apply strip_trimmed|by apply Nat.leb_gt|done].
Qed.

Lemma split_paragraphs_long text :
  Forall (fun c => Py.strip c = c ∧ (Chunker.MIN_CHUNK_LENGTH ≤ length c)%nat)
         (Chunker._split_paragraphs text).
Proof.
  unfold Chunker._split_paragraphs. apply Forall_fmap, Forall_forall.
  intros p [_ Hp%Nat.leb_le]%list_elem_of_In%filter_In. simpl.
  by rewrite strip_idemp.
Qed.

(** C3. For every text, the chunks [_split_paragraphs] returns are exactly
    the chunks its specification describes: the text cut at blank lines
    (from the left), each paragraph trimmed of surrounding whitespace, those
    of trimmed length under 50 dropped, the others in document order. Every
    chunk returned is trimmed and has at least 50 characters; no chunk is
    returned for the empty text, nor when every paragraph is short. *)
Theorem split_paragraphs_correct (text : Py.str) :
  (∀ chunks, chunking text chunks ↔ chunks = Chunker._split_paragraphs text)
  ∧ Forall (fun c => Py.strip c = c ∧ (50 ≤ length (Py.strip c))%nat)
           (Chunker._split_paragraphs text)
  ∧ Chunker._split_paragraphs [] = []
  ∧ (Chunker._split_paragraphs text = [] ↔
     Forall (fun p => (length (Py.strip p) < 50)%nat)
            (Py.split2 Py.LF Py.LF text)).
Proof.
  split; [|split; [|split]].
  - intros chunks. unfold chunking, Chunker._split_paragraphs. split.
    + intros (ps & Hps%pieces_unique & Hk%kept_filter). by subst.
    + intros ->. exists (Py.split2 Py.LF Py.LF text).
      split; [apply split2_pieces | by apply kept_filter].
  - eapply Forall_impl; [apply split_paragraphs_long|].
    intros c [Hc Hlen]. by rewrite Hc.
  - done.
  - unfold Chunker._split_paragraphs.
    induction (Py.split2 Py.LF Py.LF text) as [|p ps IH]; simpl; [done|].
    destruct (_ <=? _)%nat eqn:Hlen; simpl.
    + split; [done|]. intros [Hp%Nat.leb_gt _]%Forall_cons.
      unfold Chunker.MIN_CHUNK_LENGTH in Hlen. congruence.
    + rewrite IH, Forall_cons. apply Nat.leb_gt in Hlen.
      unfold Chunker.MIN_CHUNK_LENGTH in Hlen. tauto.
Qed.

End ChunkerFacts.

(** ** Methods that only read *)

Section ReadOnly.
Context {B : Type} `{!Backend B} `{!Calendar}.

Lemma read_only_ret {A} (a : A) : read_only (B:=B) (ret a).
Proof. done. Qed.

Lemma read_only_bind {A C} (m : M B A) (k : A → M B C) :
  read_only m → (∀ a, read_only (k a)) → read_only (bind m k).
Proof.
  intros Hm Hk w. unfold bind. specialize (Hm w).
  destruct (m w) as [[a|e] w']; simpl in *; subst; [apply Hk | done].
Qed.

Lemma read_only_path_exists path : read_only (B:=B) (path_exists path).
Proof. done. Qed.

Lemma read_only_read_text path : read_only (B:=B) (read_text path).
Proof. intros w. unfold read_text. by repeat case_match. Qed.

Lemma read_only_glob path pattern : read_only (B:=B) (glob path pattern).
Proof. done. Qed.

Lemma read_only_today_date : read_only (B:=B) MemoryStore.today_date.
Proof. done. Qed.

Lemma read_only_days_before_today i :
  read_only (B:=B) (MemoryStore.days_before_today i).
Proof. intros w. unfold MemoryStore.days_before_today. by case_match. Qed.

Lemma read_only_for_each {A S} (xs : list A) (body : S → A → M B S) acc :
  (∀ acc x, read_only (body acc x)) → read_only (for_each xs body acc).
Proof.
  intros Hbody. revert acc.
  induction xs as [|x xs IH]; intros acc; simpl.
  - apply read_only_ret.
  - apply read_only_bind; [apply Hbody | apply IH].
Qed.

Lemma read_only_if {A} (b : bool) (m1 m2 : M B A) :
  read_only m1 → read_only m2 → read_only (if b then m1 else m2).
Proof. by destruct b. Qed.

Create HintDb ro.
#[local] Hint Resolve read_only_ret read_only_path_exists read_only_read_text
  read_only_glob read_only_today_date read_only_days_before_today : ro.

#[local] Ltac read_only :=
  repeat first
    [ apply read_only_bind; [|intros ?]
    | apply read_only_if
    | apply read_only_for_each; intros ? ?
    | solve [auto with ro] ].

Lemma read_only_get_today_file self :
  read_only (B:=B) (MemoryStore.get_today_file self).
Proof. unfold MemoryStore.get_today_file. read_only. Qed.

Lemma read_today_read_only (self : MemoryStore.t) :
  read_only (B:=B) (MemoryStore.read_today self).
Proof.
  unfold MemoryStore.read_today. pose proof (read_only_get_today_file self).
  read_only.
Qed.

Lemma read_long_term_read_only (self : MemoryStore.t) :
  read_only (B:=B) (MemoryStore.read_long_term self).
Proof.
  unfold MemoryStore.read_long_term.
  apply read_only_bind; [apply read_only_path_exists|]. intros found.
  apply read_only_if; [apply read_only_read_text | apply read_only_ret].
Qed.

Lemma get_recent_memories_read_only (self : MemoryStore.t) (days : Z) :
  read_only (B:=B) (MemoryStore.get_recent_memories self days).
Proof. unfold MemoryStore.get_recent_memories. read_only. Qed.

Lemma list_memory_files_read_only (self : MemoryStore.t) :
  read_only (B:=B) (MemoryStore.list_memory_files self).
Proof.
  unfold MemoryStore.list_memory_files.
  apply read_only_bind; [apply read_only_path_exists|]. intros found.
  apply read_only_if; [apply read_only_ret|].
  apply read_only_bind; [apply read_only_glob|]. intros files.
  apply read_only_ret.
Qed.

(** C10. [read_today], [read_long_term], [get_recent_memories] and
    [list_memory_files] are read-only: whatever the world and the arguments,
    and whether they return or raise, they leave every file, the index and
    the log as they were. *)
Theorem readers_are_read_only (self : MemoryStore.t) (days : Z) :
  read_only (B:=B) (MemoryStore.read_today self)
  ∧ read_only (B:=B) (MemoryStore.read_long_term self)
  ∧ read_only (B:=B) (MemoryStore.get_recent_memories self days)
  ∧ read_only (B:=B) (MemoryStore.list_memory_files self).
Proof.
  split; [apply read_today_read_only|].
  split; [apply read_long_term_read_only|].
  split; [apply get_recent_memories_read_only|].
  apply list_memory_files_read_only.
Qed.

End ReadOnly.

(** ** The vector store over any collection *)

Section AnyBackend.
Context {B : Type} `{!Backend B} `{!Calendar}.

Lemma call_outside_index {A} (f : B → result A * B) w :
  same_outside_index w (call f w).2.
Proof. unfold call. by destruct (f (index w)). Qed.

Lemma upsert_file_outside_index self path doc_type (w : World B) :
  same_outside_index w (VectorStore.upsert_file self path doc_type w).2.
Proof.
  unfold VectorStore.upsert_file, bind, path_exists, read_text, ret.
  destruct (bool_decide _); simpl; [|done].
  destruct (fs w !! path) as [[content|]|]; [|done..].
  destruct (Chunker._split_paragraphs _) as [|c chunks]; [done|].
  unfold VectorStore._collection_upsert.
  pose proof (call_outside_index
    (coll_upsert
       (VectorStore.chunk_ids (PurePath.stem path) (length (c :: chunks)))
       (c :: chunks)
       ((fun _ => VectorStore.chunk_metadata (PurePath.stem path) doc_type)
          <$> c :: chunks)) w) as Hcall.
  by destruct (call _ w) as [[[]|e] w'].
Qed.

(** What [search] does with the outcome of the collection's [query]. *)
Lemma search_run self query n_results where_ (w : World B) :
  VectorStore.search self query n_results where_ w =
  match coll_query [query] n_results (VectorStore.kwargs_where where_)
          (index w) with
  | (Raise e, b) =>
      (Ok [], add_log WARNING (py "VectorStore search failed: " ++ exn_str e)
                (set_index b w))
  | (Ok results, b) =>
      (Ok match qr_documents results with
          | Some (first :: _) => first
          | _ => []
          end, set_index b w)
  end.
Proof.
  unfold VectorStore.search, VectorStore._collection_query, bind, catch, call.
  simpl. destruct (coll_query _ _ _ _) as [[results|e] b]; simpl; [|done].
  destruct (qr_documents results) as [[|[|d first] rest]|]; done.
Qed.

Lemma search_returns self query n_results where_ (w : World B) :
  ∃ docs, (VectorStore.search self query n_results where_ w).1 = Ok docs.
Proof.
  rewrite search_run.
  destruct (coll_query _ _ _ _) as [[results|e] b]; eauto.
Qed.

End AnyBackend.

(** ** Writing with a failing index *)

Section IndexFailure.
Context {B : Type} `{!Backend B} `{!Calendar}.

Lemma append_today_run self vector content (w : World B) :
  MemoryStore._vector self = Some vector →
  MemoryStore.append_today self content w =
  match MemoryStore.append_today (without_index self) content w with
  | (Ok _, w1) =>
      after_indexing vector (today_file_in self w) (py "daily")
        (py "Failed to upsert today's notes to vector store: ") w1
  | (Raise e, w1) => (Raise e, w1)
  end.
Proof.
  intros Hv.
  unfold MemoryStore.append_today, MemoryStore.get_today_file,
    MemoryStore.today_date, after_indexing, today_file_in, bind, ret, catch,
    path_exists, read_text, write_text, logger.
  rewrite Hv. cbn.
  change (MemoryStore.memory_dir (without_index self))
    with (MemoryStore.memory_dir self).
  set (today_file := MemoryStore.memory_dir self // _).
  destruct (fs w !! today_file) as [[existing|]|] eqn:Hf; cbn;
    rewrite ?Hf; cbn; [|reflexivity|];
    (destruct (fs w !! PurePath.parent today_file) as [[?|]|]; cbn;
       [reflexivity| |reflexivity]);
    (destruct (Py.encodable _); cbn; [|reflexivity]);
    destruct (VectorStore.upsert_file _ _ _ _) as [[k|e] w2]; reflexivity.
Qed.

Lemma write_long_term_run self vector content (w : World B) :
  MemoryStore._vector self = Some vector →
  MemoryStore.write_long_term self content w =
  match MemoryStore.write_long_term (without_index self) content w with
  | (Ok _, w1) =>
      after_indexing vector (MemoryStore.memory_file self) (py "long_term")
        (py "Failed to upsert MEMORY.md to vector store: ") w1
  | (Raise e, w1) => (Raise e, w1)
  end.
Proof.
  intros Hv.
  unfold MemoryStore.write_long_term, after_indexing, bind, ret, catch,
    write_text, logger.
  rewrite Hv. cbn.
  change (MemoryStore.memory_file (without_index self))
    with (MemoryStore.memory_file self).
  destruct (fs w !! PurePath.parent (MemoryStore.memory_file self))
    as [[?|]|]; cbn; [reflexivity| |reflexivity].
  destruct (fs w !! MemoryStore.memory_file self) as [[existing|]|]; cbn;
    [|reflexivity|];
    (destruct (Py.encodable _); cbn; [|reflexivity]);
    destruct (VectorStore.upsert_file _ _ _ _) as [[k|e] w2]; reflexivity.
Qed.

Lemma after_indexing_disk vector path doc_type prefix (w1 : World B) :
  (after_indexing vector path doc_type prefix w1).1 = Ok tt
  ∧ fs (after_indexing vector path doc_type prefix w1).2 = fs w1.
Proof.
  unfold after_indexing.
  pose proof (upsert_file_outside_index vector path doc_type w1) as (Hfs & _).
  by destruct (VectorStore.upsert_file _ _ _ _) as [[k|e] w2].
Qed.

Lemma append_today_writes self content (w w1 : World B) :
  MemoryStore.append_today (without_index self) content w = (Ok tt, w1) →
  ∃ before, fs w1 !! today_file_in self w = Some (File (before ++ content)).
Proof.
  unfold MemoryStore.append_today, MemoryStore.get_today_file,
    MemoryStore.today_date, today_file_in, bind, ret, catch,
    path_exists, read_text, write_text. cbn.
  change (MemoryStore.memory_dir (without_index self))
    with (MemoryStore.memory_dir self).
  set (today_file := MemoryStore.memory_dir self // _).
  destruct (fs w !! today_file) as [[existing|]|] eqn:Hf; cbn;
    rewrite ?Hf; cbn; [|discriminate|];
    (destruct (fs w !! PurePath.parent today_file) as [[?|]|]; cbn;
       [discriminate| |discriminate]);
    (destruct (Py.encodable _); cbn; [|discriminate]);
    intros [= <-]; unfold set_fs; cbn [fs];
    rewrite lookup_insert_eq.
  - exists (universal_newlines existing ++ [Py.LF]).
    rewrite <- app_assoc. reflexivity.
  - exists (py "# " ++ strftime_ymd (today_ordinal w)
              ++ py (String "010" (String "010" ""))).
    reflexivity.
Qed.

Lemma write_long_term_writes self content (w w1 : World B) :
  MemoryStore.write_long_term (without_index self) content w = (Ok tt, w1) →
  fs w1 !! MemoryStore.memory_file self = Some (File content).
Proof.
  unfold MemoryStore.write_long_term, bind, ret, write_text. cbn.
  change (MemoryStore.memory_file (without_index self))
    with (MemoryStore.memory_file self).
  destruct (fs w !! PurePath.parent (MemoryStore.memory_file self))
    as [[?|]|]; cbn; [discriminate| |discriminate].
  destruct (fs w !! MemoryStore.memory_file self) as [[existing|]|]; cbn;
    [|discriminate|];
    (destruct (Py.encodable _); cbn; [|discriminate]);
    intros [= <-]; unfold set_fs; cbn [fs]; by rewrite lookup_insert_eq.
Qed.

(** C2. With an index configured, [append_today] and [write_long_term]
    return what they return without one and leave the disk as they leave it
    without one, whatever the index does. In particular, once the file is
    written, an exception raised by the index's upsert is logged as a
    warning and swallowed: the call returns normally and the file holds the
    content just written. *)
Theorem index_failure_is_not_fatal
    (self : MemoryStore.t) (vector : VectorStore.t) (content : Py.str)
    (w : World B) :
  MemoryStore._vector self = Some vector →
  let no_index := without_index self in
  ((MemoryStore.append_today self content w).1
     = (MemoryStore.append_today no_index content w).1
   ∧ fs (MemoryStore.append_today self content w).2
     = fs (MemoryStore.append_today no_index content w).2
   ∧ ∀ w1, MemoryStore.append_today no_index content w = (Ok tt, w1) →
       (∃ before,
          fs w1 !! today_file_in self w = Some (File (before ++ content)))
       ∧ ∀ e w2,
           VectorStore.upsert_file vector (today_file_in self w) (py "daily") w1
             = (Raise e, w2) →
           MemoryStore.append_today self content w
             = (Ok tt,
                add_log WARNING
                  (py "Failed to upsert today's notes to vector store: "
                     ++ exn_str e) w2)
           ∧ fs w2 = fs w1)
  ∧
  ((MemoryStore.write_long_term self content w).1
     = (MemoryStore.write_long_term no_index content w).1
   ∧ fs (MemoryStore.write_long_term self content w).2
     = fs (MemoryStore.write_long_term no_index content w).2
   ∧ ∀ w1, MemoryStore.write_long_term no_index content w = (Ok tt, w1) →
       fs w1 !! MemoryStore.memory_file self = Some (File content)
       ∧ ∀ e w2,
           VectorStore.upsert_file vector (MemoryStore.memory_file self)
             (py "long_term") w1 = (Raise e, w2) →
           MemoryStore.write_long_term self content w
             = (Ok tt,
                add_log WARNING
                  (py "Failed to upsert MEMORY.md to vector store: "
                     ++ exn_str e) w2)
           ∧ fs w2 = fs w1).
Proof.
  intros Hv no_index. split.
  - rewrite (append_today_run self vector) by done. fold no_index.
    destruct (MemoryStore.append_today no_index content w) as [[[]|e] w1] eqn:Hrun.
    + pose proof (after_indexing_disk vector (today_file_in self w) (py "daily")
        (py "Failed to upsert today's notes to vector store: ") w1) as [H1 H2].
      split; [done|]. split; [done|].
      intros ? [= <-]. split; [by eapply append_today_writes|].
      intros e w2 Hup. unfold after_indexing. rewrite Hup. split; [done|].
      pose proof (upsert_file_outside_index vector (today_file_in self w)
                    (py "daily") w1) as (Hfs & _).
      by rewrite Hup in Hfs.
    + by repeat split.
  - rewrite (write_long_term_run self vector) by done. fold no_index.
    destruct (MemoryStore.write_long_term no_index content w)
      as [[[]|e] w1] eqn:Hrun.
    + pose proof (after_indexing_disk vector (MemoryStore.memory_file self)
        (py "long_term") (py "Failed to upsert MEMORY.md to vector store: ") w1)
        as [H1 H2].
      split; [done|]. split; [done|].
      intros ? [= <-]. split; [by eapply write_long_term_writes|].
      intros e w2 Hup. unfold after_indexing. rewrite Hup. split; [done|].
      pose proof (upsert_file_outside_index vector (MemoryStore.memory_file self)
                    (py "long_term") w1) as (Hfs & _).
      by rewrite Hup in Hfs.
    + by repeat split.
Qed.

End IndexFailure.

(** ** Chunk identities *)

Section ChunkIds.

Lemma N_of_ascii_inj : Inj (=) (=) N_of_ascii.
Proof.
  intros a b Hab.
  by rewrite <- (ascii_N_embedding a), <- (ascii_N_embedding b), Hab.
Qed.

Lemma lit_inj : Inj (=) (=) Py.lit.
Proof.
  intros s t Hst. unfold Py.lit in Hst.
  apply (list_fmap_eq_inj _ N_of_ascii_inj) in Hst.
  by rewrite <- (string_of_list_ascii_of_string s),
             <- (string_of_list_ascii_of_string t), Hst.
Qed.

Lemma of_nat_inj : Inj (=) (=) Py.of_nat.
Proof.
  intros i j Hij. unfold Py.of_nat, Py.of_int in Hij.
  apply lit_inj in Hij. apply (inj pretty) in Hij. lia.
Qed.

Lemma chunk_id_inj source : Inj (=) (=) (VectorStore.chunk_id source).
Proof.
  intros i j Hij. unfold VectorStore.chunk_id in Hij.
  do 2 apply app_inv_head in Hij. by apply of_nat_inj.
Qed.

Lemma chunk_ids_NoDup source k : NoDup (VectorStore.chunk_ids source k).
Proof.
  unfold VectorStore.chunk_ids.
  apply (NoDup_fmap_2 (VectorStore.chunk_id source) (Inj0:=chunk_id_inj source)). 
  apply NoDup_seq.
Qed.

Lemma chunk_ids_length source k : length (VectorStore.chunk_ids source k) = k.
Proof. unfold VectorStore.chunk_ids. by rewrite length_fmap, length_seq. Qed.

Lemma chunk_ids_lookup source k i :
  (i < k)%nat →
  VectorStore.chunk_ids source k !! i = Some (VectorStore.chunk_id source i).
Proof.
  intros Hi. unfold VectorStore.chunk_ids.
  by rewrite list_lookup_fmap, lookup_seq_lt.
Qed.

End ChunkIds.

(** ** Upserting into the reference collection *)

Section Upsert.
Context `{!Chroma.Embedding}.

Lemma written_ids source doc_type chunks :
  (written source doc_type chunks).*1
  = VectorStore.chunk_ids source (length chunks).
Proof.
  unfold written, Chroma.records. apply fst_zip.
  rewrite chunk_ids_length, length_zip_with, length_fmap. lia.
Qed.

Lemma written_lookup (source doc_type : Py.str) (chunks : list Py.str)
    (i : nat) (chunk : Py.str) :
  chunks !! i = Some chunk →
  (list_to_map (written source doc_type chunks) : gmap Py.str Chroma.Entry)
    !! VectorStore.chunk_id source i
  = Some (Chroma.mkEntry chunk (VectorStore.chunk_metadata source doc_type)).
Proof.
  intros Hi. apply elem_of_list_to_map_1.
  { rewrite written_ids. apply chunk_ids_NoDup. }
  apply list_elem_of_lookup. exists i.
  unfold written, Chroma.records.
  rewrite !lookup_zip_with, chunk_ids_lookup
    by by eapply lookup_lt_Some.
  by rewrite list_lookup_fmap, Hi.
Qed.

Lemma written_lookup_other (source doc_type : Py.str)
    (chunks : list Py.str) (id : Py.str) :
  id ∉ VectorStore.chunk_ids source (length chunks) →
  (list_to_map (written source doc_type chunks) : gmap Py.str Chroma.Entry)
    !! id = None.
Proof. intros Hid. apply not_elem_of_list_to_map_1. by rewrite written_ids. Qed.

(** The collection accepts what [upsert_file] hands it. *)
Lemma upsert_written (source doc_type : Py.str) (chunks : list Py.str)
    (c : gmap Py.str Chroma.Entry) :
  chunks ≠ [] →
  Chroma.upsert (VectorStore.chunk_ids source (length chunks)) chunks
    ((fun _ => VectorStore.chunk_metadata source doc_type) <$> chunks) c
  = (Ok tt, list_to_map (written source doc_type chunks) ∪ c).
Proof.
  intros Hne. unfold Chroma.upsert.
  rewrite bool_decide_eq_false_2.
  2:{ intros Hnil%(f_equal length). rewrite chunk_ids_length in Hnil.
      by destruct chunks. }
  rewrite (bool_decide_eq_true_2 (NoDup _)) by apply chunk_ids_NoDup.
  rewrite length_fmap, chunk_ids_length, Nat.eqb_refl. done.
Qed.

(** One call of [upsert_file], by what the path names. *)
Lemma upsert_file_run (self : VectorStore.t) (path : Path)
    (doc_type : Py.str) (w : World (gmap Py.str Chroma.Entry)) :
  VectorStore.upsert_file self path doc_type w =
  match fs w !! path with
  | None => (Ok 0, w)
  | Some Dir => (Raise (Exception (py "IsADirectoryError") []), w)
  | Some (File content) =>
      (Ok (Z.of_nat (length (chunks_of content))),
       match chunks_of content with
       | [] => w
       | chunks =>
           set_index
             (list_to_map (written (PurePath.stem path) doc_type chunks)
                ∪ index w) w
       end)
  end.
Proof.
  unfold VectorStore.upsert_file, bind, path_exists, read_text, ret, chunks_of.
  destruct (fs w !! path) as [[content|]|] eqn:Hf; cbn; rewrite ?Hf;
    [|reflexivity..].
  destruct (Chunker._split_paragraphs _) as [|c chunks] eqn:Hc; [reflexivity|].
  unfold VectorStore._collection_upsert, call. cbn [coll_upsert Chroma.backend].
  by rewrite upsert_written.
Qed.

(** C4. For every existing file and doc type, [upsert_file] runs the chunker
    over the file's text and returns the number [k] of chunks. With no chunk
    it leaves the collection (and all else) untouched; otherwise the
    collection ends with chunk [i] under the id [source::i], [source] being
    the file's stem, with the metadata [{source, type}], in place of whatever
    that id held, and with every other id as it was. Nothing but the
    collection changes. *)
Theorem upsert_file_correct
    (self : VectorStore.t) (path : Path) (doc_type content : Py.str)
    (w : World (gmap Py.str Chroma.Entry)) :
  fs w !! path = Some (File content) →
  let chunks := Chunker._split_paragraphs (universal_newlines content) in
  let source := PurePath.stem path in
  let k := length chunks in
  ∃ w',
    VectorStore.upsert_file self path doc_type w = (Ok (Z.of_nat k), w')
    ∧ (k = 0%nat → w' = w)
    ∧ (∀ i chunk, chunks !! i = Some chunk →
         index w' !! VectorStore.chunk_id source i
         = Some (Chroma.mkEntry chunk
                   {[ py "source" := source; py "type" := doc_type ]}))
    ∧ (∀ id, id ∉ VectorStore.chunk_ids source k →
         index w' !! id = index w !! id)
    ∧ same_outside_index w w'.
Proof.
  intros Hf chunks source k. rewrite upsert_file_run, Hf.
  fold chunks k. eexists. split; [done|].
  subst k. unfold chunks_of. fold chunks.
  destruct chunks as [|c chunks'] eqn:Hc; [by repeat split|].
  split; [intros [=]|]. split; [|split; [|by repeat split]].
  - intros i chunk Hi. cbn [index set_index].
    erewrite lookup_union_Some_l; [reflexivity|].
    by apply (written_lookup source doc_type (c :: chunks')).
  - intros id Hid. cbn [index set_index].
    rewrite lookup_union_r; [done|]. by apply written_lookup_other.
Qed.

Lemma upsert_over_upsert (source doc_type : Py.str) (chunks : list Py.str)
    (w : World (gmap Py.str Chroma.Entry)) :
  let m : gmap Py.str Chroma.Entry :=
    list_to_map (written source doc_type chunks) in
  set_index (m ∪ index (set_index (m ∪ index w) w)) (set_index (m ∪ index w) w)
  = set_index (m ∪ index w) w.
Proof.
  intros m. unfold set_index. cbn [fs index log today_ordinal].
  by rewrite (assoc_L (∪)), (idemp_L (∪) m).
Qed.

(** C1. Upserting a file twice in succession, its content unchanged, is
    idempotent: the second call returns what the first returned (the same
    number of chunks, under the same ids [source::0] ... [source::(k-1)]) and
    leaves the world, and so the collection, exactly as the first call left
    it; [count()] after the second call is [count()] after the first. *)
Theorem upsert_file_idempotent
    (self : VectorStore.t) (path : Path) (doc_type : Py.str)
    (w : World (gmap Py.str Chroma.Entry)) :
  let first := VectorStore.upsert_file self path doc_type w in
  let second := VectorStore.upsert_file self path doc_type first.2 in
  second = first
  ∧ VectorStore.count self second.2 = VectorStore.count self first.2
  ∧ (VectorStore.count self first.2).1
    = Ok (Z.of_nat (size (index first.2))).
Proof.
  intros first second.
  assert (Hsame : second = first); [|by rewrite Hsame].
  subst second first. rewrite (upsert_file_run self path doc_type w).
  destruct (fs w !! path) as [[content|]|] eqn:Hf; cbn [snd].
  - destruct (chunks_of content) as [|c chunks] eqn:Hc.
    + by rewrite upsert_file_run, Hf, Hc.
    + rewrite upsert_file_run. cbn [fs set_index]. rewrite Hf, Hc.
      f_equal. apply upsert_over_upsert.
  - by rewrite upsert_file_run, Hf.
  - by rewrite upsert_file_run, Hf.
Qed.

(** C9. A file is upserted and yields [k1] chunks; a shorter version of it,
    yielding [k2 < k1] chunks, is written and upserted. Then the ids
    [source::0] ... [source::(k2-1)] hold the chunks of the new text, and the
    ids [source::k2] ... [source::(k1-1)] are still in the collection, with
    the chunks of the old text. *)
Theorem shorter_upsert_leaves_stale_chunks
    (self : VectorStore.t) (path : Path) (doc_type old new : Py.str)
    (w : World (gmap Py.str Chroma.Entry)) :
  fs w !! path = Some (File old) →
  let chunks1 := Chunker._split_paragraphs (universal_newlines old) in
  let chunks2 := Chunker._split_paragraphs (universal_newlines new) in
  (length chunks2 < length chunks1)%nat →
  let source := PurePath.stem path in
  let meta := ({[ py "source" := source; py "type" := doc_type ]} : Metadata) in
  let w1 := (VectorStore.upsert_file self path doc_type w).2 in
  let w2 :=
    (VectorStore.upsert_file self path doc_type
       (set_fs <[path := File new]> w1)).2 in
  (∀ i chunk, chunks2 !! i = Some chunk →
     index w2 !! VectorStore.chunk_id source i = Some (Chroma.mkEntry chunk meta))
  ∧ (∀ i chunk, (length chunks2 ≤ i)%nat → chunks1 !! i = Some chunk →
       index w2 !! VectorStore.chunk_id source i
       = Some (Chroma.mkEntry chunk meta)).
Proof.
  intros Hf chunks1 chunks2 Hlen source meta w1 w2.
  assert (Hw1 : w1 = set_index
            (list_to_map (written source doc_type chunks1) ∪ index w) w).
  { subst w1. rewrite upsert_file_run, Hf. unfold chunks_of. fold chunks1.
    destruct chunks1; [simpl in Hlen; lia | done]. }
  assert (Hw2 : index w2 =
            list_to_map (written source doc_type chunks2) ∪ index w1).
  { subst w2. rewrite upsert_file_run. unfold set_fs at 1. cbn [fs].
    rewrite lookup_insert_eq. unfold chunks_of. fold chunks2.
    destruct chunks2 as [|c chunks2'] eqn:Hc; cbn [snd]; [|done].
    cbn [index set_fs]. symmetry.
    apply (left_id_L (∅ : gmap Py.str Chroma.Entry) (∪)). }
  rewrite Hw2, Hw1. cbn [index set_index]. split.
  - intros i chunk Hi. erewrite lookup_union_Some_l; [reflexivity|].
    by apply written_lookup.
  - intros i chunk Hge Hi. rewrite lookup_union_r.
    + erewrite lookup_union_Some_l; [reflexivity|]. by apply written_lookup.
    + apply written_lookup_other.
      intros (j & Hj & Hlt%elem_of_seq)%list_elem_of_fmap.
      apply chunk_id_inj in Hj. lia.
Qed.

End Upsert.

(** ** Searching the reference collection *)

Section Search.
Context `{!Chroma.Embedding}.

#[local] Instance closer_total q : Total (Chroma.closer q).
Proof. intros a b. unfold Chroma.closer. lia. Qed.

#[local] Instance closer_trans q : Transitive (Chroma.closer q).
Proof. intros a b c. unfold Chroma.closer. lia. Qed.

Lemma nearest_length (q : Py.str) (n : Z) (wh : option Where)
    (c : gmap Py.str Chroma.Entry) :
  (length (Chroma.nearest q n wh c) ≤ Z.to_nat n)%nat.
Proof. unfold Chroma.nearest. rewrite length_take. lia. Qed.

Lemma nearest_sorted (q : Py.str) (n : Z) (wh : option Where)
    (c : gmap Py.str Chroma.Entry) :
  StronglySorted (Chroma.closer q) (Chroma.nearest q n wh c).
Proof.
  unfold Chroma.nearest.
  set (l := merge_sort _ _).
  assert (Hl : StronglySorted (Chroma.closer q) l)
    by apply (StronglySorted_merge_sort _).
  rewrite <- (take_drop (Z.to_nat n) l) in Hl.
  by apply StronglySorted_app_1_l in Hl.
Qed.

Lemma nearest_elem (q : Py.str) (n : Z) (wh : option Where)
    (c : gmap Py.str Chroma.Entry) (id : Py.str) (e : Chroma.Entry) :
  (id, e) ∈ Chroma.nearest q n wh c →
  c !! id = Some e
  ∧ match wh with
    | Some f => Chroma.where_matches f (Chroma.metadata e) = true
    | None => True
    end.
Proof.
  unfold Chroma.nearest. intros Hin%subseteq_take.
  rewrite merge_sort_Permutation in Hin.
  apply list_elem_of_In, filter_In in Hin as [Hin%list_elem_of_In Hwh].
  apply elem_of_map_to_list in Hin. split; [done|].
  by destruct wh.
Qed.

Lemma filter_sublist {A : Type} (f : A → bool) (l : list A) :
  List.filter f l `sublist_of` l.
Proof.
  induction l as [|x l IH]; simpl; [constructor|].
  destruct (f x); by constructor.
Qed.

(** The reference collection answers a query with the top hits. *)
Lemma nearest_top_hits (q : Py.str) (n : Z) (wh : option Where)
    (c : gmap Py.str Chroma.Entry) :
  top_hits q n wh c (Chroma.nearest q n wh c).
Proof.
  split; [|split; [|split; [|split]]].
  - unfold Chroma.nearest.
    set (candidates := List.filter _ _).
    assert (Hcand : NoDup candidates.*1).
    { pose proof (fmap_sublist fst _ _ (filter_sublist
        (fun kv : Py.str * Chroma.Entry =>
           match wh with
           | Some f => Chroma.where_matches f (Chroma.metadata kv.2)
           | None => true
           end) (map_to_list c))) as Hsub.
      exact (sublist_NoDup _ _ (NoDup_fst_map_to_list c) Hsub). }
    rewrite <- (merge_sort_Permutation (Chroma.closer q) candidates) in Hcand.
    pose proof (fmap_sublist fst _ _
      (sublist_take (merge_sort (Chroma.closer q) candidates) (Z.to_nat n)))
      as Hsub.
    exact (sublist_NoDup _ _ Hcand Hsub).
  - intros id e Hin. apply nearest_elem in Hin as [Hc Hwh]. split; [done|].
    by destruct wh.
  - apply nearest_sorted.
  - apply nearest_length.
  - intros id e Hc Hwh Hout.
    pose proof (nearest_sorted q n wh c) as Hsorted.
    unfold Chroma.nearest in *.
    set (l := merge_sort _ _) in *.
    assert (Hin : (id, e) ∈ l).
    { subst l. rewrite merge_sort_Permutation.
      apply list_elem_of_In, filter_In. split.
      - by apply list_elem_of_In, elem_of_map_to_list.
      - by destruct wh. }
    rewrite <- (take_drop (Z.to_nat n) l) in Hin.
    apply elem_of_app in Hin as [Hin|Hin]; [done|].
    assert (Hlen : (Z.to_nat n < length l)%nat).
    { destruct (decide (Z.to_nat n < length l)%nat) as [|Hge]; [done|].
      rewrite drop_ge in Hin by lia. by apply elem_of_nil in Hin. }
    split; [rewrite length_take; lia|].
    apply Forall_forall. intros hit Hhit.
    assert (Hall : StronglySorted (Chroma.closer q) l)
      by apply (StronglySorted_merge_sort _).
    rewrite <- (take_drop (Z.to_nat n) l) in Hall.
    exact (StronglySorted_app_1_elem_of _ _ _ _ _ Hall Hhit Hin).
Qed.

Lemma set_index_same {B : Type} (w : World B) : set_index (index w) w = w.
Proof. by destruct w. Qed.

(** [search] over the reference collection. *)
Lemma chroma_search_run (self : VectorStore.t) (query : Py.str) (n : Z)
    (wh : option Where) (w : World (gmap Py.str Chroma.Entry)) :
  VectorStore.search self query n wh w =
  if n <=? 0 then
    (Ok [],
     add_log WARNING
       (py "VectorStore search failed: "
          ++ py "Number of requested results cannot be negative, or zero.") w)
  else
    (Ok ((Chroma.document ∘ snd)
           <$> Chroma.nearest query n (VectorStore.kwargs_where wh) (index w)),
     w).
Proof.
  rewrite search_run. cbn [coll_query Chroma.backend]. unfold Chroma.query.
  destruct (n <=? 0); rewrite set_index_same; [done|].
  cbn [qr_documents fmap list_fmap]. done.
Qed.

End Search.

(** C7. [search] never raises, whatever the collection does: it returns a
    sequence of texts. When the collection's query raises, the exception is
    logged as a warning and the sequence is empty; when the query returns,
    the sequence is the first list of documents of its answer, as it
    stands, or empty when the answer has none, and nothing is logged. Over
    the reference collection the sequence has at most [n_results] texts
    (none when [n_results] is not positive) and is ordered by distance to
    the query, nearest first: for a positive [n_results] it is made of the
    documents of the [n_results] nearest chunks among those that pass the
    filter, of all of them when fewer pass. *)
Theorem search_never_raises
    (self : VectorStore.t) (query : Py.str) (n_results : Z)
    (where_ : option Where) :
  (∀ (B : Type) (backend : Backend B) (w : World B),
     (∃ docs, (VectorStore.search self query n_results where_ w).1 = Ok docs)
     ∧ (∀ e b,
          coll_query [query] n_results (VectorStore.kwargs_where where_)
            (index w) = (Raise e, b) →
          VectorStore.search self query n_results where_ w
          = (Ok [],
             add_log WARNING (py "VectorStore search failed: " ++ exn_str e)
               (set_index b w)))
     ∧ ∀ results b,
         coll_query [query] n_results (VectorStore.kwargs_where where_) (index w)
           = (Ok results, b) →
         VectorStore.search self query n_results where_ w
         = (Ok match qr_documents results with
               | Some (first :: _) => first
               | _ => []
               end,
            set_index b w))
  ∧ (∀ (embedding : Chroma.Embedding) (w : World (gmap Py.str Chroma.Entry)),
       (∃ docs,
          (VectorStore.search self query n_results where_ w).1 = Ok docs
          ∧ (length docs ≤ Z.to_nat n_results)%nat
          ∧ StronglySorted
              (fun a b => Chroma.distance query a ≤ Chroma.distance query b)
              docs)
       ∧ (0 < n_results →
          ∃ hits,
            VectorStore.search self query n_results where_ w
            = (Ok (Chroma.document <$> hits.*2), w)
            ∧ top_hits query n_results (VectorStore.kwargs_where where_)
                (index w) hits)).
Proof.
  split.
  - intros B backend w. split; [apply search_returns|]. split.
    + intros e b Hq. by rewrite search_run, Hq.
    + intros results b Hq. by rewrite search_run, Hq.
  - intros embedding w. rewrite chroma_search_run.
    destruct (n_results <=? 0) eqn:Hn.
    + split; [|lia].
      exists []. repeat split; [simpl; lia | constructor].
    + split.
      * eexists. split; [done|]. split.
        -- rewrite length_fmap. apply nearest_length.
        -- eapply StronglySorted_fmap; [|apply nearest_sorted]. by intros a b.
      * intros _. eexists. split; [|apply nearest_top_hits].
        by rewrite <- list_fmap_compose.
Qed.

(** ** Searching memory *)

Section SearchMemory.
Context {B : Type} `{!Backend B} `{!Calendar}.

(** The refresh of today's file, as [get_memory_context] and
    [search_memory] run it. *)
Lemma refresh_run (self : MemoryStore.t) (vector : VectorStore.t)
    {A : Type} (k : M B A) (w : World B) :
  bind (MemoryStore.get_today_file self)
    (fun today_file =>
       bind (path_exists today_file)
         (fun found =>
            bind (if found
                  then bind (catch (VectorStore.upsert_file vector today_file
                                      (py "daily")))
                         (fun _ => ret tt)
                  else ret tt)
              (fun _ => k))) w
  = k (refreshed self vector w).
Proof.
  unfold MemoryStore.get_today_file, MemoryStore.today_date, refreshed,
    bind, ret, catch, path_exists. cbn. fold (today_file_in self w).
  destruct (bool_decide _); [|done].
  by destruct (VectorStore.upsert_file _ _ _ _).
Qed.

Lemma search_memory_run (self : MemoryStore.t) (vector : VectorStore.t)
    (query : Py.str) (n_results : Z) (w : World B) :
  MemoryStore._vector self = Some vector →
  ∃ results,
    (VectorStore.search vector query n_results None
       (refreshed self vector w)).1 = Ok results
    ∧ MemoryStore.search_memory self query n_results w
      = (Ok match results with
            | [] => no_memories query
            | _ => listing results
            end,
         (VectorStore.search vector query n_results None
            (refreshed self vector w)).2).
Proof.
  intros Hv. unfold MemoryStore.search_memory. rewrite Hv, refresh_run.
  destruct (search_returns vector query n_results None
              (refreshed self vector w)) as [results Hres].
  exists results. split; [done|]. unfold bind.
  destruct (VectorStore.search _ _ _ _ _) as [r w2]. simpl in Hres. subst r.
  by destruct results.
Qed.

Lemma join_head (sep x : Py.str) (c : Py.char) (xs : list Py.str) :
  head x = Some c → head (Py.join sep (x :: xs)) = Some c.
Proof. destruct x, xs; simpl; congruence. Qed.

Lemma listing_is_not_sentinel (query : Py.str) (results : list Py.str) :
  listing results ≠ no_memories query.
Proof.
  intros Heq%(f_equal head). unfold listing, no_memories in Heq.
  rewrite (join_head _ _ 70%N) in Heq by reflexivity. discriminate Heq.
Qed.

(** C8. Without a semantic index, [search_memory] returns the fixed
    unavailability message, whatever the query, and touches nothing. With
    one, it re-indexes today's file, searches without filter, and returns
    the sentinel "No memories found for: {query}" exactly when the search
    found nothing, and otherwise the numbered listing of the fragments
    found, headed by their number. *)
Theorem search_memory_reports
    (self : MemoryStore.t) (query : Py.str) (n_results : Z) (w : World B) :
  (MemoryStore._vector self = None →
   MemoryStore.search_memory self query n_results w
   = (Ok (py "Semantic search unavailable (chromadb not installed). Use read_file to read memory files directly."),
      w))
  ∧ (∀ vector, MemoryStore._vector self = Some vector →
       ∃ results out w',
         (VectorStore.search vector query n_results None
            (refreshed self vector w)) = (Ok results, w')
         ∧ MemoryStore.search_memory self query n_results w = (Ok out, w')
         ∧ (out = py "No memories found for: " ++ query ↔ results = [])
         ∧ (results ≠ [] →
            out = Py.join [Py.LF]
                    ((py "Found " ++ Py.of_nat (length results)
                        ++ py " relevant memory fragments:" ++ [Py.LF])
                     :: imap (fun i chunk =>
                                py "--- Fragment " ++ Py.of_nat (S i)
                                  ++ py " ---" ++ [Py.LF] ++ chunk ++ [Py.LF])
                          results))).
Proof.
  split.
  - intros Hv. unfold MemoryStore.search_memory. by rewrite Hv.
  - intros vector Hv.
    destruct (search_memory_run self vector query n_results w Hv)
      as (results & Hres & Hrun).
    destruct (VectorStore.search _ _ _ _ _) as [r w'] eqn:Hs.
    simpl in Hres, Hrun. subst r.
    exists results, (match results with
                     | [] => no_memories query
                     | _ => listing results
                     end), w'.
    split; [done|]. split; [done|]. split.
    + destruct results as [|d ds]; [done|]. split; [|done].
      intros Heq. by apply listing_is_not_sentinel in Heq.
    + by destruct results.
Qed.

End SearchMemory.

(** ** The memory context *)

Section MemoryContext.
Context `{!Calendar} `{!Chroma.Embedding}.

Lemma bind_run {B A C : Type} (m : M B A) (k : A → M B C) (w w' : World B)
    (a : A) :
  m w = (Ok a, w') → bind m k w = k a w'.
Proof. intros Hm. unfold bind. by rewrite Hm. Qed.

Lemma read_only_run {B A : Type} (m : M B A) (w : World B) (a : A) :
  read_only m → (m w).1 = Ok a → m w = (Ok a, w).
Proof.
  intros Hro Ha. specialize (Hro w). destruct (m w) as [r w']. simpl in *.
  by subst.
Qed.

Lemma past_daily_matches (today : Py.str) (md : Metadata) :
  Chroma.where_matches (MemoryStore.past_daily today) md = true →
  md !! py "type" = Some (py "daily") ∧ md !! py "source" ≠ Some today.
Proof.
  unfold MemoryStore.past_daily. cbn [Chroma.where_matches forallb].
  rewrite !andb_true_iff, negb_true_iff.
  intros (Hty%bool_decide_eq_true & Hsrc%bool_decide_eq_false & _). done.
Qed.

(** C5. With a semantic index configured, for every query string,
    [get_memory_context] builds its "Relevant Past Memories" section from
    the hits of one search (none for the empty query, which is not
    searched): at most 5 chunks of the collection, found under the filter
    "type = daily and source ≠ today" after today's file was re-indexed,
    each of type daily and of a source other than today's date string. No
    chunk whose source is today's date string is among them, whatever the
    collection holds. *)
Theorem relevant_past_excludes_today
    (self : MemoryStore.t) (vector : VectorStore.t)
    (query long_term today_notes : Py.str)
    (w : World (gmap Py.str Chroma.Entry)) :
  MemoryStore._vector self = Some vector →
  (MemoryStore.read_long_term self w).1 = Ok long_term →
  (MemoryStore.read_today self w).1 = Ok today_notes →
  let today := strftime_ymd (today_ordinal w) in
  ∃ (hits : list (Py.str * Chroma.Entry)) w',
    let results := (Chroma.document ∘ snd) <$> hits in
    MemoryStore.get_memory_context self (Some query) w
    = (Ok (assembled long_term today_notes results), w')
    ∧ (query ≠ [] →
       VectorStore.search vector query 5
         (Some (WAnd [WEq (py "type") (py "daily"); WNe (py "source") today]))
         (refreshed self vector w) = (Ok results, w'))
    ∧ (length hits ≤ 5)%nat
    ∧ Forall (fun hit =>
                index w' !! hit.1 = Some hit.2
                ∧ Chroma.metadata hit.2 !! py "type" = Some (py "daily")
                ∧ Chroma.metadata hit.2 !! py "source" ≠ Some today)
             hits.
Proof.
  intros Hv Hlt Hnotes today.
  apply read_only_run in Hlt; [|apply read_long_term_read_only].
  apply read_only_run in Hnotes; [|apply read_today_read_only].
  destruct query as [|c query'].
  { exists [], w. cbn zeta. split; [|split; [done|split; [simpl; lia|done]]].
    unfold MemoryStore.get_memory_context.
    rewrite (bind_run _ _ _ _ _ Hlt). cbn zeta.
    rewrite (bind_run _ _ _ _ _ Hnotes). cbn zeta.
    rewrite Hv. cbn [Py.truthy]. unfold bind, ret, assembled.
    destruct (Py.truthy long_term), (Py.truthy today_notes); reflexivity. }
  set (query := c :: query').
  set (w1 := refreshed self vector w).
  set (flt := Some (WAnd _)).
  exists (Chroma.nearest query 5 (VectorStore.kwargs_where flt) (index w1)), w1.
  cbn zeta. split; [|split; [by rewrite chroma_search_run|]].
  - unfold MemoryStore.get_memory_context.
    rewrite (bind_run _ _ _ _ _ Hlt). cbn zeta.
    rewrite (bind_run _ _ _ _ _ Hnotes). cbn zeta.
    rewrite Hv. cbn [Py.truthy query]. unfold bind at 1.
    rewrite refresh_run. fold w1.
    unfold MemoryStore.today_date at 1.
    unfold bind at 1.
    assert (Htoday : today_ordinal w1 = today_ordinal w).
    { subst w1. unfold refreshed. case_bool_decide; [|done].
      apply upsert_file_outside_index. }
    rewrite Htoday. fold today.
    change (MemoryStore.past_daily today) with
      (WAnd [WEq (py "type") (py "daily"); WNe (py "source") today]).
    fold flt. unfold bind at 1. rewrite chroma_search_run.
    change (5 <=? 0) with false. cbv iota.
    unfold assembled.
    destruct (_ <$> Chroma.nearest _ _ _ _) as [|d ds]; unfold ret;
      destruct (Py.truthy long_term), (Py.truthy today_notes); reflexivity.
  - split; [apply nearest_length|].
    apply Forall_forall. intros [id e] [Hid Hwh]%nearest_elem.
    apply past_daily_matches in Hwh. done.
Qed.

End MemoryContext.

(** ** Appending to today's notes *)

Section AppendToday.
Context {B : Type} `{!Backend B} `{!Calendar}.

Lemma universal_newlines_unfold (c : Py.char) (t : Py.str) :
  universal_newlines (c :: t) =
  if (c =? Py.CR)%N then
    match t with
    | d :: t' =>
        if (d =? Py.LF)%N then Py.LF :: universal_newlines t'
        else Py.LF :: universal_newlines t
    | [] => [Py.LF]
    end
  else c :: universal_newlines t.
Proof. reflexivity. Qed.

(** A text without carriage return is read as it is stored. *)
Lemma universal_newlines_plain (s : Py.str) :
  Py.CR ∉ s → universal_newlines s = s.
Proof.
  induction s as [|c t IH]; [done|]. intros Hcr.
  apply not_elem_of_cons in Hcr as [Hc Ht].
  rewrite universal_newlines_unfold.
  destruct (c =? Py.CR)%N eqn:E; [by apply N.eqb_eq in E|].
  by rewrite IH.
Qed.

(** Induction along the cases of [universal_newlines]. *)
Lemma universal_newlines_ind (P : Py.str → Prop) :
  P [] →
  (∀ c t, c ≠ Py.CR → P t → P (c :: t)) →
  P [Py.CR] →
  (∀ t, P t → P (Py.CR :: Py.LF :: t)) →
  (∀ d t, d ≠ Py.LF → P (d :: t) → P (Py.CR :: d :: t)) →
  ∀ s, P s.
Proof.
  intros Hnil Hplain Hlast Hcrlf Hcr s.
  remember (length s) as n eqn:Hn. revert s Hn.
  induction (lt_wf n) as [n _ IH]. intros s ->.
  destruct s as [|c t]; [done|].
  destruct (decide (c = Py.CR)) as [->|Hc].
  - destruct t as [|d t']; [done|].
    destruct (decide (d = Py.LF)) as [->|Hd].
    + apply Hcrlf. eapply IH; [|done]. simpl. lia.
    + apply Hcr; [done|]. eapply IH; [|done]. simpl. lia.
  - apply Hplain; [done|]. eapply IH; [|done]. simpl. lia.
Qed.

Lemma universal_newlines_plain_cons (c : Py.char) (t : Py.str) :
  c ≠ Py.CR → universal_newlines (c :: t) = c :: universal_newlines t.
Proof.
  intros Hc. rewrite universal_newlines_unfold.
  by destruct (N.eqb_spec c Py.CR).
Qed.

Lemma universal_newlines_cr_lf (t : Py.str) :
  universal_newlines (Py.CR :: Py.LF :: t) = Py.LF :: universal_newlines t.
Proof. reflexivity. Qed.

Lemma universal_newlines_cr (d : Py.char) (t : Py.str) :
  d ≠ Py.LF →
  universal_newlines (Py.CR :: d :: t) = Py.LF :: universal_newlines (d :: t).
Proof.
  intros Hd. rewrite universal_newlines_unfold. simpl.
  by destruct (N.eqb_spec d Py.LF).
Qed.

(** Reading keeps a text free of surrogates. *)
Lemma encodable_universal_newlines (s : Py.str) :
  Py.encodable s = true → Py.encodable (universal_newlines s) = true.
Proof.
  induction s as [|c t Hc IH| |t IH|d t Hd IH] using universal_newlines_ind.
  - done.
  - rewrite universal_newlines_plain_cons by done. simpl.
    intros [Hhead Htail]%andb_true_iff. by rewrite Hhead, IH.
  - done.
  - rewrite universal_newlines_cr_lf. simpl. intros Ht. by apply IH.
  - rewrite universal_newlines_cr by done. intros Ht. by apply IH.
Qed.

Lemma encodable_app (a b : Py.str) :
  Py.encodable (a ++ b) = Py.encodable a && Py.encodable b.
Proof. apply forallb_app. Qed.

Lemma parent_joinpath (dir : Path) (name : Py.str) :
  PurePath.parent (dir // name) = dir.
Proof. apply removelast_last. Qed.

(** The outcomes of [write_text]. *)
Lemma write_text_run (path : Path) (data : Py.str) (w : World B) :
  fs w !! PurePath.parent path = Some Dir →
  fs w !! path ≠ Some Dir →
  Py.encodable data = true →
  write_text path data w = (Ok tt, set_fs <[path := File data]> w).
Proof.
  intros Hparent Hdir Henc. unfold write_text. rewrite Hparent, Henc.
  by destruct (fs w !! path) as [[existing|]|].
Qed.

Lemma write_text_surrogate (path : Path) (data : Py.str) (w : World B) :
  fs w !! PurePath.parent path = Some Dir →
  fs w !! path ≠ Some Dir →
  Py.encodable data = false →
  write_text path data w
  = (Raise (encode_error data), set_fs <[path := File []]> w).
Proof.
  intros Hparent Hdir Henc. unfold write_text. rewrite Hparent, Henc.
  by destruct (fs w !! path) as [[existing|]|].
Qed.

Lemma write_text_no_directory (path : Path) (data : Py.str) (w : World B) :
  fs w !! PurePath.parent path = None →
  write_text path data w = (Raise (Exception (py "FileNotFoundError") []), w).
Proof. intros Hparent. unfold write_text. by rewrite Hparent. Qed.

Lemma without_index_None (self : MemoryStore.t) :
  MemoryStore._vector self = None → without_index self = self.
Proof. destruct self as [ws v]. simpl. by intros ->. Qed.

Lemma get_today_file_run (self : MemoryStore.t) (w : World B) :
  MemoryStore.get_today_file self w = (Ok (today_file_in self w), w).
Proof. reflexivity. Qed.

(** The file part of [append_today]. *)
Lemma append_today_plain (self : MemoryStore.t) (content : Py.str)
    (w : World B) :
  fs w !! MemoryStore.memory_dir self = Some Dir →
  fs w !! today_file_in self w ≠ Some Dir →
  Py.encodable (today_text self content w) = true →
  MemoryStore.append_today (without_index self) content w
  = (Ok tt,
     set_fs <[today_file_in self w := File (today_text self content w)]> w).
Proof.
  intros Hmem Hdir Henc.
  assert (Hwrite : write_text (today_file_in self w)
                     (today_text self content w) w
                   = (Ok tt,
                      set_fs <[today_file_in self w
                                 := File (today_text self content w)]> w)).
  { apply write_text_run; [|done..].
    unfold today_file_in. by rewrite parent_joinpath. }
  unfold MemoryStore.append_today, MemoryStore.get_today_file,
    MemoryStore.today_date, today_text, header_in, today_file_in, bind, ret,
    path_exists, read_text in *. cbn.
  change (MemoryStore.memory_dir (without_index self))
    with (MemoryStore.memory_dir self).
  set (today_file := MemoryStore.memory_dir self // _) in *.
  destruct (fs w !! today_file) as [[existing|]|] eqn:Hf; cbn;
    rewrite ?Hf; cbn; [by rewrite Hwrite|done|].
  rewrite <- !app_assoc in Hwrite. rewrite <- !app_assoc.
  by rewrite Hwrite.
Qed.

(** [append_today], with or without index, as far as the disk and the
    clock go. *)
Lemma append_today_disk (self : MemoryStore.t) (content : Py.str)
    (w : World B) :
  fs w !! MemoryStore.memory_dir self = Some Dir →
  fs w !! today_file_in self w ≠ Some Dir →
  Py.encodable (today_text self content w) = true →
  (MemoryStore.append_today self content w).1 = Ok tt
  ∧ fs (MemoryStore.append_today self content w).2
    = <[today_file_in self w := File (today_text self content w)]> (fs w)
  ∧ today_ordinal (MemoryStore.append_today self content w).2
    = today_ordinal w.
Proof.
  intros Hmem Hdir Henc.
  pose proof (append_today_plain self content w Hmem Hdir Henc) as Hplain.
  destruct (MemoryStore._vector self) as [vector|] eqn:Hv.
  - rewrite (append_today_run self vector) by done. rewrite Hplain.
    unfold after_indexing.
    pose proof (upsert_file_outside_index vector (today_file_in self w)
      (py "daily")
      (set_fs <[today_file_in self w := File (today_text self content w)]> w))
      as (Hfs & _ & Hclock).
    by destruct (VectorStore.upsert_file _ _ _ _) as [[k|e] w2].
  - rewrite without_index_None in Hplain by done. by rewrite Hplain.
Qed.

Lemma joinpath_ne (dir : Path) (name : Py.str) : dir // name ≠ dir.
Proof.
  intros Heq. apply (f_equal length) in Heq. unfold joinpath in Heq.
  rewrite length_app in Heq. simpl in Heq. lia.
Qed.

(** The text [append_today] writes can be encoded when its parts can. *)
Lemma today_text_encodable (self : MemoryStore.t) (content : Py.str)
    (w : World B) :
  Py.encodable (strftime_ymd (today_ordinal w)) = true →
  (∀ existing, fs w !! today_file_in self w = Some (File existing) →
               Py.encodable existing = true) →
  Py.encodable content = true →
  Py.encodable (today_text self content w) = true.
Proof.
  intros Htoday Hexisting Hcontent. unfold today_text, header_in.
  destruct (fs w !! today_file_in self w) as [[existing|]|];
    rewrite !encodable_app, ?Htoday, Hcontent;
    [|reflexivity..].
  by rewrite encodable_universal_newlines by by apply Hexisting.
Qed.

(** The file part of [write_long_term]. *)
Lemma write_long_term_plain (self : MemoryStore.t) (content : Py.str)
    (w : World B) :
  fs w !! MemoryStore.memory_dir self = Some Dir →
  fs w !! MemoryStore.memory_file self ≠ Some Dir →
  Py.encodable content = true →
  MemoryStore.write_long_term (without_index self) content w
  = (Ok tt, set_fs <[MemoryStore.memory_file self := File content]> w).
Proof.
  intros Hmem Hdir Henc.
  unfold MemoryStore.write_long_term, bind, ret. cbn.
  change (MemoryStore.memory_file (without_index self))
    with (MemoryStore.memory_file self).
  rewrite write_text_run; [done| |done..].
  unfold MemoryStore.memory_file. by rewrite parent_joinpath.
Qed.

Lemma read_today_run (self : MemoryStore.t) (w : World B) (text : Py.str) :
  fs w !! today_file_in self w = Some (File text) →
  MemoryStore.read_today self w = (Ok (universal_newlines text), w).
Proof.
  intros Hf. unfold MemoryStore.read_today.
  rewrite (bind_run _ _ _ _ _ (get_today_file_run self w)).
  unfold bind, path_exists, read_text. rewrite Hf. cbn. by rewrite Hf.
Qed.

(** C6, with text-mode reading and writing. From a workspace whose memory
    directory exists, with no file for today, and for a date string and
    contents [c1] and [c2] that UTF-8 can encode (no surrogate),
    [append_today(c1)] returns and creates today's file with exactly
    "# {today}\n\n" followed by [c1]; a second call [append_today(c2)]
    returns and leaves that one file with the text read back from it
    (where every "\r\n" and every lone "\r" reads as "\n"), a newline and
    [c2]; [read_today] then returns the file's text, read the same way.
    When neither the date string nor [c1] nor [c2] holds a carriage return,
    the file holds header + c1 + "\n" + c2 and [read_today] returns exactly
    that string. *)
Theorem append_today_twice
    (self : MemoryStore.t) (c1 c2 : Py.str) (w : World B) :
  fs w !! MemoryStore.memory_dir self = Some Dir →
  fs w !! today_file_in self w = None →
  Py.encodable (strftime_ymd (today_ordinal w)) = true →
  Py.encodable c1 = true →
  Py.encodable c2 = true →
  let today := strftime_ymd (today_ordinal w) in
  let today_file := MemoryStore.memory_dir self // (today ++ py ".md") in
  let header := py "# " ++ today ++ [Py.LF; Py.LF] in
  let first := MemoryStore.append_today self c1 w in
  let second := MemoryStore.append_today self c2 first.2 in
  let text := universal_newlines (header ++ c1) ++ [Py.LF] ++ c2 in
  first.1 = Ok tt
  ∧ fs first.2 = <[today_file := File (header ++ c1)]> (fs w)
  ∧ second.1 = Ok tt
  ∧ fs second.2 = <[today_file := File text]> (fs w)
  ∧ (MemoryStore.read_today self second.2).1 = Ok (universal_newlines text)
  ∧ (Py.CR ∉ today → Py.CR ∉ c1 → Py.CR ∉ c2 →
     text = header ++ c1 ++ [Py.LF] ++ c2
     ∧ (MemoryStore.read_today self second.2).1
       = Ok (header ++ c1 ++ [Py.LF] ++ c2)).
Proof.
  intros Hmem Hnone Henc Henc1 Henc2 today today_file header first second text.
  assert (Htext1 : today_text self c1 w = header ++ c1).
  { unfold today_text. by rewrite Hnone. }
  assert (Hheader1 : Py.encodable (header ++ c1) = true).
  { subst header. rewrite !encodable_app. fold today in Henc.
    by rewrite Henc, Henc1. }
  destruct (append_today_disk self c1 w) as (Hr1 & Hfs1 & Hclock1).
  { done. }
  { by rewrite Hnone. }
  { by rewrite Htext1. }
  fold first in Hr1, Hfs1, Hclock1.
  assert (Hfile1 : today_file_in self first.2 = today_file).
  { unfold today_file_in. by rewrite Hclock1. }
  rewrite Htext1 in Hfs1. change (today_file_in self w) with today_file in Hfs1.
  assert (Htext2 : today_text self c2 first.2 = text).
  { unfold today_text. by rewrite Hfile1, Hfs1, lookup_insert_eq. }
  destruct (append_today_disk self c2 first.2) as (Hr2 & Hfs2 & Hclock2).
  { rewrite Hfs1, lookup_insert_ne; [done|]. apply joinpath_ne. }
  { by rewrite Hfile1, Hfs1, lookup_insert_eq. }
  { rewrite Htext2. subst text. rewrite !encodable_app.
    by rewrite encodable_universal_newlines, Henc2. }
  fold second in Hr2, Hfs2, Hclock2.
  rewrite Htext2, Hfile1, Hfs1, insert_insert_eq in Hfs2.
  assert (Hread : (MemoryStore.read_today self second.2).1
                  = Ok (universal_newlines text)).
  { erewrite read_today_run; [done|].
    unfold today_file_in. rewrite Hclock2, Hclock1. fold today today_file.
    by rewrite Hfs2, lookup_insert_eq. }
  do 5 (split; [done|]). intros Htoday Hc1 Hc2.
  assert (Hheader : Py.CR ∉ header).
  { subst header. rewrite !not_elem_of_app. split; [|split; [done|]].
    - intros Hin%list_elem_of_In. vm_compute in Hin. intuition discriminate.
    - intros Hin%list_elem_of_In. vm_compute in Hin. intuition discriminate. }
  assert (Htext : text = header ++ c1 ++ [Py.LF] ++ c2).
  { subst text. rewrite universal_newlines_plain; [by rewrite <- app_assoc|].
    by rewrite not_elem_of_app. }
  split; [done|]. rewrite Hread, Htext. f_equal.
  apply universal_newlines_plain. rewrite !not_elem_of_app.
  split; [done|]. split; [done|]. split; [|done].
  intros Hin%list_elem_of_In. vm_compute in Hin. intuition discriminate.
Qed.

End AppendToday.

(** * The properties at work in a workspace *)

Section Scenarios.
Import Scenario.
#[local] Existing Instance Scenario.by_length.
#[local] Existing Instance Gregorian.calendar.
#[local] Existing Instance Unreachable.backend.

(** A run of three newlines is cut after the second. *)
Example split_three_newlines :
  Py.split2 Py.LF Py.LF (py "a" ++ [Py.LF; Py.LF; Py.LF] ++ py "b")
  = [py "a"; [Py.LF] ++ py "b"].
Proof. vm_compute; reflexivity. Qed.

(** The calendar prints a day as [date.strftime("%Y-%m-%d")] does. *)
Example strftime_days :
  strftime_ymd TODAY = py "2025-06-01"
  ∧ strftime_ymd 364877 = py "999-12-31"
  ∧ strftime_ymd 1 = py "1-01-01".
Proof. repeat split; vm_compute; reflexivity. Qed.

(** The text of the encoding error names a lone surrogate by its
    character and a run of surrogates by its positions. *)
Example encode_error_texts :
  exn_str (encode_error (py "x" ++ [55296%N] ++ py "y" ++ [56320%N; 56321%N]))
  = py "'utf-8' codec can't encode character '\ud800' in position 1: surrogates not allowed"
  ∧ exn_str (encode_error [56320%N; 56321%N; 56322%N])
    = py "'utf-8' codec can't encode characters in position 0-2: surrogates not allowed".
Proof. split; vm_compute; reflexivity. Qed.

(** The daily files are listed newest first. *)
Example list_memory_files_busy :
  (MemoryStore.list_memory_files store busy).1
  = Ok [today_file; memory // py "2025-05-31.md"].
Proof. vm_compute; reflexivity. Qed.

(** The notes of the last days are joined newest first; a day without file
    is skipped. *)
Example get_recent_memories_busy :
  (MemoryStore.get_recent_memories store 3 busy).1
  = Ok ((py "# 2025-06-01" ++ [Py.LF; Py.LF] ++ note1)
          ++ MemoryStore.SEPARATOR
          ++ (py "# 2025-05-31" ++ [Py.LF; Py.LF] ++ note2)).
Proof. vm_compute; reflexivity. Qed.

(** A file of one paragraph of 125 characters is one chunk. *)
Example upsert_one_paragraph :
  let text := note1 ++ py " " ++ note2 in
  let w : World (gmap Py.str Chroma.Entry) :=
    mkWorld {[ memory := Dir; today_file := File text ]} ∅ [] TODAY in
  let w' := (VectorStore.upsert_file vector today_file (py "daily") w).2 in
  length text = 125%nat
  ∧ (VectorStore.upsert_file vector today_file (py "daily") w).1 = Ok 1
  ∧ (VectorStore.count vector w').1 = Ok 1.
Proof. vm_compute. repeat split; reflexivity. Qed.

(** With the collection unreachable, appending a note on a fresh day
    writes the file, logs the failure and returns. *)
Lemma index_failure_is_not_fatal_witness :
  let w := fresh tt in
  let w1 :=
    set_fs <[today_file := File (py "# 2025-06-01" ++ [Py.LF; Py.LF] ++ note1)]>
      w in
  MemoryStore._vector store = Some vector
  ∧ MemoryStore.append_today (without_index store) note1 w = (Ok tt, w1)
  ∧ VectorStore.upsert_file vector (today_file_in store w) (py "daily") w1
    = (Raise Unreachable.failure, w1)
  ∧ MemoryStore.append_today store note1 w
    = (Ok tt,
       add_log WARNING
         (py "Failed to upsert today's notes to vector store: "
            ++ py "database is unreachable") w1).
Proof.
  intros w w1.
  assert (H0 : MemoryStore._vector store = Some vector) by reflexivity.
  assert (H1 : MemoryStore.append_today (without_index store) note1 w
               = (Ok tt, w1)) by (vm_compute; reflexivity).
  assert (H2 : VectorStore.upsert_file vector (today_file_in store w)
                 (py "daily") w1 = (Raise Unreachable.failure, w1))
    by (vm_compute; reflexivity).
  split; [exact H0|]. split; [exact H1|]. split; [exact H2|].
  destruct (index_failure_is_not_fatal store vector note1 w H0)
    as [(_ & _ & Happend) _].
  destruct (Happend w1 H1) as [_ Hraised].
  exact (proj1 (Hraised _ _ H2)).
Defined.

(** A file of two notes and a short line between them yields two chunks,
    under the ids [2025-06-01::0] and [2025-06-01::1]. *)
Lemma upsert_file_correct_witness :
  let content := note1 ++ [Py.LF; Py.LF] ++ short_note
                   ++ [Py.LF; Py.LF] ++ note2 in
  let w : World (gmap Py.str Chroma.Entry) :=
    mkWorld {[ memory := Dir; today_file := File content ]} ∅ [] TODAY in
  fs w !! today_file = Some (File content)
  ∧ ∃ w',
      VectorStore.upsert_file vector today_file (py "daily") w = (Ok 2, w')
      ∧ index w' !! py "2025-06-01::0" = Some (daily (py "2025-06-01") note1)
      ∧ index w' !! py "2025-06-01::1" = Some (daily (py "2025-06-01") note2).
Proof.
  intros content w.
  assert (H0 : fs w !! today_file = Some (File content))
    by (vm_compute; reflexivity).
  split; [exact H0|].
  destruct (upsert_file_correct vector today_file (py "daily") content w H0)
    as (w' & Hrun & _ & Hids & _).
  exists w'. split; [exact Hrun|]. split.
  - exact (Hids 0%nat note1 ltac:(vm_compute; reflexivity)).
  - exact (Hids 1%nat note2 ltac:(vm_compute; reflexivity)).
Defined.

(** Two notes are indexed, then the file is replaced by a single other
    note and indexed again: [::0] holds the new note, [::1] still holds the
    second of the old ones. *)
Lemma shorter_upsert_leaves_stale_chunks_witness :
  let old := note1 ++ [Py.LF; Py.LF] ++ note2 in
  let w : World (gmap Py.str Chroma.Entry) :=
    mkWorld {[ memory := Dir; today_file := File old ]} ∅ [] TODAY in
  let w1 := (VectorStore.upsert_file vector today_file (py "daily") w).2 in
  let w2 :=
    (VectorStore.upsert_file vector today_file (py "daily")
       (set_fs <[today_file := File note3]> w1)).2 in
  fs w !! today_file = Some (File old)
  ∧ (length (Chunker._split_paragraphs (universal_newlines note3))
     < length (Chunker._split_paragraphs (universal_newlines old)))%nat
  ∧ index w2 !! py "2025-06-01::0" = Some (daily (py "2025-06-01") note3)
  ∧ index w2 !! py "2025-06-01::1" = Some (daily (py "2025-06-01") note2).
Proof.
  intros old w w1 w2.
  assert (H0 : fs w !! today_file = Some (File old))
    by (vm_compute; reflexivity).
  assert (H1 : (length (Chunker._split_paragraphs (universal_newlines note3))
     < length (Chunker._split_paragraphs (universal_newlines old)))%nat)
    by (vm_compute; lia).
  split; [exact H0|]. split; [exact H1|].
  destruct (shorter_upsert_leaves_stale_chunks vector today_file (py "daily")
              old note3 w H0 H1) as [Hnew Hstale].
  split.
  - exact (Hnew 0%nat note3 ltac:(vm_compute; reflexivity)).
  - exact (Hstale 1%nat note2 ltac:(vm_compute; lia)
             ltac:(vm_compute; reflexivity)).
Defined.

(** In the busy workspace a query is answered from yesterday's notes only,
    though today's chunk is in the collection. *)
Lemma relevant_past_excludes_today_witness :
  let notes := py "# 2025-06-01" ++ [Py.LF; Py.LF] ++ note1 in
  MemoryStore._vector store = Some vector
  ∧ (MemoryStore.read_long_term store busy).1 = Ok []
  ∧ (MemoryStore.read_today store busy).1 = Ok notes
  ∧ index busy !! py "2025-06-01::0" = Some (daily (py "2025-06-01") note1)
  ∧ ∃ hits w',
      MemoryStore.get_memory_context store (Some (py "delivery")) busy
      = (Ok (assembled [] notes ((Chroma.document ∘ snd) <$> hits)), w')
      ∧ Forall (fun hit =>
                  index w' !! hit.1 = Some hit.2
                  ∧ Chroma.metadata hit.2 !! py "source"
                    ≠ Some (py "2025-06-01"))
               hits.
Proof.
  intros notes.
  assert (H0 : MemoryStore._vector store = Some vector) by reflexivity.
  assert (H2 : (MemoryStore.read_long_term store busy).1 = Ok [])
    by (vm_compute; reflexivity).
  assert (H3 : (MemoryStore.read_today store busy).1 = Ok notes)
    by (vm_compute; reflexivity).
  split; [exact H0|]. split; [exact H2|].
  split; [exact H3|]. split; [vm_compute; reflexivity|].
  destruct (relevant_past_excludes_today store vector (py "delivery") []
              notes busy H0 H2 H3) as (hits & w' & Hrun & _ & _ & Hhits).
  exists hits, w'. split; [exact Hrun|].
  eapply Forall_impl; [exact Hhits|]. intros hit (Hin & _ & Hsrc).
  split; [exact Hin | exact Hsrc].
Defined.

(** On a fresh day two plain notes are appended and read back. *)
Lemma append_today_twice_witness :
  let w : World (gmap Py.str Chroma.Entry) := fresh ∅ in
  let header := py "# 2025-06-01" ++ [Py.LF; Py.LF] in
  let second :=
    MemoryStore.append_today store short_note
      (MemoryStore.append_today store note1 w).2 in
  fs w !! MemoryStore.memory_dir store = Some Dir
  ∧ fs w !! today_file_in store w = None
  ∧ Py.encodable (strftime_ymd (today_ordinal w)) = true
  ∧ Py.encodable note1 = true
  ∧ Py.encodable short_note = true
  ∧ (Py.CR ∉ strftime_ymd (today_ordinal w))
  ∧ (Py.CR ∉ note1)
  ∧ (Py.CR ∉ short_note)
  ∧ second.1 = Ok tt
  ∧ (MemoryStore.read_today store second.2).1
    = Ok (header ++ note1 ++ [Py.LF] ++ short_note).
Proof.
  intros w header second.
  assert (Hm : fs w !! MemoryStore.memory_dir store = Some Dir)
    by (vm_compute; reflexivity).
  assert (H0 : fs w !! today_file_in store w = None)
    by (vm_compute; reflexivity).
  assert (He0 : Py.encodable (strftime_ymd (today_ordinal w)) = true)
    by (vm_compute; reflexivity).
  assert (He1 : Py.encodable note1 = true) by (vm_compute; reflexivity).
  assert (He2 : Py.encodable short_note = true) by (vm_compute; reflexivity).
  assert (H1 : Py.CR ∉ strftime_ymd (today_ordinal w))
    by (apply (bool_decide_unpack _); vm_compute; exact I).
  assert (H2 : Py.CR ∉ note1)
    by (apply (bool_decide_unpack _); vm_compute; exact I).
  assert (H3 : Py.CR ∉ short_note)
    by (apply (bool_decide_unpack _); vm_compute; exact I).
  split; [exact Hm|]. split; [exact H0|]. split; [exact He0|].
  split; [exact He1|]. split; [exact He2|].
  split; [exact H1|]. split; [exact H2|]. split; [exact H3|].
  destruct (append_today_twice store note1 short_note w Hm H0 He0 He1 He2)
    as (_ & _ & Hreturns & _ & _ & Hplain).
  destruct (Hplain H1 H2 H3) as [_ Hread].
  split; [exact Hreturns | exact Hread].
Defined.

(** C6 does not hold for every content: a carriage return in the first note
    is a newline once the second note is appended, in the file and in what
    [read_today] returns. *)
Lemma append_today_carriage_return :
  let w : World unit := fresh tt in
  let c1 := py "a" ++ [Py.CR] ++ py "b" in
  let c2 := py "c" in
  let header := py "# 2025-06-01" ++ [Py.LF; Py.LF] in
  let second :=
    MemoryStore.append_today plain_store c2
      (MemoryStore.append_today plain_store c1 w).2 in
  fs w !! today_file = None
  ∧ second.1 = Ok tt
  ∧ fs second.2 !! today_file
    = Some (File (header ++ py "a" ++ [Py.LF] ++ py "b" ++ [Py.LF] ++ c2))
  ∧ fs second.2 !! today_file ≠ Some (File (header ++ c1 ++ [Py.LF] ++ c2))
  ∧ (MemoryStore.read_today plain_store second.2).1
    ≠ Ok (header ++ c1 ++ [Py.LF] ++ c2).
Proof.
  intros w c1 c2 header second.
  split; [|split; [|split; [|split]]].
  - vm_compute; reflexivity.
  - vm_compute; reflexivity.
  - vm_compute; reflexivity.
  - intros Heq. vm_compute in Heq. discriminate Heq.
  - intros Heq. vm_compute in Heq. discriminate Heq.
Qed.

(** The nearest of the two notes of the busy workspace, by length, is
    yesterday's. *)
Example search_busy :
  VectorStore.search vector (py "delivery") 1 None busy = (Ok [note2], busy)
  ∧ VectorStore.search vector (py "delivery") 5 None busy
    = (Ok [note2; note1], busy).
Proof. split; vm_compute; reflexivity. Qed.

(** An unreachable collection makes [search] log and return nothing; the
    reference collection of the busy workspace answers with its top hits. *)
Lemma search_never_raises_witness :
  let w : World unit := fresh tt in
  let answer :=
    mkQueryResult [[py "2025-05-31::0"; py "2025-06-01::0"]]
      (Some [[note2; note1]]) in
  coll_query [py "delivery"] 5 (VectorStore.kwargs_where None) (index w)
  = (Raise Unreachable.failure, tt)
  ∧ VectorStore.search vector (py "delivery") 5 None w
    = (Ok [],
       add_log WARNING
         (py "VectorStore search failed: " ++ py "database is unreachable") w)
  ∧ coll_query [py "delivery"] 5 (VectorStore.kwargs_where None) (index busy)
    = (Ok answer, index busy)
  ∧ VectorStore.search vector (py "delivery") 5 None busy
    = (Ok [note2; note1], set_index (index busy) busy)
  ∧ 0 < 5
  ∧ ∃ hits,
      VectorStore.search vector (py "delivery") 5 None busy
      = (Ok (Chroma.document <$> hits.*2), busy)
      ∧ top_hits (py "delivery") 5 (VectorStore.kwargs_where None)
          (index busy) hits.
Proof.
  intros w answer.
  assert (H0 : coll_query [py "delivery"] 5 (VectorStore.kwargs_where None)
                 (index w) = (Raise Unreachable.failure, tt)) by reflexivity.
  assert (H1 : coll_query [py "delivery"] 5 (VectorStore.kwargs_where None)
                 (index busy) = (Ok answer, index busy))
    by (vm_compute; reflexivity).
  assert (H2 : 0 < 5) by lia.
  destruct (search_never_raises vector (py "delivery") 5 None)
    as [Hany Hreference].
  destruct (Hany unit _ w) as (_ & Hraised & _).
  destruct (Hany _ _ busy) as (_ & _ & Hreturned).
  destruct (Hreference by_length busy) as [_ Hhits].
  split; [exact H0|]. split; [exact (Hraised _ _ H0)|].
  split; [exact H1|]. split; [exact (Hreturned _ _ H1)|].
  split; [exact H2|]. exact (Hhits H2).
Defined.

(** Without index the tool gets the fixed message; with one, in the busy
    workspace, a report on what the search found. *)
Lemma search_memory_reports_witness :
  MemoryStore._vector plain_store = None
  ∧ MemoryStore.search_memory plain_store (py "delivery") 10 (fresh tt)
    = (Ok MemoryStore.UNAVAILABLE, fresh tt)
  ∧ MemoryStore._vector store = Some vector
  ∧ ∃ (results : list Py.str) out w',
      MemoryStore.search_memory store (py "delivery") 10 busy = (Ok out, w')
      ∧ (out = py "No memories found for: " ++ py "delivery" ↔ results = []).
Proof.
  assert (H0 : MemoryStore._vector plain_store = None) by reflexivity.
  assert (H1 : MemoryStore._vector store = Some vector) by reflexivity.
  split; [exact H0|]. split.
  - exact (proj1 (search_memory_reports plain_store (py "delivery") 10
                    (fresh tt)) H0).
  - split; [exact H1|].
    destruct (proj2 (search_memory_reports store (py "delivery") 10 busy)
                vector H1) as (results & out & w' & _ & Hrun & Hiff & _).
    exists results, out, w'. split; [exact Hrun | exact Hiff].
Defined.

End Scenarios.

(** * Further properties *)

(** ** Methods that leave the documents alone *)

Section KeepsDisk.
Context {B : Type} `{!Backend B} `{!Calendar}.

Lemma keeps_disk_read_only {A : Type} (m : M B A) :
  read_only m → keeps_disk m.
Proof. intros Hm w. by rewrite Hm. Qed.

Lemma keeps_disk_ret {A : Type} (a : A) : keeps_disk (B:=B) (ret a).
Proof. done. Qed.

Lemma keeps_disk_bind {A C : Type} (m : M B A) (k : A → M B C) :
  keeps_disk m → (∀ a, keeps_disk (k a)) → keeps_disk (bind m k).
Proof.
  intros Hm Hk w. unfold bind. destruct (Hm w) as [Hfs Hclock].
  destruct (m w) as [[a|e] w']; simpl in *; [|done].
  destruct (Hk a w') as [Hfs' Hclock']. split; congruence.
Qed.

Lemma keeps_disk_catch {A : Type} (m : M B A) :
  keeps_disk m → keeps_disk (catch m).
Proof.
  intros Hm w. unfold catch. specialize (Hm w). by destruct (m w).
Qed.

Lemma keeps_disk_if {A : Type} (b : bool) (m1 m2 : M B A) :
  keeps_disk m1 → keeps_disk m2 → keeps_disk (if b then m1 else m2).
Proof. by destruct b. Qed.

Lemma keeps_disk_for_each {A S : Type} (xs : list A) (body : S → A → M B S)
    (acc : S) :
  (∀ acc x, keeps_disk (body acc x)) → keeps_disk (for_each xs body acc).
Proof.
  intros Hbody. revert acc. induction xs as [|x xs IH]; intros acc; simpl.
  - apply keeps_disk_ret.
  - apply keeps_disk_bind; [apply Hbody | apply IH].
Qed.

Lemma keeps_disk_call {A : Type} (f : B → result A * B) : keeps_disk (call f).
Proof. intros w. unfold call. by destruct (f (index w)). Qed.

Lemma keeps_disk_logger (l : level) (msg : Py.str) :
  keeps_disk (B:=B) (logger l msg).
Proof. done. Qed.

Lemma keeps_disk_upsert_file (self : VectorStore.t) (path : Path)
    (doc_type : Py.str) :
  keeps_disk (B:=B) (VectorStore.upsert_file self path doc_type).
Proof.
  intros w. by destruct (upsert_file_outside_index self path doc_type w)
    as (? & _ & ?).
Qed.

Lemma keeps_disk_search (self : VectorStore.t) (query : Py.str) (n : Z)
    (where_ : option Where) :
  keeps_disk (B:=B) (VectorStore.search self query n where_).
Proof.
  intros w. rewrite search_run.
  by destruct (coll_query _ _ _ _) as [[results|e] b].
Qed.

Lemma keeps_disk_refresh (self : MemoryStore.t) (vector : VectorStore.t) :
  keeps_disk (B:=B)
    (bind (MemoryStore.get_today_file self)
       (fun today_file =>
          bind (path_exists today_file)
            (fun found =>
               if found
               then bind (catch (VectorStore.upsert_file vector today_file
                                   (py "daily")))
                      (fun _ => ret tt)
               else ret tt))).
Proof.
  apply keeps_disk_bind; [by apply keeps_disk_read_only|]. intros today_file.
  apply keeps_disk_bind; [by apply keeps_disk_read_only|]. intros found.
  apply keeps_disk_if; [|apply keeps_disk_ret].
  apply keeps_disk_bind; [|intros; apply keeps_disk_ret].
  apply keeps_disk_catch, keeps_disk_upsert_file.
Qed.

#[local] Ltac keeps_disk :=
  repeat first
    [ apply keeps_disk_ret
    | apply keeps_disk_logger
    | apply keeps_disk_call
    | apply keeps_disk_upsert_file
    | apply keeps_disk_search
    | apply keeps_disk_catch
    | apply keeps_disk_if
    | apply keeps_disk_for_each; intros ? ?
    | apply keeps_disk_bind; [|intros ?] ].

Lemma keeps_disk_get_memory_context (self : MemoryStore.t)
    (query : option Py.str) :
  keeps_disk (B:=B) (MemoryStore.get_memory_context self query).
Proof.
  unfold MemoryStore.get_memory_context.
  apply keeps_disk_bind;
    [apply keeps_disk_read_only, read_long_term_read_only|]. intros long_term.
  apply keeps_disk_bind;
    [apply keeps_disk_read_only, read_today_read_only|]. intros today.
  apply keeps_disk_bind; [|intros; apply keeps_disk_ret].
  destruct query as [query|], (MemoryStore._vector self) as [vector|];
    try apply keeps_disk_ret.
  apply keeps_disk_if; [|apply keeps_disk_ret].
  apply keeps_disk_bind; [by apply keeps_disk_read_only|]. intros today_file.
  apply keeps_disk_bind; [by apply keeps_disk_read_only|]. intros found.
  apply keeps_disk_bind; [keeps_disk|]. intros _.
  apply keeps_disk_bind; [by apply keeps_disk_read_only|]. intros today_stem.
  apply keeps_disk_bind; [keeps_disk|]. intros results.
  destruct results; apply keeps_disk_ret.
Qed.

Lemma keeps_disk_search_memory (self : MemoryStore.t) (query : Py.str)
    (n_results : Z) :
  keeps_disk (B:=B) (MemoryStore.search_memory self query n_results).
Proof.
  unfold MemoryStore.search_memory.
  destruct (MemoryStore._vector self) as [vector|]; [|apply keeps_disk_ret].
  apply keeps_disk_bind; [by apply keeps_disk_read_only|]. intros today_file.
  apply keeps_disk_bind; [by apply keeps_disk_read_only|]. intros found.
  apply keeps_disk_bind; [keeps_disk|]. intros _.
  apply keeps_disk_bind; [keeps_disk|]. intros results.
  destruct results; apply keeps_disk_ret.
Qed.

Lemma keeps_disk_reindex_all (self : MemoryStore.t) :
  keeps_disk (B:=B) (MemoryStore._reindex_all self).
Proof.
  unfold MemoryStore._reindex_all.
  destruct (MemoryStore._vector self) as [vector|]; [|apply keeps_disk_ret].
  apply keeps_disk_bind; [by apply keeps_disk_read_only|]. intros found.
  apply keeps_disk_bind; [keeps_disk|]. intros total.
  apply keeps_disk_bind;
    [apply keeps_disk_read_only, list_memory_files_read_only|]. intros files.
  apply keeps_disk_bind; [keeps_disk|]. intros total'.
  apply keeps_disk_bind;
    [apply keeps_disk_read_only, list_memory_files_read_only|]. intros files'.
  apply keeps_disk_logger.
Qed.

(** X1. The semantic side never writes a document: whatever the collection
    does, [upsert_file], [search], [delete_by_source], [count], the
    startup re-indexing, [get_memory_context], [search_memory] and the
    tool's [execute] leave every file on disk as it was, whether they
    return or raise. Only the index and the log can change. *)
Theorem semantic_methods_keep_disk
    (store : MemoryStore.t) (vector : VectorStore.t) (path : Path)
    (text : Py.str) (n : Z) (where_ : option Where) (query : option Py.str)
    (count : option Z) :
  keeps_disk (B:=B) (VectorStore.upsert_file vector path text)
  ∧ keeps_disk (B:=B) (VectorStore.search vector text n where_)
  ∧ keeps_disk (B:=B) (VectorStore.delete_by_source vector text)
  ∧ keeps_disk (B:=B) (VectorStore.count vector)
  ∧ keeps_disk (B:=B) (MemoryStore._reindex_all store)
  ∧ keeps_disk (B:=B) (MemoryStore.get_memory_context store query)
  ∧ keeps_disk (B:=B) (MemoryStore.search_memory store text n)
  ∧ keeps_disk (B:=B)
      (MemorySearchTool.execute (MemorySearchTool.mk store) text count).
Proof.
  split; [apply keeps_disk_upsert_file|].
  split; [apply keeps_disk_search|].
  split; [apply keeps_disk_call|].
  split; [apply keeps_disk_call|].
  split; [apply keeps_disk_reindex_all|].
  split; [apply keeps_disk_get_memory_context|].
  split; apply keeps_disk_search_memory.
Qed.

End KeepsDisk.


(** ** The context without a search *)

Section ContextOnly.
Context {B : Type} `{!Backend B} `{!Calendar}.

(** X2. Without a query, with the empty query or without an index,
    [get_memory_context] does not search and does not index: it leaves the
    whole world as it was and, when the two documents can be read, returns
    the sections of the long-term document and of today's notes, each only
    if not empty, and the empty string when both are empty or missing. *)
Theorem get_memory_context_without_search
    (self : MemoryStore.t) (query : option Py.str) (w : World B) :
  query = None ∨ query = Some [] ∨ MemoryStore._vector self = None →
  (MemoryStore.get_memory_context self query w).2 = w
  ∧ (∀ long_term today,
       (MemoryStore.read_long_term self w).1 = Ok long_term →
       (MemoryStore.read_today self w).1 = Ok today →
       (MemoryStore.get_memory_context self query w).1
       = Ok (assembled long_term today []))
  ∧ (fs w !! MemoryStore.memory_file self = None →
     fs w !! today_file_in self w = None →
     (MemoryStore.get_memory_context self query w).1 = Ok []).
Proof.
  intros Hno.
  assert (Hparts : ∀ parts : list Py.str,
    match query, MemoryStore._vector self with
    | Some query, Some vector =>
        if Py.truthy query then
          today_file <- MemoryStore.get_today_file self ;;
          found <- path_exists today_file ;;
          (if found
           then catch (VectorStore.upsert_file vector today_file (py "daily")) ;;
                ret tt
           else ret tt) ;;
          today_stem <- MemoryStore.today_date ;;
          results <- VectorStore.search vector query 5
                       (Some (MemoryStore.past_daily today_stem)) ;;
          match results with
          | _ :: _ =>
              let chunks := Py.join MemoryStore.SEPARATOR results in
              ret (parts ++ [py "## Relevant Past Memories" ++ [Py.LF] ++ chunks])
          | [] => ret parts
          end
        else ret parts
    | _, _ => ret parts
    end = ret (B:=B) parts).
  { intros parts. destruct Hno as [->|[->| ->]]; [done|by destruct (MemoryStore._vector self)|].
    by destruct query. }
  assert (Hrun : ∀ long_term today,
    MemoryStore.read_long_term self w = (Ok long_term, w) →
    MemoryStore.read_today self w = (Ok today, w) →
    MemoryStore.get_memory_context self query w
    = (Ok (assembled long_term today []), w)).
  { intros long_term today Hlt Htoday.
    unfold MemoryStore.get_memory_context.
    rewrite (bind_run _ _ _ _ _ Hlt). cbn zeta.
    rewrite (bind_run _ _ _ _ _ Htoday). cbn zeta.
    rewrite Hparts. unfold bind, ret, assembled.
    destruct (Py.truthy long_term), (Py.truthy today); reflexivity. }
  split; [|split].
  - unfold MemoryStore.get_memory_context.
    pose proof (read_long_term_read_only (B:=B) self w) as Hlt.
    unfold bind at 1.
    destruct (MemoryStore.read_long_term self w) as [[long_term|e] w1];
      simpl in Hlt; subst w1; [|done].
    cbn zeta. pose proof (read_today_read_only (B:=B) self w) as Htoday.
    unfold bind at 1.
    destruct (MemoryStore.read_today self w) as [[today|e] w1];
      simpl in Htoday; subst w1; [|done].
    cbn zeta. by rewrite Hparts.
  - intros long_term today Hlt Htoday.
    apply read_only_run in Hlt; [|apply read_long_term_read_only].
    apply read_only_run in Htoday; [|apply read_today_read_only].
    by rewrite (Hrun long_term today).
  - intros Hmem Hfile. rewrite (Hrun [] []); [done|..].
    + unfold MemoryStore.read_long_term, bind, path_exists. by rewrite Hmem.
    + unfold MemoryStore.read_today.
      rewrite (bind_run _ _ _ _ _ (get_today_file_run self w)).
      unfold bind, path_exists. by rewrite Hfile.
Qed.

End ContextOnly.

(** ** Reading back what was written *)

Section RoundTrips.
Context {B : Type} `{!Backend B} `{!Calendar}.

Lemma no_cr_cons (c : Py.char) (t : Py.str) :
  c ≠ Py.CR → Py.CR ∉ t → Py.CR ∉ c :: t.
Proof. intros Hc Ht. apply not_elem_of_cons. by split. Qed.

(** What is read holds no carriage return. *)
Lemma universal_newlines_no_cr (s : Py.str) : Py.CR ∉ universal_newlines s.
Proof.
  induction s as [|c t Hc IH| |t IH|d t Hd IH] using universal_newlines_ind.
  - apply not_elem_of_nil.
  - rewrite universal_newlines_plain_cons by done. by apply no_cr_cons.
  - apply (no_cr_cons Py.LF []); [done|apply not_elem_of_nil].
  - rewrite universal_newlines_cr_lf. by apply no_cr_cons.
  - rewrite universal_newlines_cr by done. by apply no_cr_cons.
Qed.

(** A text without carriage return in front does not change how the rest
    is read. *)
Lemma universal_newlines_app_plain (a b : Py.str) :
  Py.CR ∉ a → universal_newlines (a ++ b) = a ++ universal_newlines b.
Proof.
  induction a as [|c a IH]; [done|]. intros [Hc Ha]%not_elem_of_cons.
  rewrite <- app_comm_cons, universal_newlines_plain_cons by done.
  by rewrite IH.
Qed.

(** X3. [write_long_term] replaces the long-term document wholesale and
    [read_long_term] reads it back: when the memory directory exists,
    MEMORY.md is not a directory and [content] holds no surrogate, then
    whatever the file held and whatever the index does, after
    [write_long_term(content)] the file holds exactly [content], no other
    file has changed, and [read_long_term] returns [content] with its line
    ends read as "\n", that is [content] itself when it holds no carriage
    return. *)
Theorem long_term_round_trip (self : MemoryStore.t) (content : Py.str)
    (w : World B) :
  fs w !! MemoryStore.memory_dir self = Some Dir →
  fs w !! MemoryStore.memory_file self ≠ Some Dir →
  Py.encodable content = true →
  let w' := (MemoryStore.write_long_term self content w).2 in
  (MemoryStore.write_long_term self content w).1 = Ok tt
  ∧ fs w' = <[MemoryStore.memory_file self := File content]> (fs w)
  ∧ (MemoryStore.read_long_term self w').1 = Ok (universal_newlines content)
  ∧ (Py.CR ∉ content → (MemoryStore.read_long_term self w').1 = Ok content).
Proof.
  intros Hmem Hdir Henc w'.
  assert (Hplain : MemoryStore.write_long_term (without_index self) content w
    = (Ok tt, set_fs <[MemoryStore.memory_file self := File content]> w)).
  { apply write_long_term_plain; done. }
  assert (Hrun : (MemoryStore.write_long_term self content w).1 = Ok tt
    ∧ fs w' = <[MemoryStore.memory_file self := File content]> (fs w)).
  { subst w'. destruct (MemoryStore._vector self) as [vector|] eqn:Hv.
    - rewrite (write_long_term_run self vector) by done. rewrite Hplain.
      apply after_indexing_disk.
    - rewrite without_index_None in Hplain by done. by rewrite Hplain. }
  destruct Hrun as [Hok Hfs].
  assert (Hread : (MemoryStore.read_long_term self w').1
                  = Ok (universal_newlines content)).
  { unfold MemoryStore.read_long_term, bind, path_exists, read_text.
    rewrite Hfs, lookup_insert_eq. cbn. by rewrite Hfs, lookup_insert_eq. }
  repeat split; try done.
  intros Hcr. by rewrite Hread, universal_newlines_plain.
Qed.

(** X4. [append_today] extends today's notes when the text can be
    written: when the memory directory and today's file exist and neither
    the file's text nor [content] holds a surrogate, the call returns, no
    other file changes, and [read_today] afterwards returns what it returned
    before, then "\n", then the content (with its line ends read as "\n"),
    whatever the index does. *)
Theorem append_today_extends_reading (self : MemoryStore.t)
    (content existing : Py.str) (w : World B) :
  fs w !! MemoryStore.memory_dir self = Some Dir →
  fs w !! today_file_in self w = Some (File existing) →
  Py.encodable existing = true →
  Py.encodable content = true →
  let w' := (MemoryStore.append_today self content w).2 in
  ∃ before,
    (MemoryStore.read_today self w).1 = Ok before
    ∧ (MemoryStore.append_today self content w).1 = Ok tt
    ∧ (MemoryStore.read_today self w').1
      = Ok (before ++ [Py.LF] ++ universal_newlines content)
    ∧ (∀ path, path ≠ today_file_in self w → fs w' !! path = fs w !! path).
Proof.
  intros Hmem Hf Hexisting Hcontent w'. exists (universal_newlines existing).
  assert (Htext : today_text self content w
                  = universal_newlines existing ++ [Py.LF] ++ content).
  { unfold today_text. by rewrite Hf. }
  destruct (append_today_disk self content w) as (Hok & Hfs & Hclock).
  { done. }
  { by rewrite Hf. }
  { rewrite Htext, !encodable_app.
    by rewrite encodable_universal_newlines, Hcontent. }
  fold w' in Hfs, Hclock.
  rewrite Htext in Hfs.
  split; [by rewrite (read_today_run self w existing)|].
  split; [done|]. split.
  - erewrite read_today_run.
    2:{ unfold today_file_in. rewrite Hclock. fold (today_file_in self w).
        by rewrite Hfs, lookup_insert_eq. }
    simpl. f_equal.
    rewrite universal_newlines_app_plain by apply universal_newlines_no_cr.
    reflexivity.
  - intros path Hpath. by rewrite Hfs, lookup_insert_ne.
Qed.

End RoundTrips.

(** ** Chunks are paragraphs *)

Section ChunkStability.
Import ChunkerSpec.
#[local] Arguments Nat.leb : simpl never.

Lemma occurs_app_l (sep s r : Py.str) : occurs sep s → occurs sep (s ++ r).
Proof. intros (u & v & ->). exists u, (v ++ r). by rewrite <- !app_assoc. Qed.

Lemma occurs_app_r (sep l s : Py.str) : occurs sep s → occurs sep (l ++ s).
Proof. intros (u & v & ->). exists (l ++ u), v. by rewrite <- !app_assoc. Qed.

Lemma occurs_strip (sep p : Py.str) : occurs sep (Py.strip p) → occurs sep p.
Proof.
  intros Hocc. destruct (strip_trimmed p) as (l & r & Hp & _).
  rewrite Hp. by apply occurs_app_r, occurs_app_l.
Qed.

Lemma pieces_no_sep a b s ps :
  pieces a b s ps → Forall (fun p => ¬ occurs [a; b] p) ps.
Proof.
  induction 1 as [p Hno|p rest ps Hno _ IH]; [by repeat constructor|].
  constructor; [|done]. intros Hocc. by apply Hno, occurs_app_l.
Qed.

(** A trimmed text followed by a newline holds no blank line unless the
    text itself does. *)
Lemma trimmed_no_blank_line (c : Py.str) :
  Py.strip c = c → ¬ occurs [Py.LF; Py.LF] c →
  ¬ occurs [Py.LF; Py.LF] (c ++ [Py.LF]).
Proof.
  intros Hc Hno (u & v & Heq).
  destruct (strip_trimmed c) as (_ & _ & _ & _ & _ & _ & Hlast).
  rewrite Hc in Hlast.
  destruct v as [|x v _] using rev_ind.
  - rewrite app_nil_r in Heq.
    change (u ++ [Py.LF; Py.LF]) with (u ++ [Py.LF] ++ [Py.LF]) in Heq.
    rewrite app_assoc in Heq. apply app_inj_tail in Heq as [-> _].
    specialize (Hlast Py.LF). rewrite last_snoc in Hlast.
    by specialize (Hlast eq_refl).
  - rewrite !app_assoc in Heq. apply app_inj_tail in Heq as [-> _].
    apply Hno. exists u, v. by rewrite <- app_assoc.
Qed.

Lemma split2_join_paragraphs (chunks : list Py.str) :
  chunks ≠ [] →
  Forall (fun c => Py.strip c = c ∧ ¬ occurs [Py.LF; Py.LF] c) chunks →
  Py.split2 Py.LF Py.LF (Py.join [Py.LF; Py.LF] chunks) = chunks.
Proof.
  intros Hne Hall. induction Hall as [|c chunks [Hc Hno] Hall IH]; [done|].
  destruct chunks as [|d chunks].
  - simpl. by apply split2_no_sep.
  - change (Py.join [Py.LF; Py.LF] (c :: d :: chunks))
      with (c ++ [Py.LF; Py.LF] ++ Py.join [Py.LF; Py.LF] (d :: chunks)).
    rewrite split2_cut by by apply trimmed_no_blank_line.
    by rewrite IH.
Qed.

Lemma split_paragraphs_no_blank_line (text : Py.str) :
  Forall (fun c => ¬ occurs [Py.LF; Py.LF] c) (Chunker._split_paragraphs text).
Proof.
  unfold Chunker._split_paragraphs. apply Forall_fmap, Forall_forall.
  intros p [Hp _]%list_elem_of_In%filter_In. simpl.
  intros Hocc%occurs_strip.
  pose proof (pieces_no_sep _ _ _ _ (split2_pieces Py.LF Py.LF text)) as Hall.
  rewrite Forall_forall in Hall. by apply (Hall p); [apply list_elem_of_In|].
Qed.

(** X5. Every chunk is one paragraph: it holds no blank line ("\n\n"). And
    chunking is stable: the chunks of a text, joined by blank lines, are
    chunked into the same chunks, in the same order, so a document rebuilt
    from its chunks is indexed under the same ids with the same texts. *)
Theorem split_paragraphs_stable (text : Py.str) :
  let chunks := Chunker._split_paragraphs text in
  Forall (fun c => ¬ ∃ u v, c = u ++ [Py.LF; Py.LF] ++ v) chunks
  ∧ Chunker._split_paragraphs (Py.join [Py.LF; Py.LF] chunks) = chunks.
Proof.
  intros chunks. split; [apply split_paragraphs_no_blank_line|].
  destruct chunks as [|c0 chunks0] eqn:Hchunks; [done|]. rewrite <- Hchunks.
  assert (Hall : Forall (fun c =>
      (Py.strip c = c ∧ ¬ occurs [Py.LF; Py.LF] c)
      ∧ (Chunker.MIN_CHUNK_LENGTH ≤ length c)%nat) chunks).
  { subst chunks. apply Forall_and. split; [apply Forall_and; split|].
    - eapply Forall_impl; [apply split_paragraphs_long|]. by intros c [? _].
    - apply split_paragraphs_no_blank_line.
    - eapply Forall_impl; [apply split_paragraphs_long|]. by intros c [_ ?]. }
  apply Forall_and in Hall as [Hpar Hlong].
  unfold Chunker._split_paragraphs at 1.
  rewrite split2_join_paragraphs; [|by rewrite Hchunks|done].
  clear Hchunks. apply Forall_and in Hpar as [Htrim _].
  induction chunks as [|c chunks IH]; [done|].
  apply Forall_cons in Htrim as [Hc Htrim].
  apply Forall_cons in Hlong as [Hlen Hlong].
  simpl. rewrite Hc. apply Nat.leb_le in Hlen as ->. simpl.
  rewrite Hc. f_equal. by apply IH.
Qed.

End ChunkStability.

(** ** The notes of the last days *)

Section RecentMemories.
Context {B : Type} `{!Backend B} `{!Calendar}.

Lemma recent_step_run (self : MemoryStore.t) (memories : list Py.str) (i : Z)
    (w : World B) :
  1 ≤ today_ordinal w - i →
  fs w !! day_file self w i ≠ Some Dir →
  recent_step self memories i w =
  (Ok (memories ++ match fs w !! day_file self w i with
                   | Some (File content) => [universal_newlines content]
                   | _ => []
                   end), w).
Proof.
  intros Hday Hdir.
  unfold recent_step, MemoryStore.days_before_today, bind, path_exists,
    read_text, ret, day_file in *.
  destruct (Z.leb_spec 1 (today_ordinal w - i)); [|lia].
  destruct (fs w !! _) as [[content|]|] eqn:Hf; cbn; rewrite ?Hf;
    [done|done|by rewrite app_nil_r].
Qed.

Lemma recent_loop_run (self : MemoryStore.t) (days : list Z)
    (memories : list Py.str) (w : World B) :
  Forall (fun i => 1 ≤ today_ordinal w - i
                   ∧ fs w !! day_file self w i ≠ Some Dir) days →
  for_each days (recent_step self) memories w =
  (Ok (memories
         ++ omap (fun i => match fs w !! day_file self w i with
                           | Some (File content) =>
                               Some (universal_newlines content)
                           | _ => None
                           end) days), w).
Proof.
  intros Hdays. revert memories.
  induction Hdays as [|i days [Hday Hdir] _ IH]; intros memories; simpl.
  - by rewrite app_nil_r.
  - rewrite (bind_run _ _ _ _ _ (recent_step_run self memories i w Hday Hdir)).
    rewrite IH, <- app_assoc. by destruct (fs w !! _) as [[content|]|].
Qed.

Lemma omap_all_None {A C : Type} (f : A → option C) (l : list A) :
  Forall (fun x => f x = None) l → omap f l = [].
Proof. induction 1 as [|x l Hx _ IH]; simpl; [done|]. by rewrite Hx. Qed.

Lemma elem_of_range (n i : Z) : i ∈ MemoryStore.range n ↔ 0 ≤ i < n.
Proof.
  unfold MemoryStore.range. rewrite list_elem_of_fmap. split.
  - intros (k & -> & Hk%elem_of_seq). lia.
  - intros Hi. exists (Z.to_nat i). split; [lia|]. apply elem_of_seq. lia.
Qed.

(** X6. [get_recent_memories(days)] returns, joined by the separator
    "\n\n---\n\n" and today's first, the texts of those files of the last
    [days] days that exist; a day without file is skipped and leaves no
    separator, and for [days <= 0] the result is the empty string. This
    holds when the [days] days lie within the calendar (today's ordinal is
    at least [days]) and none of their paths is a directory. *)
Theorem get_recent_memories_joins (self : MemoryStore.t) (days : Z)
    (w : World B) :
  days ≤ today_ordinal w →
  (∀ i, 0 ≤ i < days → fs w !! day_file self w i ≠ Some Dir) →
  MemoryStore.get_recent_memories self days w
  = (Ok (Py.join MemoryStore.SEPARATOR (recent_texts self w days)), w)
  ∧ (days ≤ 0 → recent_texts self w days = [])
  ∧ (∀ i text, 0 ≤ i < days →
       (∀ j, 0 ≤ j < days → j ≠ i → fs w !! day_file self w j = None) →
       fs w !! day_file self w i = Some (File text) →
       Py.join MemoryStore.SEPARATOR (recent_texts self w days)
       = universal_newlines text).
Proof.
  intros Hdays Hdirs. split; [|split].
  - unfold MemoryStore.get_recent_memories.
    fold (recent_step (B:=B) self).
    erewrite bind_run; [reflexivity|].
    rewrite recent_loop_run; [done|].
    apply Forall_forall. intros i Hi%elem_of_range. split; [lia|by apply Hdirs].
  - intros Hle. unfold recent_texts, MemoryStore.range.
    by replace (Z.to_nat days) with 0%nat by lia.
  - intros i text Hi Hothers Hfile.
    assert (Hone : recent_texts self w days = [universal_newlines text]);
      [|by rewrite Hone].
    unfold recent_texts, MemoryStore.range.
    replace (Z.to_nat days) with (Z.to_nat i + S (Z.to_nat (days - i - 1)))%nat
      by lia.
    rewrite seq_app, fmap_app, omap_app. simpl.
    replace (Z.of_nat (Z.to_nat i)) with i by lia. rewrite Hfile.
    rewrite omap_all_None, omap_all_None.
    + done.
    + apply Forall_forall. intros j (k & -> & Hk%elem_of_seq)%list_elem_of_fmap.
      rewrite Hothers; [done|lia..].
    + apply Forall_forall. intros j (k & -> & Hk%elem_of_seq)%list_elem_of_fmap.
      rewrite Hothers; [done|lia..].
Qed.

End RecentMemories.

Section RecentOverflow.
Context {B : Type} `{!Backend B} `{!Calendar}.

Lemma recent_loop_overflow (self : MemoryStore.t) (before after : list Z)
    (i : Z) (memories : list Py.str) (w : World B) :
  Forall (fun j => 1 ≤ today_ordinal w - j
                   ∧ fs w !! day_file self w j ≠ Some Dir) before →
  today_ordinal w - i < 1 →
  for_each (before ++ i :: after) (recent_step self) memories w =
  (Raise (Exception (py "OverflowError") (py "date value out of range")), w).
Proof.
  intros Hbefore Hi. revert memories.
  induction Hbefore as [|j before [Hday Hdir] _ IH]; intros memories; simpl.
  - unfold bind, recent_step, MemoryStore.days_before_today, bind.
    by destruct (Z.leb_spec 1 (today_ordinal w - i)); [lia|].
  - by rewrite (bind_run _ _ _ _ _
                  (recent_step_run self memories j w Hday Hdir)).
Qed.

(** X7. [get_recent_memories(days)] raises [OverflowError] once the days
    asked for reach before the first day of the calendar (today's ordinal
    is below [days]): the date subtraction fails on the first day out of
    range, no text is returned and the world is untouched. *)
Theorem get_recent_memories_overflow (self : MemoryStore.t) (days : Z)
    (w : World B) :
  0 < days →
  today_ordinal w < days →
  (∀ i, 0 ≤ i < today_ordinal w → fs w !! day_file self w i ≠ Some Dir) →
  MemoryStore.get_recent_memories self days w
  = (Raise (Exception (py "OverflowError") (py "date value out of range")), w).
Proof.
  intros Hpos Hdays Hdirs.
  unfold MemoryStore.get_recent_memories. fold (recent_step (B:=B) self).
  set (t := Z.to_nat (today_ordinal w)).
  assert (Hrange : MemoryStore.range days
    = (Z.of_nat <$> seq 0 t) ++ Z.of_nat t
        :: (Z.of_nat <$> seq (S t) (Z.to_nat days - S t))).
  { unfold MemoryStore.range.
    replace (Z.to_nat days) with (t + S (Z.to_nat days - S t))%nat by lia.
    rewrite seq_app, fmap_app. simpl.
    by replace (t + S (Z.to_nat days - S t) - S t)%nat
      with (Z.to_nat days - S t)%nat by lia. }
  rewrite Hrange. unfold bind at 1.
  rewrite recent_loop_overflow; [done| |lia].
  apply Forall_forall. intros j (k & -> & Hk%elem_of_seq)%list_elem_of_fmap.
  split; [lia|]. apply Hdirs. lia.
Qed.

End RecentOverflow.

(** ** Listing the daily files *)

Section ListFiles.
Context {B : Type} `{!Backend B} `{!Calendar}.

Lemma str_ltb_irrefl (s : Py.str) : Py.ltb s s = false.
Proof.
  induction s as [|c s IH]; [done|]. simpl.
  by rewrite N.ltb_irrefl, N.eqb_refl, IH.
Qed.

Lemma str_ltb_trichotomy (s t : Py.str) :
  Py.ltb s t = true ∨ s = t ∨ Py.ltb t s = true.
Proof.
  revert t. induction s as [|c s IH]; intros [|d t]; simpl; auto.
  destruct (N.lt_trichotomy c d) as [Hlt|[->|Hgt]].
  - left. apply N.ltb_lt in Hlt. by rewrite Hlt.
  - rewrite N.ltb_irrefl, N.eqb_refl. simpl.
    destruct (IH t) as [?|[->|?]]; auto.
  - right; right. apply N.ltb_lt in Hgt. by rewrite Hgt.
Qed.

Lemma str_ltb_trans (s t u : Py.str) :
  Py.ltb s t = true → Py.ltb t u = true → Py.ltb s u = true.
Proof.
  revert t u. induction s as [|c s IH]; intros [|d t] [|e u]; simpl; try done.
  rewrite !orb_true_iff, !andb_true_iff, !N.ltb_lt, !N.eqb_eq.
  intros [?|[-> ?]] [?|[-> ?]]; eauto with lia.
Qed.

Lemma str_ltb_asym (s t : Py.str) : Py.ltb s t = true → Py.ltb t s = false.
Proof.
  intros Hst. destruct (Py.ltb t s) eqn:Hts; [|done].
  by rewrite <- (str_ltb_irrefl s), (str_ltb_trans s t s).
Qed.

Lemma path_ltb_irrefl (p : Path) : PurePath.ltb p p = false.
Proof.
  induction p as [|a p IH]; [done|]. simpl.
  by rewrite str_ltb_irrefl, IH, andb_false_r.
Qed.

Lemma path_ltb_trichotomy (p q : Path) :
  PurePath.ltb p q = true ∨ p = q ∨ PurePath.ltb q p = true.
Proof.
  revert q. induction p as [|a p IH]; intros [|b q]; simpl; auto.
  destruct (str_ltb_trichotomy a b) as [Hlt|[->|Hgt]].
  - left. by rewrite Hlt.
  - rewrite str_ltb_irrefl, bool_decide_eq_true_2 by done. simpl.
    destruct (IH q) as [?|[->|?]]; auto.
  - right; right. by rewrite Hgt.
Qed.

Lemma path_ltb_trans (p q r : Path) :
  PurePath.ltb p q = true → PurePath.ltb q r = true → PurePath.ltb p r = true.
Proof.
  revert q r. induction p as [|a p IH]; intros [|b q] [|c r]; simpl; try done.
  rewrite !orb_true_iff, !andb_true_iff, !bool_decide_eq_true.
  intros [?|[-> ?]] [?|[-> ?]]; eauto using str_ltb_trans.
Qed.

#[local] Instance path_ge_total : Total PurePath.ge.
Proof.
  intros p q. unfold PurePath.ge.
  destruct (PurePath.ltb p q) eqn:Hpq; [right|by left].
  destruct (PurePath.ltb q p) eqn:Hqp; [|done].
  by rewrite <- (path_ltb_irrefl p), (path_ltb_trans p q p).
Qed.

#[local] Instance path_ge_trans : Transitive PurePath.ge.
Proof.
  intros p q r. unfold PurePath.ge. intros Hpq Hqr.
  destruct (PurePath.ltb p r) eqn:Hpr; [|done].
  destruct (path_ltb_trichotomy p q) as [?|[->|Hqp]]; [congruence..|].
  by rewrite (path_ltb_trans q p r) in Hqr.
Qed.

Lemma fnmatch_matches (pat nm : Py.str) :
  PurePath.fnmatch pat nm = true ↔ matches_pattern pat nm.
Proof.
  unfold matches_pattern. revert nm.
  induction pat as [|p pat IH]; intros [|c nm]; simpl.
  - split; [constructor|done].
  - split; [done|inversion 1].
  - split; [done|inversion 1].
  - rewrite andb_true_iff, orb_true_iff, !N.eqb_eq, IH. split.
    + intros [? ?]. by constructor.
    + by inversion 1.
Qed.

Lemma name_joinpath (path : Path) (nm : Py.str) :
  PurePath.name (path // nm) = nm.
Proof. unfold PurePath.name, joinpath. apply last_last. Qed.

Lemma list_memory_files_run (self : MemoryStore.t) (w : World B) :
  MemoryStore.list_memory_files self w =
  (Ok (if bool_decide (is_Some (fs w !! MemoryStore.memory_dir self))
       then dated_files self w else []), w).
Proof.
  unfold MemoryStore.list_memory_files, bind, path_exists, glob, ret.
  by case_bool_decide.
Qed.

Lemma dated_files_sorted (self : MemoryStore.t) (w : World B) :
  StronglySorted PurePath.ge (dated_files self w).
Proof.
  unfold dated_files, MemoryStore.sorted_reverse.
  apply (StronglySorted_merge_sort PurePath.ge).
Qed.

Lemma dated_files_NoDup (self : MemoryStore.t) (w : World B) :
  NoDup (dated_files self w).
Proof.
  unfold dated_files, MemoryStore.sorted_reverse.
  rewrite merge_sort_Permutation.
  apply NoDup_ListNoDup, List.NoDup_filter, NoDup_ListNoDup.
  apply NoDup_fst_map_to_list.
Qed.

Lemma dated_files_elem (self : MemoryStore.t) (w : World B) (p : Path) :
  p ∈ dated_files self w ↔
  is_Some (fs w !! p)
  ∧ ∃ nm, p = MemoryStore.memory_dir self // nm
          ∧ matches_pattern (py "????-??-??.md") nm.
Proof.
  unfold dated_files, MemoryStore.sorted_reverse.
  rewrite merge_sort_Permutation.
  rewrite list_elem_of_In, filter_In, <- list_elem_of_In.
  rewrite andb_true_iff, bool_decide_eq_true, fnmatch_matches.
  rewrite list_elem_of_fmap. split.
  - intros [([q x] & -> & Hq%elem_of_map_to_list) [Hp Hm]].
    split; [by eexists|]. by exists (PurePath.name q).
  - intros [[x Hx] (nm & -> & Hm)]. split.
    + exists (MemoryStore.memory_dir self // nm, x). split; [done|].
      by apply elem_of_map_to_list.
    + by rewrite name_joinpath.
Qed.

(** X8. [list_memory_files] returns the empty list when the memory
    directory does not exist. Otherwise it returns, each once and sorted
    from the greatest path down (so the newest date first), exactly the
    entries of the memory directory whose name matches "????-??-??.md"; it
    never raises and changes nothing. *)
Theorem list_memory_files_newest_first (self : MemoryStore.t) (w : World B) :
  (fs w !! MemoryStore.memory_dir self = None →
   MemoryStore.list_memory_files self w = (Ok [], w))
  ∧ (is_Some (fs w !! MemoryStore.memory_dir self) →
     ∃ files,
       MemoryStore.list_memory_files self w = (Ok files, w)
       ∧ StronglySorted (fun p q => PurePath.ltb p q = false) files
       ∧ NoDup files
       ∧ ∀ p, p ∈ files ↔
           is_Some (fs w !! p)
           ∧ ∃ nm, p = MemoryStore.memory_dir self // nm
                   ∧ matches_pattern (py "????-??-??.md") nm).
Proof.
  rewrite list_memory_files_run. split.
  - intros ->. done.
  - intros Hdir. rewrite bool_decide_eq_true_2 by done.
    exists (dated_files self w). split; [done|].
    split; [apply dated_files_sorted|].
    split; [apply dated_files_NoDup | apply dated_files_elem].
Qed.

End ListFiles.

(** ** Deleting a source from the reference collection *)

Section DeleteBySource.
Context `{!Chroma.Embedding}.

Lemma delete_by_source_run (self : VectorStore.t) (source : Py.str)
    (w : World (gmap Py.str Chroma.Entry)) :
  VectorStore.delete_by_source self source w =
  (Ok tt,
   set_index
     (filter (fun kv => Chroma.metadata kv.2 !! py "source" ≠ Some source)
        (index w)) w).
Proof.
  unfold VectorStore.delete_by_source, VectorStore._collection_delete, call.
  cbn [coll_delete Chroma.backend]. unfold Chroma.delete. do 2 f_equal.
  apply map_filter_ext. intros id e _. cbn [Chroma.where_matches snd].
  by rewrite bool_decide_eq_false.
Qed.

(** X9. Over the reference collection [delete_by_source(source)] returns,
    removes every chunk whose metadata names that source, and keeps every
    other chunk as it is; no file changes. *)
Theorem delete_by_source_removes_the_source (self : VectorStore.t)
    (source : Py.str) (w : World (gmap Py.str Chroma.Entry)) :
  let w' := (VectorStore.delete_by_source self source w).2 in
  (VectorStore.delete_by_source self source w).1 = Ok tt
  ∧ fs w' = fs w
  ∧ ∀ id e,
      index w' !! id = Some e ↔
      index w !! id = Some e ∧ Chroma.metadata e !! py "source" ≠ Some source.
Proof.
  intros w'. subst w'. rewrite delete_by_source_run. cbn [fst snd].
  split; [done|]. split; [done|]. intros id e. cbn [index set_index].
  by rewrite map_lookup_filter_Some.
Qed.

Lemma chunk_metadata_source (source doc_type : Py.str) :
  VectorStore.chunk_metadata source doc_type !! py "source" = Some source.
Proof. unfold VectorStore.chunk_metadata. apply lookup_insert_eq. Qed.

Lemma written_lookup_inv (source doc_type : Py.str) (chunks : list Py.str)
    (id : Py.str) (e : Chroma.Entry) :
  (list_to_map (written source doc_type chunks) : gmap Py.str Chroma.Entry)
    !! id = Some e →
  ∃ i chunk,
    chunks !! i = Some chunk
    ∧ id = VectorStore.chunk_id source i
    ∧ e = Chroma.mkEntry chunk (VectorStore.chunk_metadata source doc_type).
Proof.
  intros Hin%elem_of_list_to_map_2.
  apply list_elem_of_lookup in Hin as [i Hi].
  unfold written, Chroma.records in Hi.
  rewrite !lookup_zip_with in Hi.
  destruct (VectorStore.chunk_ids source (length chunks) !! i)
    as [id'|] eqn:Hid; [|done]. simpl in Hi.
  destruct (chunks !! i) as [chunk|] eqn:Hchunk; [|done]. simpl in Hi.
  rewrite list_lookup_fmap, Hchunk in Hi. simpl in Hi.
  rewrite chunk_ids_lookup in Hid by by eapply lookup_lt_Some.
  exists i, chunk. by simplify_eq.
Qed.

(** X10. Deleting the source before re-indexing leaves no stale chunk:
    whatever the collection holds, after [delete_by_source(stem)] and
    [upsert_file(path)] the chunks whose metadata names the file's stem are
    exactly the chunks of the file, chunk [i] under the id [stem::i]. *)
Theorem delete_then_upsert_is_exact (self : VectorStore.t) (path : Path)
    (doc_type content : Py.str) (w : World (gmap Py.str Chroma.Entry)) :
  fs w !! path = Some (File content) →
  let source := PurePath.stem path in
  let chunks := Chunker._split_paragraphs (universal_newlines content) in
  let w1 := (VectorStore.delete_by_source self source w).2 in
  let w2 := (VectorStore.upsert_file self path doc_type w1).2 in
  ∀ id e,
    (index w2 !! id = Some e ∧ Chroma.metadata e !! py "source" = Some source)
    ↔ ∃ i chunk,
        chunks !! i = Some chunk
        ∧ id = VectorStore.chunk_id source i
        ∧ e = Chroma.mkEntry chunk
                {[ py "source" := source; py "type" := doc_type ]}.
Proof.
  intros Hf source chunks w1 w2 id e.
  assert (Hw1 : index w1 !! id = Some e →
                Chroma.metadata e !! py "source" ≠ Some source).
  { subst w1. rewrite delete_by_source_run. cbn [snd index set_index].
    rewrite map_lookup_filter_Some. by intros [_ ?]. }
  assert (Hfs1 : fs w1 !! path = Some (File content)).
  { subst w1. by rewrite delete_by_source_run. }
  assert (Hw2 : index w2 =
    list_to_map (written source doc_type chunks) ∪ index w1).
  { subst w2. rewrite upsert_file_run, Hfs1. unfold chunks_of. fold chunks.
    destruct chunks as [|c chunks'] eqn:Hc; cbn [snd]; [|done].
    symmetry. apply (left_id_L (∅ : gmap Py.str Chroma.Entry) (∪)). }
  rewrite Hw2. split.
  - intros [[Hin|[_ Hin]]%lookup_union_Some_raw Hsrc].
    + by apply written_lookup_inv in Hin.
    + by apply Hw1 in Hin.
  - intros (i & chunk & Hi & -> & ->). split.
    + erewrite lookup_union_Some_l; [reflexivity|].
      by apply (written_lookup source doc_type chunks).
    + apply chunk_metadata_source.
Qed.

(** X11. Over the reference collection an upsert of a file never shrinks
    the collection and adds at most one chunk per chunk of the file:
    [count()] grows by a number between 0 and [k], and by exactly [k] when
    none of the ids [stem::0] ... [stem::(k-1)] was in use. *)
Theorem upsert_file_count (self : VectorStore.t) (path : Path)
    (doc_type content : Py.str) (w : World (gmap Py.str Chroma.Entry)) :
  fs w !! path = Some (File content) →
  let source := PurePath.stem path in
  let k := length (Chunker._split_paragraphs (universal_newlines content)) in
  let w' := (VectorStore.upsert_file self path doc_type w).2 in
  ∃ before after,
    (VectorStore.count self w).1 = Ok before
    ∧ (VectorStore.count self w').1 = Ok after
    ∧ before ≤ after ≤ before + Z.of_nat k
    ∧ ((∀ i, (i < k)%nat → index w !! VectorStore.chunk_id source i = None) →
       after = before + Z.of_nat k).
Proof.
  intros Hf source k w'.
  exists (Z.of_nat (size (index w))), (Z.of_nat (size (index w'))).
  split; [done|]. split; [done|].
  set (chunks := Chunker._split_paragraphs (universal_newlines content)) in *.
  set (m := (list_to_map (written source doc_type chunks)
             : gmap Py.str Chroma.Entry)).
  assert (Hw' : index w' = m ∪ index w).
  { subst w'. rewrite upsert_file_run, Hf. unfold chunks_of. fold chunks.
    destruct chunks as [|c chunks'] eqn:Hc; cbn [snd]; [|done].
    symmetry. apply (left_id_L (∅ : gmap Py.str Chroma.Entry) (∪)). }
  assert (Hm : size m = k).
  { subst m. rewrite map_size_list_to_map.
    - unfold written, Chroma.records.
      rewrite length_zip_with, chunk_ids_length, length_zip_with, length_fmap.
      subst k. lia.
    - rewrite written_ids. apply chunk_ids_NoDup. }
  rewrite Hw'. split; [split|].
  - apply Nat2Z.inj_le. rewrite <- !size_dom, dom_union_L.
    apply subseteq_size. intros id Hid. apply elem_of_union. by right.
  - rewrite <- Hm, <- Nat2Z.inj_add. apply Nat2Z.inj_le.
    rewrite <- !size_dom, dom_union_L, size_union_alt.
    assert (size (dom (index w) ∖ dom m) ≤ size (dom (index w)))%nat.
    { apply subseteq_size. intros id Hid.
      by apply elem_of_difference in Hid as [? _]. }
    lia.
  - intros Hfresh. rewrite map_size_disj_union, Hm; [lia|].
    apply map_disjoint_spec. intros id e1 e2 H1 H2.
    apply written_lookup_inv in H1 as (i & chunk & Hi & -> & _).
    rewrite Hfresh in H2; [done|]. by eapply lookup_lt_Some.
Qed.

End DeleteBySource.

(** ** Identities of different sources *)

Section Sources.
Context `{!Chroma.Embedding}.

Lemma lit_cons (a : ascii) (s : string) :
  Py.lit (String a s) = N_of_ascii a :: Py.lit s.
Proof. reflexivity. Qed.

(** Decimal digits hold no colon. *)
Lemma pretty_N_go_no_colon (x : N) (s : string) :
  58%N ∉ Py.lit s → 58%N ∉ Py.lit (pretty_N_go x s).
Proof.
  revert s. induction (N.lt_wf_0 x) as [x _ IH]; intros s Hs.
  destruct (decide (x = 0%N)) as [->|Hx]; [by rewrite pretty_N_go_0|].
  rewrite pretty_N_go_step by lia. apply IH.
  - apply N.div_lt; lia.
  - rewrite lit_cons. apply not_elem_of_cons. split; [|done].
    unfold pretty_N_char. by repeat case_match.
Qed.

Lemma of_nat_no_colon (i : nat) : 58%N ∉ Py.of_nat i.
Proof.
  unfold Py.of_nat, Py.of_int, pretty, pretty_Z.
  destruct (Z.of_nat i) as [|p|p] eqn:Hi; [| |lia].
  - intros Hin%list_elem_of_In. vm_compute in Hin. intuition discriminate.
  - unfold pretty, pretty_positive, pretty, pretty_N.
    case_decide; [done|]. apply pretty_N_go_no_colon, not_elem_of_nil.
Qed.

(** A list is cut in one way only at the last occurrence of [x]. *)
Lemma app_last_occurrence {A : Type} (x : A) (l1 l2 r1 r2 : list A) :
  x ∉ r1 → x ∉ r2 → l1 ++ x :: r1 = l2 ++ x :: r2 → l1 = l2 ∧ r1 = r2.
Proof.
  intros H1 H2 Heq.
  apply (f_equal reverse) in Heq.
  rewrite !reverse_app, !reverse_cons, <- !app_assoc in Heq.
  assert (Hcut : ∀ a b c d : list A,
    x ∉ a → x ∉ b → a ++ x :: c = b ++ x :: d → a = b ∧ c = d).
  { clear. induction a as [|y a IH]; intros [|z b] c d Ha Hb Heq.
    - by simplify_eq/=.
    - apply not_elem_of_cons in Hb as [Hz _]. by simplify_eq/=.
    - apply not_elem_of_cons in Ha as [Hy _]. by simplify_eq/=.
    - apply not_elem_of_cons in Ha as [_ Ha].
      apply not_elem_of_cons in Hb as [_ Hb].
      injection Heq as -> Heq.
      by destruct (IH b c d Ha Hb Heq) as [-> ->]. }
  destruct (Hcut (reverse r1) (reverse r2) (reverse l1) (reverse l2))
    as [Hr Hl].
  - by rewrite elem_of_reverse.
  - by rewrite elem_of_reverse.
  - done.
  - split; by apply (inj reverse).
Qed.

(** The id of a chunk names its source and its index. *)
Lemma chunk_id_inj2 (s1 s2 : Py.str) (i j : nat) :
  VectorStore.chunk_id s1 i = VectorStore.chunk_id s2 j → s1 = s2 ∧ i = j.
Proof.
  unfold VectorStore.chunk_id. intros Heq.
  change (s1 ++ py "::" ++ Py.of_nat i)
    with (s1 ++ [58%N] ++ 58%N :: Py.of_nat i) in Heq.
  change (s2 ++ py "::" ++ Py.of_nat j)
    with (s2 ++ [58%N] ++ 58%N :: Py.of_nat j) in Heq.
  rewrite !(app_assoc _ [58%N]) in Heq.
  apply app_last_occurrence in Heq as [Hs Hd]; try apply of_nat_no_colon.
  apply app_inj_tail in Hs as [-> _]. split; [done|].
  by apply of_nat_inj.
Qed.

Lemma upsert_file_other_source (self : VectorStore.t) (path : Path)
    (doc_type other : Py.str) (j : nat)
    (w : World (gmap Py.str Chroma.Entry)) :
  other ≠ PurePath.stem path →
  index (VectorStore.upsert_file self path doc_type w).2
    !! VectorStore.chunk_id other j
  = index w !! VectorStore.chunk_id other j.
Proof.
  intros Hother. rewrite upsert_file_run.
  destruct (fs w !! path) as [[content|]|]; [|done..].
  destruct (chunks_of content) as [|c chunks] eqn:Hc; [done|].
  cbn [snd index set_index]. rewrite lookup_union_r; [done|].
  apply written_lookup_other.
  intros (i & Hi & _)%list_elem_of_fmap.
  by apply chunk_id_inj2 in Hi as [? _].
Qed.

(** X12. Chunk identities separate the sources: an id [source::i]
    determines both its source and its index, so over the reference
    collection [upsert_file] of a path leaves every chunk id of every other
    stem as it was, present or absent, whatever the path names. *)
Theorem chunk_ids_separate_sources (self : VectorStore.t) (path : Path)
    (doc_type : Py.str) (w : World (gmap Py.str Chroma.Entry)) :
  (∀ s1 s2 i j,
     VectorStore.chunk_id s1 i = VectorStore.chunk_id s2 j → s1 = s2 ∧ i = j)
  ∧ (∀ other j,
       other ≠ PurePath.stem path →
       index (VectorStore.upsert_file self path doc_type w).2
         !! VectorStore.chunk_id other j
       = index w !! VectorStore.chunk_id other j).
Proof.
  split; [apply chunk_id_inj2|]. intros other j. apply upsert_file_other_source.
Qed.

End Sources.

(** ** Writes are indexed under the document's name *)

Section WritesAreIndexed.
Context `{!Calendar} `{!Chroma.Embedding}.

Lemma rfind_from_app (i : nat) (c : Py.char) (s t : Py.str) :
  PurePath.rfind_from i c (s ++ t) =
  match PurePath.rfind_from (i + length s) c t with
  | Some j => Some j
  | None => PurePath.rfind_from i c s
  end.
Proof.
  revert i. induction s as [|d s IH]; intros i; simpl.
  - rewrite Nat.add_0_r. by destruct (PurePath.rfind_from i c t).
  - rewrite IH, Nat.add_succ_r. simpl.
    by destruct (PurePath.rfind_from (S (i + length s)) c t).
Qed.

(** The stem of [name.md] is [name], for every name that is not empty. *)
Lemma stem_md (dir : Path) (nm : Py.str) :
  nm ≠ [] → PurePath.stem (dir // (nm ++ py ".md")) = nm.
Proof.
  intros Hnm. unfold PurePath.stem. rewrite name_joinpath, rfind_from_app.
  change (py ".md") with [46%N; 109%N; 100%N]. cbn [PurePath.rfind_from].
  change (46 =? 46)%N with true. change (100 =? 46)%N with false.
  change (109 =? 46)%N with false. cbn iota.
  rewrite length_app. cbn [length].
  assert (0 < length nm)%nat by (destruct nm; [done|simpl; lia]).
  destruct (Nat.ltb_spec 0 (0 + length nm)); [|lia].
  destruct (Nat.ltb_spec (0 + length nm) (length nm + 3 - 1)); [|lia].
  cbn [andb]. by rewrite Nat.add_0_l, take_app_length.
Qed.

(** The indexing step of a write, over the reference collection. *)
Lemma after_indexing_indexes (vector : VectorStore.t) (path : Path)
    (doc_type prefix text : Py.str) (w1 : World (gmap Py.str Chroma.Entry)) :
  fs w1 !! path = Some (File text) →
  let w2 := (after_indexing vector path doc_type prefix w1).2 in
  (after_indexing vector path doc_type prefix w1).1 = Ok tt
  ∧ log w2 = log w1
  ∧ ∀ i chunk,
      Chunker._split_paragraphs (universal_newlines text) !! i = Some chunk →
      index w2 !! VectorStore.chunk_id (PurePath.stem path) i
      = Some (Chroma.mkEntry chunk
                (VectorStore.chunk_metadata (PurePath.stem path) doc_type)).
Proof.
  intros Hf. unfold after_indexing. rewrite upsert_file_run, Hf.
  unfold chunks_of. cbn [fst snd]. split; [done|].
  destruct (Chunker._split_paragraphs _) as [|c chunks] eqn:Hc; [done|].
  split; [done|]. intros i chunk Hi. cbn [index set_index].
  erewrite lookup_union_Some_l; [reflexivity|]. by apply written_lookup.
Qed.

(** X13. With an index configured, over the reference collection, when
    the memory directory exists, today's path is not a directory, and
    neither the date string nor the text of today's file nor [content]
    holds a surrogate, [append_today] leaves the chunks of today's file, as
    it now reads, indexed under the ids [today::i] with the metadata
    [{source: today, type: daily}], [today] being the date string: the
    chunks the filter of [get_memory_context] excludes. It returns and logs
    nothing. *)
Theorem append_today_indexes_today (self : MemoryStore.t)
    (vector : VectorStore.t) (content : Py.str)
    (w : World (gmap Py.str Chroma.Entry)) :
  MemoryStore._vector self = Some vector →
  strftime_ymd (today_ordinal w) ≠ [] →
  fs w !! MemoryStore.memory_dir self = Some Dir →
  fs w !! today_file_in self w ≠ Some Dir →
  Py.encodable (strftime_ymd (today_ordinal w)) = true →
  (∀ existing, fs w !! today_file_in self w = Some (File existing) →
               Py.encodable existing = true) →
  Py.encodable content = true →
  let today := strftime_ymd (today_ordinal w) in
  let w' := (MemoryStore.append_today self content w).2 in
  ∃ text,
    fs w' !! today_file_in self w = Some (File text)
    ∧ (MemoryStore.append_today self content w).1 = Ok tt
    ∧ log w' = log w
    ∧ ∀ i chunk,
        Chunker._split_paragraphs (universal_newlines text) !! i = Some chunk →
        index w' !! VectorStore.chunk_id today i
        = Some (Chroma.mkEntry chunk
                  {[ py "source" := today; py "type" := py "daily" ]}).
Proof.
  intros Hv Htoday Hmem Hdir Henc Hexisting Hcontent today w'.
  exists (today_text self content w).
  subst w'. rewrite (append_today_run self vector) by done.
  rewrite append_today_plain
    by (try done; by apply today_text_encodable).
  set (w1 := set_fs _ w).
  assert (Hf : fs w1 !! today_file_in self w
               = Some (File (today_text self content w)))
    by apply lookup_insert_eq.
  destruct (after_indexing_indexes vector (today_file_in self w) (py "daily")
              (py "Failed to upsert today's notes to vector store: ")
              (today_text self content w) w1 Hf) as (Hok & Hlog & Hidx).
  pose proof (after_indexing_disk vector (today_file_in self w) (py "daily")
    (py "Failed to upsert today's notes to vector store: ") w1) as [_ Hfs].
  split; [by rewrite Hfs|]. split; [done|]. split; [done|].
  intros i chunk Hi. specialize (Hidx i chunk Hi).
  assert (Hstem : PurePath.stem (today_file_in self w) = today).
  { unfold today_file_in. by apply stem_md. }
  by rewrite Hstem in Hidx.
Qed.

(** X14. With an index configured, over the reference collection, when
    the memory directory exists, MEMORY.md is not a directory and [content]
    holds no surrogate, [write_long_term] leaves the chunks of the new
    long-term document indexed under the ids [MEMORY::i] with the metadata
    [{source: MEMORY, type: long_term}]. It returns and logs nothing. *)
Theorem write_long_term_indexes_memory (self : MemoryStore.t)
    (vector : VectorStore.t) (content : Py.str)
    (w : World (gmap Py.str Chroma.Entry)) :
  MemoryStore._vector self = Some vector →
  fs w !! MemoryStore.memory_dir self = Some Dir →
  fs w !! MemoryStore.memory_file self ≠ Some Dir →
  Py.encodable content = true →
  let w' := (MemoryStore.write_long_term self content w).2 in
  (MemoryStore.write_long_term self content w).1 = Ok tt
  ∧ log w' = log w
  ∧ ∀ i chunk,
      Chunker._split_paragraphs (universal_newlines content) !! i = Some chunk →
      index w' !! VectorStore.chunk_id (py "MEMORY") i
      = Some (Chroma.mkEntry chunk
                {[ py "source" := py "MEMORY"; py "type" := py "long_term" ]}).
Proof.
  intros Hv Hmem Hdir Henc w'. subst w'.
  rewrite (write_long_term_run self vector) by done.
  rewrite write_long_term_plain by done. set (w1 := set_fs _ w).
  assert (Hf : fs w1 !! MemoryStore.memory_file self = Some (File content))
    by apply lookup_insert_eq.
  destruct (after_indexing_indexes vector (MemoryStore.memory_file self)
              (py "long_term")
              (py "Failed to upsert MEMORY.md to vector store: ")
              content w1 Hf) as (Hok & Hlog & Hidx).
  split; [done|]. split; [done|].
  intros i chunk Hi. specialize (Hidx i chunk Hi).
  assert (Hstem : PurePath.stem (MemoryStore.memory_file self) = py "MEMORY").
  { unfold MemoryStore.memory_file.
    by apply (stem_md (MemoryStore.memory_dir self) (py "MEMORY")). }
  by rewrite Hstem in Hidx.
Qed.

End WritesAreIndexed.

(** ** Writes that fail *)

Section FailedWrites.
Context {B : Type} `{!Backend B} `{!Calendar}.

(** Without index, [append_today] is one write of the text it builds. *)
Lemma append_today_is_a_write (self : MemoryStore.t) (content : Py.str)
    (w : World B) :
  fs w !! today_file_in self w ≠ Some Dir →
  MemoryStore.append_today (without_index self) content w
  = write_text (today_file_in self w) (today_text self content w) w.
Proof.
  intros Hdir.
  unfold MemoryStore.append_today, MemoryStore.get_today_file,
    MemoryStore.today_date, today_text, header_in, today_file_in, bind, ret,
    path_exists, read_text in *. cbn.
  change (MemoryStore.memory_dir (without_index self))
    with (MemoryStore.memory_dir self).
  set (today_file := MemoryStore.memory_dir self // _) in *.
  destruct (fs w !! today_file) as [[existing|]|] eqn:Hf; cbn;
    rewrite ?Hf; cbn; [|done|rewrite <- !app_assoc];
    by destruct (write_text _ _ _) as [[[]|e] w1].
Qed.

(** Without index, [write_long_term] is one write. *)
Lemma write_long_term_is_a_write (self : MemoryStore.t) (content : Py.str)
    (w : World B) :
  MemoryStore.write_long_term (without_index self) content w
  = write_text (MemoryStore.memory_file self) content w.
Proof.
  unfold MemoryStore.write_long_term, bind, ret. cbn.
  change (MemoryStore.memory_file (without_index self))
    with (MemoryStore.memory_file self).
  by destruct (write_text _ _ _) as [[[]|e] w1].
Qed.

(** A write that raises never reaches the index. *)
Lemma append_today_raises (self : MemoryStore.t) (content : Py.str)
    (w w1 : World B) (e : exn) :
  fs w !! today_file_in self w ≠ Some Dir →
  write_text (today_file_in self w) (today_text self content w) w
    = (Raise e, w1) →
  MemoryStore.append_today self content w = (Raise e, w1).
Proof.
  intros Hdir Hwrite.
  pose proof (append_today_is_a_write self content w Hdir) as Hplain.
  rewrite Hwrite in Hplain.
  destruct (MemoryStore._vector self) as [vector|] eqn:Hv.
  - rewrite (append_today_run self vector) by done. by rewrite Hplain.
  - by rewrite without_index_None in Hplain.
Qed.

Lemma write_long_term_raises (self : MemoryStore.t) (content : Py.str)
    (w w1 : World B) (e : exn) :
  write_text (MemoryStore.memory_file self) content w = (Raise e, w1) →
  MemoryStore.write_long_term self content w = (Raise e, w1).
Proof.
  intros Hwrite.
  pose proof (write_long_term_is_a_write self content w) as Hplain.
  rewrite Hwrite in Hplain.
  destruct (MemoryStore._vector self) as [vector|] eqn:Hv.
  - rewrite (write_long_term_run self vector) by done. by rewrite Hplain.
  - by rewrite without_index_None in Hplain.
Qed.

Lemma today_text_surrogate (self : MemoryStore.t) (content : Py.str)
    (w : World B) :
  Py.encodable content = false →
  Py.encodable (today_text self content w) = false.
Proof.
  intros Hcontent. unfold today_text, header_in.
  destruct (fs w !! today_file_in self w) as [[existing|]|];
    rewrite !encodable_app, Hcontent, !andb_false_r; reflexivity.
Qed.

(** X17. A content that holds a surrogate costs the document: with the
    memory directory in place, [append_today] and [write_long_term] raise
    the [UnicodeEncodeError] of the text they were to write and leave the
    file empty, so the notes today's file held are lost and [read_today]
    returns the empty string; the index and the log are not touched,
    whether an index is configured or not. *)
Theorem surrogate_empties_the_file (self : MemoryStore.t) (content : Py.str)
    (w : World B) :
  fs w !! MemoryStore.memory_dir self = Some Dir →
  Py.encodable content = false →
  (fs w !! today_file_in self w ≠ Some Dir →
   let after :=
     set_fs <[today_file_in self w := File []]> w in
   MemoryStore.append_today self content w
   = (Raise (encode_error (today_text self content w)), after)
   ∧ MemoryStore.read_today self after = (Ok [], after))
  ∧ (fs w !! MemoryStore.memory_file self ≠ Some Dir →
     let after :=
       set_fs <[MemoryStore.memory_file self := File []]> w in
     MemoryStore.write_long_term self content w
     = (Raise (encode_error content), after)
     ∧ MemoryStore.read_long_term self after = (Ok [], after)).
Proof.
  intros Hmem Hcontent. split.
  - intros Hdir after. split.
    + apply append_today_raises; [done|].
      apply write_text_surrogate; [|done|by apply today_text_surrogate].
      unfold today_file_in. by rewrite parent_joinpath.
    + apply (read_today_run self after []).
      unfold after, set_fs, today_file_in. cbn [fs today_ordinal].
      apply lookup_insert_eq.
  - intros Hdir after. split.
    + apply write_long_term_raises.
      apply write_text_surrogate; [|done..].
      unfold MemoryStore.memory_file. by rewrite parent_joinpath.
    + unfold MemoryStore.read_long_term, bind, path_exists, read_text.
      unfold after, set_fs. cbn [fs]. rewrite lookup_insert_eq. cbn.
      by rewrite lookup_insert_eq.
Qed.

(** X18. The writers do not create the memory directory: once it is gone,
    [append_today] and [write_long_term] raise [FileNotFoundError] and
    leave the whole world as it was, whether an index is configured or
    not. *)
Theorem write_needs_the_memory_directory (self : MemoryStore.t)
    (content : Py.str) (w : World B) :
  fs w !! MemoryStore.memory_dir self = None →
  fs w !! today_file_in self w ≠ Some Dir →
  (∃ msg,
     MemoryStore.append_today self content w
     = (Raise (Exception (py "FileNotFoundError") msg), w))
  ∧ (∃ msg,
       MemoryStore.write_long_term self content w
       = (Raise (Exception (py "FileNotFoundError") msg), w)).
Proof.
  intros Hmem Hdir. split; exists [].
  - apply append_today_raises; [done|].
    apply write_text_no_directory.
    unfold today_file_in. by rewrite parent_joinpath.
  - apply write_long_term_raises, write_text_no_directory.
    unfold MemoryStore.memory_file. by rewrite parent_joinpath.
Qed.

End FailedWrites.

(** ** The tool *)

Section Tool.
Context {B : Type} `{!Backend B} `{!Calendar}.

(** X15. The tool cannot tell a failing collection from an empty one: with
    an index configured, when the collection's query raises, [execute]
    still returns, its text is "No memories found for: {query}", and the
    failure is only logged as a warning. Left out, [count] is 10. *)
Theorem execute_hides_query_failure (self : MemoryStore.t)
    (vector : VectorStore.t) (query : Py.str) (count : option Z)
    (w : World B) (e : exn) (b : B) :
  MemoryStore._vector self = Some vector →
  coll_query [query] (default 10 count) None
    (index (refreshed self vector w)) = (Raise e, b) →
  MemorySearchTool.execute (MemorySearchTool.mk self) query count w
  = (Ok (py "No memories found for: " ++ query),
     add_log WARNING (py "VectorStore search failed: " ++ exn_str e)
       (set_index b (refreshed self vector w))).
Proof.
  intros Hv Hq.
  unfold MemorySearchTool.execute, MemoryStore.search_memory.
  cbn [MemorySearchTool._memory]. rewrite Hv, refresh_run.
  unfold bind. rewrite search_run. cbn [VectorStore.kwargs_where].
  by rewrite Hq.
Qed.

End Tool.

(** ** Re-indexing at startup *)

Section ReindexAll.
Context `{!Calendar} `{!Chroma.Embedding}.

Lemma upsert_file_file_run (vector : VectorStore.t) (path : Path)
    (doc_type content : Py.str) (w : World (gmap Py.str Chroma.Entry)) :
  fs w !! path = Some (File content) →
  ∃ w',
    VectorStore.upsert_file vector path doc_type w
    = (Ok (Z.of_nat (length (chunks_of content))), w')
    ∧ fs w' = fs w ∧ log w' = log w ∧ today_ordinal w' = today_ordinal w
    ∧ ∀ i chunk,
        chunks_of content !! i = Some chunk →
        index w' !! VectorStore.chunk_id (PurePath.stem path) i
        = Some (Chroma.mkEntry chunk
                  (VectorStore.chunk_metadata (PurePath.stem path) doc_type)).
Proof.
  intros Hf. rewrite upsert_file_run, Hf. eexists. split; [reflexivity|].
  destruct (chunks_of content) as [|c chunks] eqn:Hc; [done|].
  repeat split. intros i chunk Hi. cbn [index set_index].
  erewrite lookup_union_Some_l; [reflexivity|]. by apply written_lookup.
Qed.

(** The loop over the daily files. *)
Lemma reindex_loop (vector : VectorStore.t) (files : list Path) (total : Z)
    (w : World (gmap Py.str Chroma.Entry)) :
  Forall (fun f => ∃ content, fs w !! f = Some (File content)) files →
  NoDup (PurePath.stem <$> files) →
  ∃ total' w',
    for_each files (reindex_step vector) total w = (Ok total', w')
    ∧ fs w' = fs w ∧ log w' = log w ∧ today_ordinal w' = today_ordinal w
    ∧ (∀ s j, s ∉ PurePath.stem <$> files →
         index w' !! VectorStore.chunk_id s j
         = index w !! VectorStore.chunk_id s j)
    ∧ (∀ f content i chunk,
         f ∈ files → fs w !! f = Some (File content) →
         chunks_of content !! i = Some chunk →
         index w' !! VectorStore.chunk_id (PurePath.stem f) i
         = Some (Chroma.mkEntry chunk
                   (VectorStore.chunk_metadata (PurePath.stem f) (py "daily")))).
Proof.
  intros Hfiles. revert total w Hfiles.
  induction files as [|f files IH]; intros total w Hfiles Hstems.
  { exists total, w. repeat split; try done. intros ???? Hin. inversion Hin. }
  apply Forall_cons in Hfiles as [[content Hf] Hfiles].
  rewrite fmap_cons in Hstems. apply NoDup_cons in Hstems as [Hfresh Hstems].
  destruct (upsert_file_file_run vector f (py "daily") content w Hf)
    as (w1 & Hrun & Hfs1 & Hlog1 & Hclock1 & Hidx1).
  destruct (IH (total + Z.of_nat (length (chunks_of content))) w1)
    as (total' & w' & Hloop & Hfs & Hlog & Hclock & Hother & Hidx).
  { eapply Forall_impl; [exact Hfiles|]. intros f' [c Hc]. exists c.
    by rewrite Hfs1. }
  { done. }
  exists total', w'. split.
  { assert (Hstep : reindex_step vector total f w
      = (Ok (total + Z.of_nat (length (chunks_of content))), w1)).
    { unfold reindex_step, bind. by rewrite Hrun. }
    cbn [for_each]. by rewrite (bind_run _ _ _ _ _ Hstep). }
  split; [congruence|]. split; [congruence|]. split; [congruence|]. split.
  - intros s j Hs. rewrite fmap_cons in Hs.
    apply not_elem_of_cons in Hs as [Hne Hs].
    rewrite Hother by done.
    replace w1 with (VectorStore.upsert_file vector f (py "daily") w).2
      by by rewrite Hrun.
    by apply upsert_file_other_source.
  - intros f' content' i chunk Hin Hf' Hi.
    apply elem_of_cons in Hin as [->|Hin].
    + rewrite Hother by done. rewrite Hf in Hf'. simplify_eq. by apply Hidx1.
    + eapply Hidx; [done| |done]. by rewrite Hfs1.
Qed.

(** A name that matches "????-??-??.md" is ten characters and ".md". *)
Lemma dated_name_split (nm : Py.str) :
  matches_pattern (py "????-??-??.md") nm →
  ∃ s, length s = 10%nat ∧ nm = s ++ py ".md".
Proof.
  unfold matches_pattern.
  change (py "????-??-??.md")
    with [63; 63; 63; 63; 45; 63; 63; 45; 63; 63; 46; 109; 100]%N.
  intros Hm.
  repeat match goal with
         | Hx : Forall2 _ (_ :: _) _ |- _ => inversion Hx; clear Hx; subst
         | Hx : Forall2 _ [] _ |- _ => inversion Hx; clear Hx; subst
         end.
  repeat match goal with
         | Hx : ?a = ?b ∨ ?a = ?c |- _ =>
             destruct Hx as [Hx|Hx]; [try discriminate Hx|try subst]
         end.
  all: eexists [_; _; _; _; _; _; _; _; _; _]; split; reflexivity.
Qed.

Lemma stem_memory_file (self : MemoryStore.t) :
  PurePath.stem (MemoryStore.memory_file self) = py "MEMORY".
Proof.
  unfold MemoryStore.memory_file.
  by apply (stem_md (MemoryStore.memory_dir self) (py "MEMORY")).
Qed.

Lemma dated_files_same_disk (self : MemoryStore.t)
    (w w' : World (gmap Py.str Chroma.Entry)) :
  fs w' = fs w → dated_files self w' = dated_files self w.
Proof. intros Hfs. unfold dated_files. by rewrite Hfs. Qed.

Lemma dated_file_stem (self : MemoryStore.t)
    (w : World (gmap Py.str Chroma.Entry)) (f : Path) :
  f ∈ dated_files self w →
  ∃ day, length day = 10%nat
         ∧ f = MemoryStore.memory_dir self // (day ++ py ".md")
         ∧ PurePath.stem f = day.
Proof.
  intros (_ & nm & -> & (day & Hlen & ->)%dated_name_split)%dated_files_elem.
  exists day. split; [done|]. split; [done|].
  apply stem_md. by destruct day.
Qed.

(** X16. The startup re-indexing indexes every document: with an index
    configured, over the reference collection, when neither the long-term
    file nor an entry named like a daily file is a directory,
    [_reindex_all] returns, changes no file, logs one info line, and leaves
    every chunk of MEMORY.md under [MEMORY::i] with type long_term and
    every chunk of every daily file [day.md] under [day::i] with type
    daily. *)
Theorem reindex_all_indexes_every_document (self : MemoryStore.t)
    (vector : VectorStore.t) (w : World (gmap Py.str Chroma.Entry)) :
  MemoryStore._vector self = Some vector →
  fs w !! MemoryStore.memory_file self ≠ Some Dir →
  (∀ nm, matches_pattern (py "????-??-??.md") nm →
         fs w !! (MemoryStore.memory_dir self // nm) ≠ Some Dir) →
  let w' := (MemoryStore._reindex_all self w).2 in
  (MemoryStore._reindex_all self w).1 = Ok tt
  ∧ fs w' = fs w
  ∧ (∃ msg, log w' = log w ++ [(INFO, msg)])
  ∧ (∀ content i chunk,
       fs w !! MemoryStore.memory_file self = Some (File content) →
       Chunker._split_paragraphs (universal_newlines content) !! i
         = Some chunk →
       index w' !! VectorStore.chunk_id (py "MEMORY") i
       = Some (Chroma.mkEntry chunk
                 {[ py "source" := py "MEMORY";
                    py "type" := py "long_term" ]}))
  ∧ (is_Some (fs w !! MemoryStore.memory_dir self) →
     ∀ day content i chunk,
       matches_pattern (py "????-??-??.md") (day ++ py ".md") →
       fs w !! (MemoryStore.memory_dir self // (day ++ py ".md"))
         = Some (File content) →
       Chunker._split_paragraphs (universal_newlines content) !! i
         = Some chunk →
       index w' !! VectorStore.chunk_id day i
       = Some (Chroma.mkEntry chunk
                 {[ py "source" := day; py "type" := py "daily" ]})).
Proof.
  intros Hv Hmem Hdirs w'.
  (* the long-term document *)
  assert (Hfirst : ∃ total1 w1,
    (if bool_decide (is_Some (fs w !! MemoryStore.memory_file self)) then
       n <- VectorStore.upsert_file vector (MemoryStore.memory_file self)
              (py "long_term") ;;
       ret (0 + n)
     else ret 0) w = (Ok total1, w1)
    ∧ fs w1 = fs w ∧ log w1 = log w
    ∧ ∀ content i chunk,
        fs w !! MemoryStore.memory_file self = Some (File content) →
        chunks_of content !! i = Some chunk →
        index w1 !! VectorStore.chunk_id (py "MEMORY") i
        = Some (Chroma.mkEntry chunk
                  (VectorStore.chunk_metadata (py "MEMORY") (py "long_term")))).
  { destruct (fs w !! MemoryStore.memory_file self) as [[content|]|] eqn:Hf;
      [|done|].
    - destruct (upsert_file_file_run vector (MemoryStore.memory_file self)
        (py "long_term") content w Hf) as (w1 & Hrun & Hfs1 & Hlog1 & _ & Hidx1).
      exists (0 + Z.of_nat (length (chunks_of content))), w1.
      split; [cbn; unfold bind; by rewrite Hrun|].
      split; [done|]. split; [done|].
      intros content' i chunk [= <-] Hi.
      rewrite <- (stem_memory_file self). by apply Hidx1.
    - exists 0, w. by repeat split. }
  destruct Hfirst as (total1 & w1 & Hrun1 & Hfs1 & Hlog1 & Hidx1).
  (* the daily files *)
  set (files := if bool_decide (is_Some (fs w !! MemoryStore.memory_dir self))
                then dated_files self w else []).
  assert (Hsub : ∀ f, f ∈ files → f ∈ dated_files self w).
  { intros f. subst files.
    destruct (bool_decide (is_Some (fs w !! MemoryStore.memory_dir self)));
      [tauto|].
    by intros ?%elem_of_nil. }
  assert (Hlist : ∀ w0 : World (gmap Py.str Chroma.Entry),
    fs w0 = fs w → MemoryStore.list_memory_files self w0 = (Ok files, w0)).
  { intros w0 Hfs0. rewrite list_memory_files_run.
    by rewrite (dated_files_same_disk self w w0), Hfs0. }
  destruct (reindex_loop vector files total1 w1)
    as (total2 & w2 & Hloop & Hfs2 & Hlog2 & _ & Hother & Hidx2).
  { apply Forall_forall. intros f Hf. pose proof (Hsub f Hf) as Hin.
    apply dated_files_elem in Hin as ([x Hx] & nm & -> & Hnm).
    rewrite Hfs1. destruct x as [content|]; [by exists content|].
    by destruct (Hdirs nm Hnm). }
  { apply NoDup_fmap_2_strong.
    - intros f1 f2 Hf1%Hsub Hf2%Hsub Heq.
      apply dated_file_stem in Hf1 as (d1 & _ & -> & Hs1).
      apply dated_file_stem in Hf2 as (d2 & _ & -> & Hs2).
      congruence.
    - subst files.
      destruct (bool_decide (is_Some (fs w !! MemoryStore.memory_dir self)));
        [apply dated_files_NoDup|constructor]. }
  assert (Hrun : MemoryStore._reindex_all self w
    = (Ok tt,
       add_log INFO
         (py "Reindexed memory: " ++ Py.of_int total2 ++ py " chunks from "
            ++ Py.of_nat (length files) ++ py " daily files + MEMORY.md") w2)).
  { unfold MemoryStore._reindex_all. rewrite Hv. cbn zeta.
    fold (reindex_step vector).
    rewrite (bind_run _ _ _ _ _
               (eq_refl : path_exists (MemoryStore.memory_file self) w
                          = (Ok (bool_decide
                                   (is_Some (fs w !! MemoryStore.memory_file self))),
                             w))).
    rewrite (bind_run _ _ _ _ _ Hrun1).
    rewrite (bind_run _ _ _ _ _ (Hlist w1 Hfs1)).
    rewrite (bind_run _ _ _ _ _ Hloop).
    rewrite (bind_run _ _ _ _ _ (Hlist w2 ltac:(congruence))).
    reflexivity. }
  subst w'. rewrite Hrun. cbn [fst snd].
  split; [done|]. split; [cbn; congruence|].
  split; [eexists; cbn; by rewrite Hlog2, Hlog1|]. split.
  - intros content i chunk Hf Hi. cbn [index add_log].
    rewrite Hother; [by eapply Hidx1|].
    intros (f & Hstem & Hin%Hsub)%list_elem_of_fmap.
    apply dated_file_stem in Hin as (day & Hlen & _ & Hday).
    rewrite Hday in Hstem. by rewrite <- Hstem in Hlen.
  - intros Hdir day content i chunk Hm Hf Hi. cbn [index add_log].
    assert (Hin : MemoryStore.memory_dir self // (day ++ py ".md") ∈ files).
    { subst files. rewrite bool_decide_eq_true_2 by done.
      apply dated_files_elem. split; [by rewrite Hf|]. by eexists. }
    assert (Hstem : PurePath.stem
              (MemoryStore.memory_dir self // (day ++ py ".md")) = day).
    { apply Hsub, dated_file_stem in Hin as (day' & _ & Heq & Hs).
      rewrite Hs. unfold joinpath in Heq. apply app_inj_tail in Heq as [_ Heq].
      by apply app_inv_tail in Heq. }
    rewrite <- Hstem at 1.
    erewrite Hidx2; [by rewrite Hstem|done|by rewrite Hfs1|done].
Qed.

End ReindexAll.

(** * The further properties at work in a workspace *)

Section MoreScenarios.
Import Scenario.
#[local] Existing Instance Scenario.by_length.
#[local] Existing Instance Gregorian.calendar.
#[local] Existing Instance Unreachable.backend.

(** The store without index assembles its context and touches nothing. *)
Lemma get_memory_context_without_search_witness :
  (Some (py "delivery") = None ∨ Some (py "delivery") = Some []
   ∨ MemoryStore._vector plain_store = None)
  ∧ (MemoryStore.get_memory_context plain_store (Some (py "delivery")) busy).2
    = busy.
Proof.
  assert (H0 : Some (py "delivery") = None ∨ Some (py "delivery") = Some []
               ∨ MemoryStore._vector plain_store = None)
    by (right; right; reflexivity).
  split; [exact H0|].
  exact (proj1 (get_memory_context_without_search plain_store
                  (Some (py "delivery")) busy H0)).
Defined.

(** A long-term note is written over the busy workspace and read back. *)
Lemma long_term_round_trip_witness :
  fs busy !! MemoryStore.memory_dir store = Some Dir
  ∧ fs busy !! MemoryStore.memory_file store ≠ Some Dir
  ∧ Py.encodable note2 = true
  ∧ (Py.CR ∉ note2)
  ∧ (MemoryStore.read_long_term store
       (MemoryStore.write_long_term store note2 busy).2).1 = Ok note2.
Proof.
  assert (H0 : fs busy !! MemoryStore.memory_file store ≠ Some Dir)
    by (intros Heq; vm_compute in Heq; discriminate Heq).
  assert (H1 : Py.CR ∉ note2)
    by (apply (bool_decide_unpack _); vm_compute; exact I).
  assert (Hm : fs busy !! MemoryStore.memory_dir store = Some Dir)
    by (vm_compute; reflexivity).
  assert (He : Py.encodable note2 = true) by (vm_compute; reflexivity).
  split; [exact Hm|]. split; [exact H0|]. split; [exact He|].
  split; [exact H1|].
  destruct (long_term_round_trip store note2 busy Hm H0 He)
    as (_ & _ & _ & Hread).
  exact (Hread H1).
Defined.

(** A short note is appended to today's notes of the busy workspace. *)
Lemma append_today_extends_reading_witness :
  let existing := py "# 2025-06-01" ++ [Py.LF; Py.LF] ++ note1 in
  fs busy !! MemoryStore.memory_dir store = Some Dir
  ∧ fs busy !! today_file_in store busy = Some (File existing)
  ∧ Py.encodable existing = true
  ∧ Py.encodable short_note = true
  ∧ ∃ before,
      (MemoryStore.read_today store busy).1 = Ok before
      ∧ (MemoryStore.read_today store
           (MemoryStore.append_today store short_note busy).2).1
        = Ok (before ++ [Py.LF] ++ universal_newlines short_note).
Proof.
  intros existing.
  assert (H0 : fs busy !! today_file_in store busy = Some (File existing))
    by (vm_compute; reflexivity).
  assert (Hm : fs busy !! MemoryStore.memory_dir store = Some Dir)
    by (vm_compute; reflexivity).
  assert (He : Py.encodable existing = true) by (vm_compute; reflexivity).
  assert (Hc : Py.encodable short_note = true) by (vm_compute; reflexivity).
  split; [exact Hm|]. split; [exact H0|]. split; [exact He|].
  split; [exact Hc|].
  destruct (append_today_extends_reading store short_note existing busy
              Hm H0 He Hc) as (before & Hbefore & _ & Hafter & _).
  exists before. split; [exact Hbefore | exact Hafter].
Defined.

(** The notes of the last three days of the busy workspace. *)
Lemma get_recent_memories_joins_witness :
  3 ≤ today_ordinal busy
  ∧ (∀ i, 0 ≤ i < 3 → fs busy !! day_file store busy i ≠ Some Dir)
  ∧ MemoryStore.get_recent_memories store 3 busy
    = (Ok (Py.join MemoryStore.SEPARATOR (recent_texts store busy 3)), busy).
Proof.
  assert (H0 : 3 ≤ today_ordinal busy) by (vm_compute; discriminate).
  assert (H1 : ∀ i, 0 ≤ i < 3 → fs busy !! day_file store busy i ≠ Some Dir).
  { intros i Hi. assert (i = 0 ∨ i = 1 ∨ i = 2) as [->|[->| ->]] by lia;
      intros Heq; vm_compute in Heq; discriminate Heq. }
  split; [exact H0|]. split; [exact H1|].
  exact (proj1 (get_recent_memories_joins store 3 busy H0 H1)).
Defined.

(** A million days back from the busy workspace's today is out of range. *)
Lemma get_recent_memories_overflow_witness :
  0 < 1000000
  ∧ today_ordinal busy < 1000000
  ∧ (∀ i, 0 ≤ i < today_ordinal busy →
          fs busy !! day_file store busy i ≠ Some Dir)
  ∧ MemoryStore.get_recent_memories store 1000000 busy
    = (Raise (Exception (py "OverflowError") (py "date value out of range")),
       busy).
Proof.
  assert (H0 : 0 < 1000000) by lia.
  assert (H1 : today_ordinal busy < 1000000) by (vm_compute; reflexivity).
  assert (H2 : ∀ i, 0 ≤ i < today_ordinal busy →
                    fs busy !! day_file store busy i ≠ Some Dir).
  { intros i _ Heq. unfold busy in Heq. cbn [fs] in Heq.
    apply lookup_insert_Some in Heq as [[Heq _]|[_ Heq]].
    - apply (f_equal length) in Heq. unfold day_file, joinpath in Heq.
      rewrite length_app in Heq. vm_compute in Heq. discriminate Heq.
    - apply lookup_insert_Some in Heq as [[_ Heq]|[_ Heq]]; [discriminate Heq|].
      apply lookup_singleton_Some in Heq as [_ Heq]. discriminate Heq. }
  split; [exact H0|]. split; [exact H1|]. split; [exact H2|].
  exact (get_recent_memories_overflow store 1000000 busy H0 H1 H2).
Defined.

(** No memory directory, no file; in the busy workspace, a list. *)
Lemma list_memory_files_newest_first_witness :
  let w : World unit := mkWorld ∅ tt [] TODAY in
  fs w !! MemoryStore.memory_dir store = None
  ∧ MemoryStore.list_memory_files store w = (Ok [], w)
  ∧ is_Some (fs busy !! MemoryStore.memory_dir store)
  ∧ ∃ files,
      MemoryStore.list_memory_files store busy = (Ok files, busy)
      ∧ NoDup files.
Proof.
  intros w.
  assert (H0 : fs w !! MemoryStore.memory_dir store = None)
    by apply lookup_empty.
  assert (H1 : is_Some (fs busy !! MemoryStore.memory_dir store))
    by (exists Dir; vm_compute; reflexivity).
  split; [exact H0|].
  split; [exact (proj1 (list_memory_files_newest_first store w) H0)|].
  split; [exact H1|].
  destruct (proj2 (list_memory_files_newest_first store busy) H1)
    as (files & Hrun & _ & Hnodup & _).
  exists files. split; [exact Hrun | exact Hnodup].
Defined.

(** Today's source is deleted and today's file indexed again. *)
Lemma delete_then_upsert_is_exact_witness :
  let content := py "# 2025-06-01" ++ [Py.LF; Py.LF] ++ note1 in
  let w1 := (VectorStore.delete_by_source vector (py "2025-06-01") busy).2 in
  let w2 := (VectorStore.upsert_file vector today_file (py "daily") w1).2 in
  fs busy !! today_file = Some (File content)
  ∧ index w2 !! py "2025-06-01::0" = Some (daily (py "2025-06-01") note1).
Proof.
  intros content w1 w2.
  assert (H0 : fs busy !! today_file = Some (File content))
    by (vm_compute; reflexivity).
  split; [exact H0|].
  refine (proj1 (proj2 (delete_then_upsert_is_exact vector today_file
                          (py "daily") content busy H0
                          (py "2025-06-01::0") (daily (py "2025-06-01") note1))
                   _)).
  exists 0%nat, note1. split; [vm_compute; reflexivity|].
  split; vm_compute; reflexivity.
Defined.

(** One chunk in an empty collection: [count()] goes from 0 to 1. *)
Lemma upsert_file_count_witness :
  let w : World (gmap Py.str Chroma.Entry) :=
    mkWorld {[ memory := Dir; today_file := File note1 ]} ∅ [] TODAY in
  let w' := (VectorStore.upsert_file vector today_file (py "daily") w).2 in
  fs w !! today_file = Some (File note1)
  ∧ ∃ before after,
      (VectorStore.count vector w).1 = Ok before
      ∧ (VectorStore.count vector w').1 = Ok after
      ∧ after = before
                + Z.of_nat (length (Chunker._split_paragraphs
                                      (universal_newlines note1))).
Proof.
  intros w w'.
  assert (H0 : fs w !! today_file = Some (File note1))
    by (vm_compute; reflexivity).
  split; [exact H0|].
  destruct (upsert_file_count vector today_file (py "daily") note1 w H0)
    as (before & after & Hbefore & Hafter & _ & Hfresh).
  exists before, after. split; [exact Hbefore|]. split; [exact Hafter|].
  apply Hfresh. intros i _. apply lookup_empty.
Defined.

(** Indexing today's file leaves the long-term chunk ids alone. *)
Lemma chunk_ids_separate_sources_witness :
  py "MEMORY" ≠ PurePath.stem today_file
  ∧ index (VectorStore.upsert_file vector today_file (py "daily") busy).2
      !! VectorStore.chunk_id (py "MEMORY") 0
    = index busy !! VectorStore.chunk_id (py "MEMORY") 0.
Proof.
  assert (H0 : py "MEMORY" ≠ PurePath.stem today_file)
    by (intros Heq; vm_compute in Heq; discriminate Heq).
  split; [exact H0|].
  exact (proj2 (chunk_ids_separate_sources vector today_file (py "daily") busy)
           (py "MEMORY") 0%nat H0).
Defined.

(** A note appended in the busy workspace joins the paragraph of the
    first, a single newline between them, and the paragraph is indexed as
    chunk 0 of today's date. *)
Lemma append_today_indexes_today_witness :
  let existing := py "# 2025-06-01" ++ [Py.LF; Py.LF] ++ note1 in
  let w' := (MemoryStore.append_today store note3 busy).2 in
  MemoryStore._vector store = Some vector
  ∧ strftime_ymd (today_ordinal busy) ≠ []
  ∧ fs busy !! MemoryStore.memory_dir store = Some Dir
  ∧ fs busy !! today_file_in store busy ≠ Some Dir
  ∧ Py.encodable (strftime_ymd (today_ordinal busy)) = true
  ∧ (∀ text, fs busy !! today_file_in store busy = Some (File text) →
             Py.encodable text = true)
  ∧ Py.encodable note3 = true
  ∧ (MemoryStore.append_today store note3 busy).1 = Ok tt
  ∧ fs w' !! today_file_in store busy
    = Some (File (existing ++ [Py.LF] ++ note3))
  ∧ index w' !! py "2025-06-01::0"
    = Some (daily (py "2025-06-01") (note1 ++ [Py.LF] ++ note3)).
Proof.
  intros existing w'.
  assert (H0 : MemoryStore._vector store = Some vector) by reflexivity.
  assert (H1 : strftime_ymd (today_ordinal busy) ≠ [])
    by (intros Heq; vm_compute in Heq; discriminate Heq).
  assert (Hm : fs busy !! MemoryStore.memory_dir store = Some Dir)
    by (vm_compute; reflexivity).
  assert (H2 : fs busy !! today_file_in store busy ≠ Some Dir)
    by (intros Heq; vm_compute in Heq; discriminate Heq).
  assert (H3 : Py.encodable (strftime_ymd (today_ordinal busy)) = true)
    by (vm_compute; reflexivity).
  assert (H4 : ∀ text, fs busy !! today_file_in store busy = Some (File text) →
                       Py.encodable text = true).
  { intros text Hf.
    assert (Hbusy : fs busy !! today_file_in store busy
                    = Some (File existing)) by (vm_compute; reflexivity).
    rewrite Hbusy in Hf. injection Hf as <-. vm_compute; reflexivity. }
  assert (H5 : Py.encodable note3 = true) by (vm_compute; reflexivity).
  split; [exact H0|]. split; [exact H1|]. split; [exact Hm|].
  split; [exact H2|]. split; [exact H3|]. split; [exact H4|].
  split; [exact H5|].
  destruct (append_today_indexes_today store vector note3 busy
              H0 H1 Hm H2 H3 H4 H5) as (text & Hfile & Hok & _ & Hidx).
  assert (Hw' : fs w' !! today_file_in store busy
                = Some (File (existing ++ [Py.LF] ++ note3)))
    by (vm_compute; reflexivity).
  split; [exact Hok|]. split; [exact Hw'|].
  fold w' in Hfile. rewrite Hw' in Hfile. injection Hfile as <-.
  exact (Hidx 0%nat (note1 ++ [Py.LF] ++ note3)
           ltac:(vm_compute; reflexivity)).
Defined.

(** A long-term note written in the busy workspace is indexed as MEMORY. *)
Lemma write_long_term_indexes_memory_witness :
  MemoryStore._vector store = Some vector
  ∧ fs busy !! MemoryStore.memory_dir store = Some Dir
  ∧ fs busy !! MemoryStore.memory_file store ≠ Some Dir
  ∧ Py.encodable note2 = true
  ∧ index (MemoryStore.write_long_term store note2 busy).2
      !! VectorStore.chunk_id (py "MEMORY") 0
    = Some (Chroma.mkEntry note2
              {[ py "source" := py "MEMORY"; py "type" := py "long_term" ]}).
Proof.
  assert (H0 : MemoryStore._vector store = Some vector) by reflexivity.
  assert (H1 : fs busy !! MemoryStore.memory_file store ≠ Some Dir)
    by (intros Heq; vm_compute in Heq; discriminate Heq).
  assert (Hm : fs busy !! MemoryStore.memory_dir store = Some Dir)
    by (vm_compute; reflexivity).
  assert (He : Py.encodable note2 = true) by (vm_compute; reflexivity).
  split; [exact H0|]. split; [exact Hm|]. split; [exact H1|].
  split; [exact He|].
  destruct (write_long_term_indexes_memory store vector note2 busy
              H0 Hm H1 He) as (_ & _ & Hidx).
  exact (Hidx 0%nat note2 ltac:(vm_compute; reflexivity)).
Defined.

(** A note with a lone surrogate U+D800 is appended in the busy workspace:
    the call raises and today's notes are gone. *)
Lemma surrogate_empties_the_file_witness :
  let content := py "Delivery moved" ++ [55296%N] in
  let after := set_fs <[today_file := File []]> busy in
  fs busy !! MemoryStore.memory_dir store = Some Dir
  ∧ Py.encodable content = false
  ∧ fs busy !! today_file_in store busy ≠ Some Dir
  ∧ fs busy !! today_file_in store busy
    = Some (File (py "# 2025-06-01" ++ [Py.LF; Py.LF] ++ note1))
  ∧ MemoryStore.append_today store content busy
    = (Raise (Exception (py "UnicodeEncodeError")
                (py "'utf-8' codec can't encode character '\ud800' in position 96: surrogates not allowed")),
       after)
  ∧ MemoryStore.read_today store after = (Ok [], after).
Proof.
  intros content after.
  assert (H0 : fs busy !! MemoryStore.memory_dir store = Some Dir)
    by (vm_compute; reflexivity).
  assert (H1 : Py.encodable content = false) by (vm_compute; reflexivity).
  assert (H2 : fs busy !! today_file_in store busy ≠ Some Dir)
    by (intros Heq; vm_compute in Heq; discriminate Heq).
  split; [exact H0|]. split; [exact H1|]. split; [exact H2|].
  split; [vm_compute; reflexivity|].
  destruct (surrogate_empties_the_file store content busy H0 H1)
    as [Happend _].
  destruct (Happend H2) as [Hraise Hread].
  split; [|exact Hread].
  etransitivity; [exact Hraise|]. vm_compute; reflexivity.
Defined.

(** A workspace without memory directory: nothing is written. *)
Lemma write_needs_the_memory_directory_witness :
  let w : World unit := mkWorld ∅ tt [] TODAY in
  fs w !! MemoryStore.memory_dir store = None
  ∧ fs w !! today_file_in store w ≠ Some Dir
  ∧ (MemoryStore.append_today store note1 w).2 = w
  ∧ (MemoryStore.write_long_term store note1 w).2 = w.
Proof.
  intros w.
  assert (H0 : fs w !! MemoryStore.memory_dir store = None)
    by apply lookup_empty.
  assert (H1 : fs w !! today_file_in store w ≠ Some Dir).
  { intros Heq. unfold w in Heq. cbn [fs] in Heq.
    rewrite lookup_empty in Heq. discriminate Heq. }
  split; [exact H0|]. split; [exact H1|].
  destruct (write_needs_the_memory_directory store note1 w H0 H1)
    as [[msg1 Happend] [msg2 Hwrite]].
  split.
  - exact (f_equal snd Happend).
  - exact (f_equal snd Hwrite).
Defined.

(** The tool over an unreachable collection. *)
Lemma execute_hides_query_failure_witness :
  let w : World unit := fresh tt in
  MemoryStore._vector store = Some vector
  ∧ coll_query [py "delivery"] (default 10 None) None
      (index (refreshed store vector w)) = (Raise Unreachable.failure, tt)
  ∧ (MemorySearchTool.execute (MemorySearchTool.mk store) (py "delivery")
       None w).1
    = Ok (py "No memories found for: " ++ py "delivery").
Proof.
  intros w.
  assert (H0 : MemoryStore._vector store = Some vector) by reflexivity.
  assert (H1 : coll_query [py "delivery"] (default 10 None) None
                 (index (refreshed store vector w))
               = (Raise Unreachable.failure, tt)) by reflexivity.
  split; [exact H0|]. split; [exact H1|].
  exact (f_equal fst (execute_hides_query_failure store vector (py "delivery")
                        None w _ _ H0 H1)).
Defined.

(** The busy workspace is re-indexed from scratch. *)
Lemma reindex_all_indexes_every_document_witness :
  let w : World (gmap Py.str Chroma.Entry) :=
    mkWorld (fs busy) ∅ [] TODAY in
  MemoryStore._vector store = Some vector
  ∧ fs w !! MemoryStore.memory_file store ≠ Some Dir
  ∧ (∀ nm, matches_pattern (py "????-??-??.md") nm →
           fs w !! (MemoryStore.memory_dir store // nm) ≠ Some Dir)
  ∧ (MemoryStore._reindex_all store w).1 = Ok tt
  ∧ index (MemoryStore._reindex_all store w).2
      !! VectorStore.chunk_id (py "2025-05-31") 0
    = Some (daily (py "2025-05-31") note2).
Proof.
  intros w.
  assert (H0 : MemoryStore._vector store = Some vector) by reflexivity.
  assert (H1 : fs w !! MemoryStore.memory_file store ≠ Some Dir)
    by (intros Heq; vm_compute in Heq; discriminate Heq).
  assert (H2 : ∀ nm, matches_pattern (py "????-??-??.md") nm →
                     fs w !! (MemoryStore.memory_dir store // nm) ≠ Some Dir).
  { intros nm _ Heq. unfold w, busy in Heq. cbn [fs] in Heq.
    apply lookup_insert_Some in Heq as [[Heq _]|[_ Heq]].
    - apply (f_equal length) in Heq. vm_compute in Heq. discriminate Heq.
    - apply lookup_insert_Some in Heq as [[_ Heq]|[_ Heq]]; [discriminate Heq|].
      apply lookup_singleton_Some in Heq as [_ Heq]. discriminate Heq. }
  split; [exact H0|]. split; [exact H1|]. split; [exact H2|].
  destruct (reindex_all_indexes_every_document store vector w H0 H1 H2)
    as (Hok & _ & _ & _ & Hdaily).
  split; [exact Hok|].
  refine (Hdaily _ (py "2025-05-31")
            (py "# 2025-05-31" ++ [Py.LF; Py.LF] ++ note2) 0%nat note2 _ _ _).
  - exists Dir. vm_compute; reflexivity.
  - apply fnmatch_matches. vm_compute; reflexivity.
  - vm_compute; reflexivity.
  - vm_compute; reflexivity.
Defined.

End MoreScenarios.
